(** * ETL of formulation alarms: a shallow embedding of the pipeline

    The development follows the three packages of the repository:
    - [src/extract/file_reader.py]  (module [FileReader]),
    - [src/transform/log_parser.py] (module [LogParser]),
    - [src/load/database.py]        (module [DatabaseLoader]),
    with the constants of [config/config.py] in module [Config].
    The library calls whose result the code cannot determine (pandas'
    timestamp parser, numpy's default sort, the storage engine) are
    section variables; the calls of the logger are left out except in
    the loader, where their level is recorded.  Module [Numpy] holds
    the sort that numpy runs for [kind='quicksort'], for the examples
    in which the order of equal keys matters.

    Text is modelled as [string]: a sequence of characters whose code
    points lie in 0..255 (the Latin-1 range).  On that range Python's
    [str.isspace], the [\s] of [re] and the set removed by [str.strip]
    coincide (code points 9-13, 28-32, 133 and 160) and [\d] is 0-9. *)

From Stdlib Require Import ZArith List Ascii String Bool Lia Permutation Sorted.
From stdpp Require Import base option list strings gmap.

Local Open Scope string_scope.
Local Open Scope list_scope.

(** ** Python strings *)

Module PyStr.

Definition chars (s : string) : list ascii := list_ascii_of_string s.
Definition text (l : list ascii) : string := string_of_list_ascii l.

(** [c.isspace()] for a code point below 256. *)
Definition isspace (c : ascii) : bool :=
  let n := N_of_ascii c in
  ((9 <=? n) && (n <=? 13) || (28 <=? n) && (n <=? 32) || (n =? 133) || (n =? 160))%N.

Definition isdigit (c : ascii) : bool :=
  let n := N_of_ascii c in ((48 <=? n) && (n <=? 57))%N.

Fixpoint starts_with (p s : list ascii) : bool :=
  match p, s with
  | [], _ => true
  | _ :: _, [] => false
  | a :: p', b :: s' => Ascii.eqb a b && starts_with p' s'
  end.

(** [sub in s] on characters. *)
Fixpoint find_in (sub s : list ascii) : bool :=
  starts_with sub s ||
  match s with
  | [] => false
  | _ :: s' => find_in sub s'
  end.

(** [sub in s] *)
Definition contains (sub s : string) : bool := find_in (chars sub) (chars s).

Fixpoint lstrip_chars (l : list ascii) : list ascii :=
  match l with
  | [] => []
  | c :: l' => if isspace c then lstrip_chars l' else l
  end.

Definition rstrip_chars (l : list ascii) : list ascii :=
  rev (lstrip_chars (rev l)).

Definition strip_chars (l : list ascii) : list ascii :=
  rstrip_chars (lstrip_chars l).

(** [s.strip()] *)
Definition strip (s : string) : string := text (strip_chars (chars s)).

(** Code-point order of [str], as used by [<] and by sorting. *)
Definition compare (a b : string) : comparison := String.compare a b.

Definition leb (a b : string) : bool :=
  match compare a b with
  | Gt => false
  | _ => true
  end.

End PyStr.

(** ** The fragment of [re] used by the parser

    Every quantifier of the two patterns applies to a single character
    class, so the syntax has quantified classes rather than a general
    star.  Matching is the backtracking search of [re.match]: anchored
    at the start, greedy, first success wins, and a group holds the
    text consumed by its body on the successful path. *)

Module Re.

Inductive cclass : Type :=
| Digit          (* \d *)
| Space          (* \s *)
| NonSpace       (* \S *)
| NotRBracket    (* [^\]] *)
| Dot.           (* . : anything but a newline *)

Definition cls_test (p : cclass) (c : ascii) : bool :=
  match p with
  | Digit => PyStr.isdigit c
  | Space => PyStr.isspace c
  | NonSpace => negb (PyStr.isspace c)
  | NotRBracket => negb (Ascii.eqb c "]")
  | Dot => negb (Ascii.eqb c "010")
  end.

Inductive regex : Type :=
| Lit (c : ascii)
| Times (p : cclass) (n : nat)     (* p{n} *)
| Plus (p : cclass)                (* p+   *)
| Star (p : cclass)                (* p*   *)
| Seq (r1 r2 : regex)
| Grp (r : regex).                 (* ( r ) *)

Definition captures := list (list ascii).
Definition cont := list ascii -> captures -> option captures.

(** Greedy [p*]: consume as long as possible, give characters back on
    failure of the continuation. *)
Fixpoint star_k (p : cclass) (s : list ascii) (k : list ascii -> option captures)
  : option captures :=
  match s with
  | [] => k []
  | c :: s' =>
      if cls_test p c then
        match star_k p s' k with
        | Some r => Some r
        | None => k s
        end
      else k s
  end.

Fixpoint times_k (p : cclass) (n : nat) (s : list ascii)
  (k : list ascii -> option captures) : option captures :=
  match n with
  | O => k s
  | S n' =>
      match s with
      | [] => None
      | c :: s' => if cls_test p c then times_k p n' s' k else None
      end
  end.

Fixpoint match_k (r : regex) (s : list ascii) (caps : captures) (k : cont)
  : option captures :=
  match r with
  | Lit c =>
      match s with
      | [] => None
      | c' :: s' => if Ascii.eqb c c' then k s' caps else None
      end
  | Times p n => times_k p n s (fun s' => k s' caps)
  | Plus p =>
      match s with
      | [] => None
      | c :: s' => if cls_test p c then star_k p s' (fun s'' => k s'' caps) else None
      end
  | Star p => star_k p s (fun s' => k s' caps)
  | Seq r1 r2 => match_k r1 s caps (fun s' caps' => match_k r2 s' caps' k)
  | Grp r =>
      match_k r s caps
        (fun s' caps' => k s' (caps' ++ [take (length s - length s') s]))
  end.

(** [re.match(pattern, s)] followed by [.groups()]. *)
Definition re_match (r : regex) (s : string) : option (list string) :=
  match match_k r (PyStr.chars s) [] (fun _ caps => Some caps) with
  | Some caps => Some (map PyStr.text caps)
  | None => None
  end.

Fixpoint seq_of (rs : list regex) : regex :=
  match rs with
  | [] => Times Dot 0
  | [r] => r
  | r :: rs' => Seq r (seq_of rs')
  end.

Fixpoint lits (l : list ascii) : list regex :=
  match l with
  | [] => []
  | c :: l' => Lit c :: lits l'
  end.

Definition word (s : string) : regex := seq_of (lits (PyStr.chars s)).

(** Number of groups of a pattern. *)
Fixpoint ngroups (r : regex) : nat :=
  match r with
  | Lit _ | Times _ _ | Plus _ | Star _ => 0
  | Seq r1 r2 => ngroups r1 + ngroups r2
  | Grp r => S (ngroups r)
  end.

(** The texts a pattern denotes. *)
Fixpoint lang (r : regex) (w : list ascii) : Prop :=
  match r with
  | Lit c => w = [c]
  | Times p n => length w = n /\ Forall (fun c => cls_test p c = true) w
  | Plus p => w <> [] /\ Forall (fun c => cls_test p c = true) w
  | Star p => Forall (fun c => cls_test p c = true) w
  | Seq r1 r2 => exists w1 w2, w = w1 ++ w2 /\ lang r1 w1 /\ lang r2 w2
  | Grp r => lang r w
  end.

(** The texts a pattern denotes together with the texts of its groups,
    in the order in which the groups close. *)
Fixpoint lang_groups (r : regex) (w : list ascii) (gs : captures) : Prop :=
  match r with
  | Seq r1 r2 =>
      exists w1 w2 g1 g2,
        w = w1 ++ w2 /\ gs = g1 ++ g2 /\ lang_groups r1 w1 g1 /\ lang_groups r2 w2 g2
  | Grp r' => exists g, lang_groups r' w g /\ gs = g ++ [w]
  | _ => lang r w /\ gs = []
  end.

End Re.

(** ** Stable sorting

    [list.sort] and [numpy.lexsort] are stable; a stable sort has one
    possible result, computed here by insertion. *)

Module PySort.

Section Insertion.
Context {A : Type} (le : A -> A -> bool).

Fixpoint insert (x : A) (l : list A) : list A :=
  match l with
  | [] => [x]
  | y :: l' => if le x y then x :: l else y :: insert x l'
  end.

Fixpoint sort (l : list A) : list A :=
  match l with
  | [] => []
  | x :: l' => insert x (sort l')
  end.

(** The order as a proposition. *)
Definition le_prop (a b : A) : Prop := le a b = true.

(** The elements that sort together with [k]: neither is before the
    other. *)
Definition tied (k z : A) : bool := le k z && le z k.

End Insertion.

End PySort.

(** ** Three-way comparisons

    The sort keys are compared three-way; an order [<=] is derived
    from the comparison. *)

Module Cmp.

(** [a <= b] for a three-way comparison. *)
Definition le_of {A : Type} (cmp : A -> A -> comparison) (a b : A) : bool :=
  match cmp a b with
  | Gt => false
  | _ => true
  end.

(** Comparison on a key. *)
Definition on {A B : Type} (f : A -> B) (cmp : B -> B -> comparison) (a b : A) : comparison :=
  cmp (f a) (f b).

(** Lexicographic combination: the second comparison breaks ties. *)
Definition lex {A : Type} (c1 c2 : A -> A -> comparison) (a b : A) : comparison :=
  match c1 a b with
  | Eq => c2 a b
  | Lt => Lt
  | Gt => Gt
  end.

Class CmpOrder {A : Type} (cmp : A -> A -> comparison) : Prop := {
  cmp_antisym : forall a b, cmp b a = CompOpp (cmp a b);
  cmp_lt_trans : forall a b c, cmp a b = Lt -> cmp b c = Lt -> cmp a c = Lt;
  cmp_eq_l : forall a b c, cmp a b = Eq -> cmp a c = cmp b c
}.

End Cmp.

(** ** numpy's default indirect sort

    [DataFrame.sort_values] with one key and no [kind] ends in
    [numpy.argsort(kind='quicksort')] on the [datetime64] values that
    are not NaT.  For that type numpy runs the introsort of
    [npysort/quicksort.cpp] ([aquicksort_<npy::datetime_tag>]) with the
    heapsort of [npysort/heapsort.cpp] as its fallback.  The two are
    transcribed here, loop by loop: [tosort] is the array of indices,
    the pointers into it are offsets, and each loop has a bound on its
    number of iterations that it does not reach. *)

Module Numpy.

Definition SMALL_QUICKSORT : Z := 16.

(** [NPY_DATETIME_NAT] *)
Definition NPY_DATETIME_NAT : Z := - 2 ^ 63.

(** [npy::datetime_tag::less]: NaT is greater than every time. *)
Definition less (a b : Z) : bool :=
  if (a =? NPY_DATETIME_NAT)%Z then false
  else if (b =? NPY_DATETIME_NAT)%Z then true
  else (a <? b)%Z.

(** [npy_get_msb]: the number of times the argument can be halved
    before it is zero. *)
Definition npy_get_msb (unum : Z) : Z := Z.log2 unum.

Section Sort.

(** The keys, [v]. *)
Variable v : list Z.

(** A bound on the iterations of each loop. *)
Variable bound : nat.

(** [v[i]] *)
Definition key (i : nat) : Z := default 0%Z (v !! i).

(** [*p] and [*p = x], for a pointer [p] into [tosort]. *)
Definition deref (tosort : list nat) (p : Z) : nat := default 0 (tosort !! Z.to_nat p).
Definition store (tosort : list nat) (p : Z) (x : nat) : list nat :=
  <[Z.to_nat p := x]> tosort.

(** [INTP_SWAP( *p, *q )] *)
Definition INTP_SWAP (tosort : list nat) (p q : Z) : list nat :=
  let tmp := deref tosort q in
  store (store tosort q (deref tosort p)) p tmp.

(** [do { ++pi; } while (less(v[*pi], vp));] *)
Fixpoint scan_up (fuel : nat) (tosort : list nat) (vp : Z) (pi : Z) : Z :=
  let pi := (pi + 1)%Z in
  match fuel with
  | 0 => pi
  | S fuel => if less (key (deref tosort pi)) vp then scan_up fuel tosort vp pi else pi
  end.

(** [do { --pj; } while (less(vp, v[*pj]));] *)
Fixpoint scan_down (fuel : nat) (tosort : list nat) (vp : Z) (pj : Z) : Z :=
  let pj := (pj - 1)%Z in
  match fuel with
  | 0 => pj
  | S fuel => if less vp (key (deref tosort pj)) then scan_down fuel tosort vp pj else pj
  end.

(** The [for (;;)] of the partition: it returns the array and [pi]. *)
Fixpoint partition (fuel : nat) (tosort : list nat) (vp : Z) (pi pj : Z)
  : list nat * Z :=
  match fuel with
  | 0 => (tosort, pi)
  | S fuel =>
      let pi := scan_up bound tosort vp pi in
      let pj := scan_down bound tosort vp pj in
      if (pj <=? pi)%Z then (tosort, pi)
      else partition fuel (INTP_SWAP tosort pi pj) vp pi pj
  end.

(** [while ((pr - pl) > SMALL_QUICKSORT)]: median of three, partition
    around it, push the larger part with the new depth and go on with
    the smaller.  It returns the array, [pl], [pr] and the stack. *)
Fixpoint quicksort_partitions (fuel : nat) (tosort : list nat) (pl pr : Z)
  (stack : list (Z * Z * Z)) (cdepth : Z) : list nat * Z * Z * list (Z * Z * Z) :=
  match fuel with
  | 0 => (tosort, pl, pr, stack)
  | S fuel =>
      if (SMALL_QUICKSORT <? pr - pl)%Z then
        let pm := (pl + Z.shiftr (pr - pl) 1)%Z in
        let tosort :=
          if less (key (deref tosort pm)) (key (deref tosort pl))
          then INTP_SWAP tosort pm pl else tosort in
        let tosort :=
          if less (key (deref tosort pr)) (key (deref tosort pm))
          then INTP_SWAP tosort pr pm else tosort in
        let tosort :=
          if less (key (deref tosort pm)) (key (deref tosort pl))
          then INTP_SWAP tosort pm pl else tosort in
        let vp := key (deref tosort pm) in
        let pi := pl in
        let pj := (pr - 1)%Z in
        let tosort := INTP_SWAP tosort pm pj in
        let '(tosort, pi) := partition bound tosort vp pi pj in
        let pk := (pr - 1)%Z in
        let tosort := INTP_SWAP tosort pi pk in
        let cdepth := (cdepth - 1)%Z in
        if (pi - pl <? pr - pi)%Z
        then quicksort_partitions fuel tosort pl (pi - 1)%Z
               ((pi + 1, pr, cdepth)%Z :: stack) cdepth
        else quicksort_partitions fuel tosort (pi + 1)%Z pr
               ((pl, pi - 1, cdepth)%Z :: stack) cdepth
      else (tosort, pl, pr, stack)
  end.

(** [while (pj > pl && less(vp, v[*pk])) { *pj-- = *pk--; }] *)
Fixpoint shift (fuel : nat) (tosort : list nat) (vp : Z) (pl pj pk : Z)
  : list nat * Z :=
  match fuel with
  | 0 => (tosort, pj)
  | S fuel =>
      if (pl <? pj)%Z && less vp (key (deref tosort pk))
      then shift fuel (store tosort pj (deref tosort pk)) vp pl (pj - 1)%Z (pk - 1)%Z
      else (tosort, pj)
  end.

(** The insertion sort of a small part:
    [for (pi = pl + 1; pi <= pr; ++pi)]. *)
Fixpoint insertion_sort (fuel : nat) (tosort : list nat) (pl pr pi : Z) : list nat :=
  match fuel with
  | 0 => tosort
  | S fuel =>
      if (pi <=? pr)%Z then
        let vi := deref tosort pi in
        let vp := key vi in
        let '(tosort, pj) := shift bound tosort vp pl pi (pi - 1)%Z in
        insertion_sort fuel (store tosort pj vi) pl pr (pi + 1)%Z
      else tosort
  end.

(** The sifting loop of the heapsort, on [a = tosort - 1]:
    [for (...; j <= n;)], then [a[i] = tmp]. *)
Fixpoint sift (fuel : nat) (tosort : list nat) (a : Z) (tmp : nat) (i j n : Z)
  : list nat :=
  match fuel with
  | 0 => store tosort (a + i)%Z tmp
  | S fuel =>
      if (j <=? n)%Z then
        let j :=
          if (j <? n)%Z
             && less (key (deref tosort (a + j)%Z)) (key (deref tosort (a + (j + 1))%Z))
          then (j + 1)%Z else j in
        if less (key tmp) (key (deref tosort (a + j)%Z))
        then sift fuel (store tosort (a + i)%Z (deref tosort (a + j)%Z)) a tmp j (j + j)%Z n
        else store tosort (a + i)%Z tmp
      else store tosort (a + i)%Z tmp
  end.

(** [for (l = n >> 1; l > 0; --l)]: the heap is built. *)
Fixpoint heapify (fuel : nat) (tosort : list nat) (a : Z) (l n : Z) : list nat :=
  match fuel with
  | 0 => tosort
  | S fuel =>
      if (0 <? l)%Z then
        let tmp := deref tosort (a + l)%Z in
        heapify fuel (sift bound tosort a tmp l (Z.shiftl l 1) n) a (l - 1)%Z n
      else tosort
  end.

(** [for (; n > 1;)]: the greatest element is moved behind the heap. *)
Fixpoint heap_extract (fuel : nat) (tosort : list nat) (a : Z) (n : Z) : list nat :=
  match fuel with
  | 0 => tosort
  | S fuel =>
      if (1 <? n)%Z then
        let tmp := deref tosort (a + n)%Z in
        let tosort := store tosort (a + n)%Z (deref tosort (a + 1)%Z) in
        let n := (n - 1)%Z in
        heap_extract fuel (sift bound tosort a tmp 1 2 n) a n
      else tosort
  end.

(** [aheapsort_(vv, tosort, n)], on the part that starts at [pl]. *)
Definition aheapsort (tosort : list nat) (pl : Z) (n : Z) : list nat :=
  let a := (pl - 1)%Z in
  heap_extract bound (heapify bound tosort a (Z.shiftr n 1) n) a n.

(** The [while (1)] of [aquicksort_]: heapsort when the depth is used
    up, otherwise partitions and an insertion sort; then the next part
    is popped, and the sort ends when the stack is empty. *)
Fixpoint aquicksort_loop (fuel : nat) (tosort : list nat) (pl pr : Z)
  (stack : list (Z * Z * Z)) (cdepth : Z) : list nat :=
  match fuel with
  | 0 => tosort
  | S fuel =>
      let '(tosort, stack) :=
        if (cdepth <? 0)%Z then (aheapsort tosort pl (pr - pl + 1)%Z, stack)
        else
          let '(tosort, pl, pr, stack) :=
            quicksort_partitions bound tosort pl pr stack cdepth in
          (insertion_sort bound tosort pl pr (pl + 1)%Z, stack) in
      match stack with
      | [] => tosort
      | (pl, pr, cdepth) :: stack => aquicksort_loop fuel tosort pl pr stack cdepth
      end
  end.

End Sort.

(** [numpy.argsort(v, kind='quicksort')] for [datetime64] keys: the
    indirect sort is run on the indices [0 .. num - 1]. *)
Definition argsort_quicksort (v : list Z) : list nat :=
  let num := Z.of_nat (length v) in
  let bound := S (length v) in
  aquicksort_loop v bound bound (seq 0 (length v)) 0%Z (num - 1)%Z []
    (npy_get_msb num * 2)%Z.

End Numpy.

(** ** config/config.py *)

Module Config.

(** [EXTRACT_CONFIG] *)
Definition file_extension : string := ".log".
Definition encodings_to_try : list string :=
  ["utf-8"; "latin-1"; "iso-8859-1"; "cp1252"; "windows-1252"; "cp850"].

(** [TRANSFORM_CONFIG] *)
Definition filters : list string := ["CFN"; "OK"; "acknowledged"].

(** [PERFORMANCE_CONFIG] *)
Definition batch_size : nat := 1000.

End Config.

(** ** src/extract/file_reader.py *)

Module FileReader.

(** A [Path] below the source directory, identified by its final
    component: [iterdir] yields children of one directory, so their
    order as paths (POSIX flavour) is the order of their names. *)
Definition Path := string.

Record FileInfo : Type := {
  filename : string;
  filepath : Path;
  lines : list string;
  encoding : string;
  line_count : nat
}.

(** What the reader observes of the file system.  [None] stands for a
    raised exception: [Path.exists] and [Path.is_file] answer [False]
    on a missing path and raise on any other [OSError] of [stat]. *)
Record FileSystem : Type := {
  dir_exists : option bool;                (* source_directory.exists() *)
  iterdir : option (list Path);            (* source_directory.iterdir() *)
  is_file : Path -> option bool;           (* f.is_file() *)
  open_readlines : string -> Path -> option (list string)
                                           (* open(f, 'r', encoding=e).readlines() *)
}.

(** [name.rfind('.')] *)
Fixpoint rfind_dot (l : list ascii) : option nat :=
  match l with
  | [] => None
  | c :: l' =>
      match rfind_dot l' with
      | Some i => Some (S i)
      | None => if Ascii.eqb c "." then Some 0 else None
      end
  end.

(** [PurePath.suffix]: [name[i:]] when [0 < i < len(name) - 1]. *)
Definition suffix (f : Path) : string :=
  let name := PyStr.chars f in
  match rfind_dot name with
  | Some i =>
      if ((0 <? i) && (i <? length name - 1))%nat
      then PyStr.text (drop i name) else ""
  | None => ""
  end.

(** [str.upper] of one character, as the code points of the result:
    two characters leave the Latin-1 range and one becomes two letters. *)
Definition upper_char (c : ascii) : list N :=
  let n := N_of_ascii c in
  if ((97 <=? n) && (n <=? 122))%N then [(n - 32)%N]
  else if (n =? 181)%N then [924%N]
  else if (n =? 223)%N then [83%N; 83%N]
  else if ((224 <=? n) && (n <=? 254) && negb (n =? 247))%N then [(n - 32)%N]
  else if (n =? 255)%N then [376%N]
  else [n].

(** [s.upper()] *)
Definition upper (s : string) : list N :=
  concat (map upper_char (PyStr.chars s)).

Definition same_upper (a b : string) : bool :=
  bool_decide (upper a = upper b).

(** The comprehension of [list_files]:
    [[f for f in entries if f.is_file() and f.suffix.upper() == ...]].
    [is_file] is called on every entry, in order; [None] when one of
    the calls raises. *)
Fixpoint select_files (fs : FileSystem) (entries : list Path) : option (list Path) :=
  match entries with
  | [] => Some []
  | f :: rest =>
      match is_file fs f with
      | None => None
      | Some is_f =>
          match select_files fs rest with
          | None => None
          | Some files =>
              Some (if is_f && same_upper (suffix f) Config.file_extension
                    then f :: files else files)
          end
      end
  end.

(** [FileReader.list_files]: whatever is raised inside the [try] ends
    in [except Exception], which returns the empty list. *)
Definition list_files (fs : FileSystem) : list Path :=
  match dir_exists fs with
  | None => []
  | Some false => []
  | Some true =>
      match iterdir fs with
      | None => []
      | Some entries =>
          match select_files fs entries with
          | None => []
          | Some files => PySort.sort PyStr.leb files
          end
      end
  end.

(** The [for encoding in self.encodings] loop of [read_file]. *)
Fixpoint try_encodings (fs : FileSystem) (filepath : Path) (encodings : list string)
  : option FileInfo :=
  match encodings with
  | [] => None
  | encoding :: rest =>
      match open_readlines fs encoding filepath with
      | Some lines =>
          Some {| filename := filepath;
                  filepath := filepath;
                  lines := lines;
                  encoding := encoding;
                  line_count := length lines |}
      | None => try_encodings fs filepath rest
      end
  end.

(** [FileReader.read_file] *)
Definition read_file (fs : FileSystem) (filepath : Path) : option FileInfo :=
  try_encodings fs filepath Config.encodings_to_try.

(** The [for filepath in files] loop of [read_all_files], with its
    accumulator [file_infos]. *)
Fixpoint read_loop (fs : FileSystem) (files : list Path) (file_infos : list FileInfo)
  : list FileInfo :=
  match files with
  | [] => file_infos
  | filepath :: rest =>
      match read_file fs filepath with
      | Some file_info => read_loop fs rest (file_infos ++ [file_info])
      | None => read_loop fs rest file_infos
      end
  end.

(** [FileReader.read_all_files] *)
Definition read_all_files (fs : FileSystem) : list FileInfo :=
  let files := list_files fs in
  match files with
  | [] => []
  | _ => read_loop fs files []
  end.

(** Values stored in the dictionary of [FileReader.get_statistics].
    [list(set(...))] has no specified order: it is kept as a set. *)
Inductive ReaderStat : Type :=
| RInt (n : Z)
| REncodings (encodings : gset string)
| RSizes (files : list (string * nat)).

(** [sum(fi.line_count for fi in file_infos)] *)
Definition total_lines (file_infos : list FileInfo) : Z :=
  foldr (fun fi acc => (Z.of_nat (line_count fi) + acc)%Z) 0%Z file_infos.

(** [sorted(pairs, key=lambda x: x[1], reverse=True)]: by decreasing
    second component, equal ones in their input order. *)
Definition sorted_by_size (pairs : list (string * nat)) : list (string * nat) :=
  PySort.sort (fun a b => (snd b <=? snd a)%nat) pairs.

(** [FileReader.get_statistics] *)
Definition get_statistics (file_infos : list FileInfo) : gmap string ReaderStat :=
  match file_infos with
  | [] => ∅
  | _ =>
      <["files_by_size" :=
          RSizes (sorted_by_size (map (fun fi => (filename fi, line_count fi)) file_infos))]>
      (<["encodings_used" := REncodings (list_to_set (map encoding file_infos))]>
      (<["total_lines" := RInt (total_lines file_infos)]>
      (<["total_files" := RInt (Z.of_nat (length file_infos))]> ∅)))
  end.

(** The pairs [(fi.filename, fi.line_count)]. *)
Definition size_pairs (file_infos : list FileInfo) : list (string * nat) :=
  map (fun fi => (filename fi, line_count fi)) file_infos.

(** Sum of the line counts of such pairs. *)
Definition sum_sizes (pairs : list (string * nat)) : Z :=
  foldr (fun p acc => (Z.of_nat (snd p) + acc)%Z) 0%Z pairs.

End FileReader.

(** ** src/transform/log_parser.py *)

Module LogParser.

Import Re.

(** A point in time of a [datetime] column, in nanoseconds; an absent
    value ([None], [NaT]) is [None]. *)
Definition Timestamp := Z.

(** The dictionary built by [_create_record]; one row of a DataFrame. *)
Record AlarmRecord : Type := {
  arquivo_origem : string;
  timestamp : string;
  datetime : option Timestamp;
  pc_id : string;
  alarm : string;
  type : string;
  linha_original : string
}.

(** A DataFrame of parsed records: its rows in index order.
    [df.empty] is [df = []]. *)
Definition DataFrame := list AlarmRecord.

(** [(\d{4}-\d{2}-\d{2}\s+\d{2}:\d{2}:\d{2},\d+)] *)
Definition TIMESTAMP_GROUP : regex :=
  Grp (seq_of [Times Digit 4; Lit "-"; Times Digit 2; Lit "-"; Times Digit 2;
               Plus Space;
               Times Digit 2; Lit ":"; Times Digit 2; Lit ":"; Times Digit 2;
               Lit ","; Plus Digit]).

(** [(\d{4}-\d{2}-\d{2}\s+\d{2}:\d{2}:\d{2},\d+)\s+\[([^\]]+)\]\s+(\S+)\s+.*] *)
Definition PATTERN_FULL : regex :=
  seq_of [TIMESTAMP_GROUP; Plus Space;
          Lit "["; Grp (Plus NotRBracket); Lit "]"; Plus Space;
          Grp (Plus NonSpace); Plus Space;
          Star Dot].

(** [(\d{4}-\d{2}-\d{2}\s+\d{2}:\d{2}:\d{2},\d+)\s+\[([^\]]+)\]\s+(\S+)\s+ALARM\s+is\s+acknowledged.*] *)
Definition PATTERN_ACK : regex :=
  seq_of [TIMESTAMP_GROUP; Plus Space;
          Lit "["; Grp (Plus NotRBracket); Lit "]"; Plus Space;
          Grp (Plus NonSpace); Plus Space;
          word "ALARM"; Plus Space; word "is"; Plus Space; word "acknowledged";
          Star Dot].

(** [LogParser.determine_type] *)
Definition determine_type (line : string) : string :=
  if PyStr.contains "ALARM is acknowledged" line then "ACK"
  else if PyStr.contains "CFN" line then "CFN"
  else if PyStr.contains "OK" line then "OK"
  else "N/A".

Section Parser.

(** [pd.to_datetime(timestamp, format='%Y-%m-%d %H:%M:%S,%f')] inside
    its [try]: [None] when pandas raises. *)
Variable to_datetime : string -> option Timestamp.

(** [LogParser._create_record] *)
Definition _create_record (source_file timestamp pc_id alarm alarm_type original_line : string)
  : AlarmRecord :=
  let dt := to_datetime timestamp in
  {| arquivo_origem := source_file;
     timestamp := timestamp;
     datetime := dt;
     pc_id := pc_id;
     alarm := PyStr.strip alarm;
     type := alarm_type;
     linha_original := original_line |}.

(** [LogParser.parse_line].  Both patterns have three groups, so the
    unpacking [timestamp, pc_id, alarm = match.groups()] cannot fail;
    the catch-all branches are never taken (see [re_match_three]). *)
Definition parse_line (line source_file : string) : option AlarmRecord :=
  if negb (existsb (fun filter_term => PyStr.contains filter_term line) Config.filters)
  then None
  else
    let line_stripped := PyStr.strip line in
    let alarm_type := determine_type line_stripped in
    match re_match PATTERN_ACK line_stripped with
    | Some [timestamp; pc_id; alarm] =>
        Some (_create_record source_file timestamp pc_id alarm "ACK" line_stripped)
    | Some _ => None
    | None =>
        match re_match PATTERN_FULL line_stripped with
        | Some [timestamp; pc_id; alarm] =>
            Some (_create_record source_file timestamp pc_id alarm alarm_type line_stripped)
        | Some _ => None
        | None => None
        end
    end.

(** [LogParser.parse_file]: the loop appending to [records]. *)
Fixpoint parse_file (lines : list string) (source_file : string) : DataFrame :=
  match lines with
  | [] => []
  | line :: rest =>
      match parse_line line source_file with
      | Some record => record :: parse_file rest source_file
      | None => parse_file rest source_file
      end
  end.

(** The loop of [parse_multiple_files] collecting the non-empty
    per-file frames. *)
Fixpoint collect_dataframes (file_infos : list FileReader.FileInfo) : list DataFrame :=
  match file_infos with
  | [] => []
  | file_info :: rest =>
      let df := parse_file (FileReader.lines file_info) (FileReader.filename file_info) in
      match df with
      | [] => collect_dataframes rest
      | _ => df :: collect_dataframes rest
      end
  end.

(** [numpy.argsort(kind='quicksort')] on the known times: the default
    [kind] of [sort_values], which the code does not override. *)
Variable argsort : list Timestamp -> list nat.

(** Positions of the rows with a known, resp. absent, [datetime]. *)
Fixpoint positions (keep : AlarmRecord -> bool) (i : nat) (df : DataFrame) : list nat :=
  match df with
  | [] => []
  | r :: df' => if keep r then i :: positions keep (S i) df' else positions keep (S i) df'
  end.

Definition notna (r : AlarmRecord) : bool :=
  match datetime r with Some _ => true | None => false end.

Definition isna (r : AlarmRecord) : bool := negb (notna r).

(** [items[~mask]] *)
Definition known_times (df : DataFrame) : list Timestamp := omap datetime df.

(** The indexer of pandas' [nargsort] with [na_position='last']:
    [nonnan_idx[nonnan.argsort(kind)]] followed by [nan_idx]. *)
Definition nargsort (df : DataFrame) : list nat :=
  let nonnan_idx := positions notna 0 df in
  let nan_idx := positions isna 0 df in
  omap (fun j => nonnan_idx !! j) (argsort (known_times df)) ++ nan_idx.

(** [df.sort_values('datetime').reset_index(drop=True)]: the rows taken
    in the order of the indexer. *)
Definition sort_values_datetime (df : DataFrame) : DataFrame :=
  omap (fun i => df !! i) (nargsort df).

(** [LogParser.parse_multiple_files] *)
Definition parse_multiple_files (file_infos : list FileReader.FileInfo) : DataFrame :=
  let dataframes := collect_dataframes file_infos in
  match dataframes with
  | [] => []
  | _ =>
      let df_consolidated := concat dataframes in
      sort_values_datetime df_consolidated
  end.

End Parser.

(** Values stored in the statistics dictionary. *)
Inductive StatValue : Type :=
| VInt (n : Z)
| VCounts (d : gmap string Z)
| VTime (t : Timestamp).

(** [series.value_counts().to_dict()] *)
Fixpoint value_counts (col : list string) : gmap string Z :=
  match col with
  | [] => ∅
  | v :: col' =>
      let d := value_counts col' in
      <[v := (1 + default 0 (d !! v))%Z]> d
  end.

(** [series.nunique()] *)
Definition nunique (col : list string) : Z :=
  Z.of_nat (size (list_to_set col : gset string)).

(** [series.min()] and [series.max()] over the known times. *)
Definition series_min (t : Timestamp) (ts : list Timestamp) : Timestamp := foldr Z.min t ts.
Definition series_max (t : Timestamp) (ts : list Timestamp) : Timestamp := foldr Z.max t ts.

(** Nanoseconds in a day; [Timedelta.days] is the floor of the quotient. *)
Definition day_ns : Z := 86400 * 1000000000.

(** [Timedelta.max], in nanoseconds. *)
Definition timedelta_max : Z := 2 ^ 63 - 1.

(** [period_end - period_start], of two [Timestamp]s of which the
    second is not before the first: the [Timedelta] between them, in
    nanoseconds; raises when it exceeds [Timedelta.max]. *)
Definition timedelta_between (period_start period_end : Timestamp) : option Z :=
  let delta := (period_end - period_start)%Z in
  if (delta <=? timedelta_max)%Z then Some delta else None.

(** [LogParser.get_statistics]; [None] when the subtraction of the
    period raises, which nothing in the function catches. *)
Definition get_statistics (df : DataFrame) : option (gmap string StatValue) :=
  match df with
  | [] => Some ∅
  | _ =>
      let stats : gmap string StatValue :=
        <["records_by_file" := VCounts (value_counts (map arquivo_origem df))]>
        (<["records_by_type" := VCounts (value_counts (map type df))]>
        (<["unique_pc_ids" := VInt (nunique (map pc_id df))]>
        (<["unique_alarms" := VInt (nunique (map alarm df))]>
        (<["total_records" := VInt (Z.of_nat (length df))]> ∅)))) in
      match omap datetime df with
      | [] => Some stats
      | t :: ts =>
          let period_start := series_min t ts in
          let period_end := series_max t ts in
          match timedelta_between period_start period_end with
          | None => None
          | Some delta =>
              Some (<["period_days" := VInt (delta / day_ns)]>
                    (<["period_end" := VTime period_end]>
                    (<["period_start" := VTime period_start]> stats)))
          end
      end
  end.

(** Order of two [datetime] cells with [na_position='last']. *)
Definition cmp_datetime (a b : option Timestamp) : comparison :=
  match a, b with
  | Some x, Some y => Z.compare x y
  | Some _, None => Lt
  | None, Some _ => Gt
  | None, None => Eq
  end.

(** Lexicographic order on the keys [['pc_id', 'alarm', 'datetime']]. *)
Definition cmp_sequence (a b : AlarmRecord) : comparison :=
  match PyStr.compare (pc_id a) (pc_id b) with
  | Eq =>
      match PyStr.compare (alarm a) (alarm b) with
      | Eq => cmp_datetime (datetime a) (datetime b)
      | c => c
      end
  | c => c
  end.

Definition le_sequence (a b : AlarmRecord) : bool :=
  match cmp_sequence a b with
  | Gt => false
  | _ => true
  end.

(** [LogParser.group_alarm_sequences]: with several keys pandas sorts
    through [numpy.lexsort], a stable sort. *)
Definition group_alarm_sequences (df : DataFrame) : DataFrame :=
  match df with
  | [] => df
  | _ => PySort.sort le_sequence df
  end.

End LogParser.

(** ** src/load/database.py *)

Module DatabaseLoader.

Import LogParser.

(** Levels of the messages sent to the logger; the log of a run is the
    sequence of levels emitted. *)
Inductive Level : Type := INFO | WARNING | ERROR.

(** A row of [alarm_logs] as [load_dataframe] writes it: the record and
    the [created_at] column added to the copy. *)
Record AlarmLog : Type := {
  record : AlarmRecord;
  created_at : Timestamp
}.

(** The [if_exists] argument of [DataFrame.to_sql]. *)
Inductive IfExists : Type := Fail_ | Replace | Append.

(** The keyword arguments given to the [ETLStatistics] constructor. *)
Record ETLStatistics : Type := {
  total_files : StatValue;
  total_records : StatValue;
  cfn_count : Z;
  ok_count : Z;
  ack_count : Z;
  period_start : option StatValue;
  period_end : option StatValue;
  execution_time_seconds : Z;
  status : string
}.

(** A row of [etl_statistics]: the columns the database fills in
    ([id], [execution_date]) and those of the object. *)
Record StatRow : Type := {
  id : Z;
  execution_date : Timestamp;
  stat : ETLStatistics
}.

(** The SQLAlchemy session: the committed rows of [etl_statistics] and
    the objects added but not yet flushed. *)
Record Session : Type := {
  etl_statistics : list StatRow;
  pending : list ETLStatistics
}.

(** The state a [DatabaseLoader] acts on. *)
Record Loader : Type := {
  tables : gmap string (list AlarmLog);
  session : Session;
  log : list Level
}.

(** A Python [float]. *)
Inductive pyfloat : Type :=
| Finite (num : Z) (den : positive)
| Inf
| NaN.

(** [int(x)]: truncation towards zero; raises on [inf] and [nan]. *)
Definition py_int (x : pyfloat) : option Z :=
  match x with
  | Finite num den => Some (Z.quot num (Z.pos den))
  | Inf => None
  | NaN => None
  end.

Definition logger (lvl : Level) (st : Loader) : Loader :=
  {| tables := tables st; session := session st; log := log st ++ [lvl] |}.

Definition with_session (s : Session) (st : Loader) : Loader :=
  {| tables := tables st; session := s; log := log st |}.

Definition with_tables (t : gmap string (list AlarmLog)) (st : Loader) : Loader :=
  {| tables := t; session := session st; log := log st |}.

(** [stats.get('records_by_type', {}).get(key, 0)]: raises when the
    stored value has no [get]. *)
Definition count_of (stats : gmap string StatValue) (key : string) : option Z :=
  match stats !! "records_by_type" with
  | None => Some 0%Z
  | Some (VCounts d) => Some (default 0%Z (d !! key))
  | Some _ => None
  end.

(** The constructor call of [save_etl_statistics]; [None] when one of
    its arguments raises. *)
Definition new_statistics (stats : gmap string StatValue) (execution_time : pyfloat)
  (status : string) : option ETLStatistics :=
  match count_of stats "CFN", count_of stats "OK", count_of stats "ACK",
        py_int execution_time with
  | Some cfn, Some ok, Some ack, Some secs =>
      Some {| total_files := default (VInt 0) (stats !! "total_files");
              total_records := default (VInt 0) (stats !! "total_records");
              cfn_count := cfn;
              ok_count := ok;
              ack_count := ack;
              period_start := stats !! "period_start";
              period_end := stats !! "period_end";
              execution_time_seconds := secs;
              status := status |}
  | _, _, _, _ => None
  end.

(** Next value of the integer primary key. *)
Definition next_id (rows : list StatRow) : Z :=
  (1 + foldr Z.max 0 (map id rows))%Z.

Section Backend.

(** [dt.now(timezone.utc)] *)
Variable now : Timestamp.

(** [df_copy.to_sql(table_name, engine, if_exists=..., index=False,
    chunksize=..., method='multi')] on the tables of the engine;
    [None] when it raises. *)
Variable to_sql :
  gmap string (list AlarmLog) -> string -> IfExists -> nat -> list AlarmLog ->
  option (gmap string (list AlarmLog)).

(** Whether flushing this session to the database raises. *)
Variable commit_raises : Session -> bool.

(** INSERT of the pending objects, in the order they were added. *)
Fixpoint flush (rows : list StatRow) (objs : list ETLStatistics) : list StatRow :=
  match objs with
  | [] => rows
  | o :: objs' =>
      flush (rows ++ [{| id := next_id rows; execution_date := now; stat := o |}]) objs'
  end.

(** [session.add(obj)] *)
Definition session_add (obj : ETLStatistics) (s : Session) : Session :=
  {| etl_statistics := etl_statistics s; pending := pending s ++ [obj] |}.

(** [session.commit()]; [None] when it raises, the session being left
    as it was until [rollback] is called. *)
Definition session_commit (s : Session) : option Session :=
  if commit_raises s then None
  else Some {| etl_statistics := flush (etl_statistics s) (pending s); pending := [] |}.

(** [session.rollback()] *)
Definition session_rollback (s : Session) : Session :=
  {| etl_statistics := etl_statistics s; pending := [] |}.

(** [DatabaseLoader.load_dataframe]: the returned flag and the state
    after the call.  The conversion of the [datetime] column of the
    copy is the identity on parsed timestamps. *)
Definition load_dataframe (df : DataFrame) (table_name : string) (if_exists : IfExists)
  (st : Loader) : bool * Loader :=
  match df with
  | [] => (false, logger WARNING st)
  | _ =>
      let df_copy := map (fun r => {| record := r; created_at := now |}) df in
      let st1 := logger INFO st in
      match to_sql (tables st1) table_name if_exists Config.batch_size df_copy with
      | Some tables' => (true, logger INFO (with_tables tables' st1))
      | None => (false, logger ERROR st1)
      end
  end.

(** [DatabaseLoader.save_etl_statistics] *)
Definition save_etl_statistics (stats : gmap string StatValue) (execution_time : pyfloat)
  (status : string) (st : Loader) : bool * Loader :=
  match new_statistics stats execution_time status with
  | None =>
      (false, with_session (session_rollback (session st)) (logger ERROR st))
  | Some etl_stat =>
      let s1 := session_add etl_stat (session st) in
      match session_commit s1 with
      | Some s2 => (true, logger INFO (with_session s2 st))
      | None => (false, with_session (session_rollback s1) (logger ERROR st))
      end
  end.

End Backend.

End DatabaseLoader.

(** ** src/utils/generate_test_logs.py *)

Module GenerateTestLogs.

(** [incrementar_tempo].  The draw of [random.randint(1, 30)], used
    when no increment is given, is an argument. *)
Definition incrementar_tempo (hora minuto segundo : Z) (incremento_seg : option Z)
  (randint_1_30 : Z) : Z * Z * Z :=
  let incremento_seg :=
    match incremento_seg with
    | None => randint_1_30
    | Some i => i
    end in
  let segundo := (segundo + incremento_seg)%Z in
  let '(segundo, minuto) :=
    if (60 <=? segundo)%Z then ((segundo - 60)%Z, (minuto + 1)%Z) else (segundo, minuto) in
  let '(minuto, hora) :=
    if (60 <=? minuto)%Z then (0%Z, (hora + 1)%Z) else (minuto, hora) in
  let hora := if (24 <=? hora)%Z then 0%Z else hora in
  (hora, minuto, segundo).

(** Seconds since midnight of a clock reading. *)
Definition seconds_of_day (hora minuto segundo : Z) : Z :=
  (hora * 3600 + minuto * 60 + segundo)%Z.

End GenerateTestLogs.

(** ** Vocabulary of the properties of the parser *)

Module LogParserSpec.

Import LogParser.

(** What [numpy.argsort] promises for any [kind]: the indices of the
    keys, each once, in an order that makes the keys non-decreasing. *)
Definition sorting_indexer (keys : list Timestamp) (idx : list nat) : Prop :=
  Permutation idx (seq 0 (length keys))
  /\ Sorted Z.le (omap (fun i => keys !! i) idx).

(** The rows [sort_values] puts first: those with a known time, in the
    order chosen by [argsort]. *)
Definition timed_part (argsort : list Timestamp -> list nat) (df : DataFrame)
  : DataFrame :=
  omap (fun j => List.filter notna df !! j) (argsort (known_times df)).

(** [a] is not later than [b]; an absent time is later than any known
    time and as late as another absent one. *)
Definition not_later (a b : AlarmRecord) : Prop :=
  match datetime a, datetime b with
  | Some x, Some y => (x <= y)%Z
  | _, None => True
  | None, Some _ => False
  end.

(** The rows of one [(pc_id, alarm)] group, in the order of the frame. *)
Definition group_of (device code : string) (df : DataFrame) : DataFrame :=
  List.filter (fun r => String.eqb (pc_id r) device && String.eqb (alarm r) code) df.

(** The part the two patterns share: timestamp, device in brackets
    and alarm code, each followed by white space. *)
Definition HEAD : list Re.regex :=
  [TIMESTAMP_GROUP; Re.Plus Re.Space;
   Re.Lit "["; Re.Grp (Re.Plus Re.NotRBracket); Re.Lit "]"; Re.Plus Re.Space;
   Re.Grp (Re.Plus Re.NonSpace); Re.Plus Re.Space].

(** The pattern inside the timestamp group. *)
Definition timestamp_body : Re.regex :=
  match TIMESTAMP_GROUP with
  | Re.Grp body => body
  | r => r
  end.

(** Rows with the same device, alarm code and time. *)
Definition same_key (k r : AlarmRecord) : bool :=
  String.eqb (pc_id k) (pc_id r) && String.eqb (alarm k) (alarm r)
  && bool_decide (datetime k = datetime r).

(** Number of occurrences of [v] in a column. *)
Definition occurrences (v : string) (col : list string) : Z :=
  Z.of_nat (length (List.filter (String.eqb v) col)).

(** What [value_counts] holds for a value that occurs [n] times. *)
Definition counted (n : Z) : option Z := if (n =? 0)%Z then None else Some n.

(** Sum of the counts of a dictionary of counts. *)
Definition counts_total (d : gmap string Z) : Z :=
  map_fold (fun _ n acc => (n + acc)%Z) 0%Z d.

(** The entries of [get_statistics] that do not depend on the times. *)
Definition base_statistics (df : DataFrame) : gmap string StatValue :=
  <["records_by_file" := VCounts (value_counts (map arquivo_origem df))]>
  (<["records_by_type" := VCounts (value_counts (map type df))]>
  (<["unique_pc_ids" := VInt (nunique (map pc_id df))]>
  (<["unique_alarms" := VInt (nunique (map alarm df))]>
  (<["total_records" := VInt (Z.of_nat (length df))]> ∅)))).

(** The time between the earliest and the latest known time of a
    collection, in nanoseconds. *)
Definition period_span (df : DataFrame) : Z :=
  match known_times df with
  | [] => 0%Z
  | t :: ts => (series_max t ts - series_min t ts)%Z
  end.

(** The keys of the period entries. *)
Definition period_key (key : string) : bool :=
  String.eqb key "period_start" || String.eqb key "period_end"
  || String.eqb key "period_days".

End LogParserSpec.

(** ** Runs of the loader *)

Module DatabaseLoaderSpec.

Import LogParser DatabaseLoader.

(** One call of [save_etl_statistics] in a run: its arguments and what
    the environment does at that call, the reading of the clock and
    whether the commit raises. *)
Record SaveCall : Type := {
  call_now : Timestamp;
  call_commit_raises : bool;
  call_stats : gmap string StatValue;
  call_execution_time : pyfloat;
  call_status : string
}.

(** One call, as a state transformer. *)
Definition save_call (call : SaveCall) (st : Loader) : bool * Loader :=
  save_etl_statistics (call_now call) (fun _ => call_commit_raises call)
    (call_stats call) (call_execution_time call) (call_status call) st.

(** A run of calls, with the flags they returned. *)
Fixpoint save_calls (calls : list SaveCall) (st : Loader) : list bool * Loader :=
  match calls with
  | [] => ([], st)
  | call :: rest =>
      let r := save_call call st in
      let rs := save_calls rest (snd r) in
      (fst r :: fst rs, snd rs)
  end.

End DatabaseLoaderSpec.

(** ** Sample data and stand-ins for the library functions, used in examples *)

Module Fixtures.

(** A clock for well-formed timestamps: the digits of the text read as
    one number, which orders timestamps of equal width chronologically. *)
Definition digits_clock (s : string) : option LogParser.Timestamp :=
  Some (fold_left
          (fun acc c =>
             if PyStr.isdigit c then (acc * 10 + (Z.of_N (N_of_ascii c) - 48))%Z else acc)
          (PyStr.chars s) 0%Z).

Definition key_at (keys : list Z) (i : nat) : Z := default 0%Z (keys !! i).

(** An indirect sort that keeps equal keys in input order. *)
Definition stable_argsort (keys : list Z) : list nat :=
  PySort.sort (fun i j => (key_at keys i <=? key_at keys j)%Z) (seq 0 (length keys)).

(** A clock that, like the parser of the library, rejects a month
    outside 01..12: such a timestamp is left without a time. *)
Definition calendar_clock (s : string) : option LogParser.Timestamp :=
  match PyStr.chars s with
  | _ :: _ :: _ :: _ :: _ :: m1 :: m2 :: _ =>
      let month :=
        ((Z.of_N (N_of_ascii m1) - 48) * 10 + (Z.of_N (N_of_ascii m2) - 48))%Z in
      if ((1 <=? month) && (month <=? 12))%Z then digits_clock s else None
  | _ => None
  end.

(** One file with eighteen alarms logged at the same instant. *)
Definition burst_file : list FileReader.FileInfo :=
  let line (code : string) : string :=
    String.append "2025-10-05 07:12:33,4 [PC510A00] "
      (String.append code " CFN ALARM Erro dosagem") in
  let lines :=
    map line
      ["FMDOS01"; "FMDOS02"; "FMDOS03"; "FMDOS04"; "FMDOS05"; "FMDOS06";
       "FMDOS07"; "FMDOS08"; "FMDOS09"; "FMDOS10"; "FMDOS11"; "FMDOS12";
       "FMDOS13"; "FMDOS14"; "FMDOS15"; "FMDOS16"; "FMDOS17"; "FMDOS18"] in
  [ {| FileReader.filename := "a.log";
       FileReader.filepath := "a.log";
       FileReader.lines := lines;
       FileReader.encoding := "utf-8";
       FileReader.line_count := 18 |} ].

(** Two files whose alarms are out of order in time: two of them are
    logged at the same instant and two carry a month that does not
    exist. *)
Definition mixed_times_files : list FileReader.FileInfo :=
  [ {| FileReader.filename := "a.log";
       FileReader.filepath := "a.log";
       FileReader.lines :=
         ["2025-10-05 07:14:01,0 [PC510A00] FMDOS01 CFN ALARM Erro dosagem";
          "2025-10-05 07:12:33,4 [PC510A00] FMDOS02 CFN ALARM Erro dosagem";
          "2025-13-05 07:12:33,4 [PC510A00] FMDOS03 CFN ALARM Erro dosagem"];
       FileReader.encoding := "utf-8";
       FileReader.line_count := 3 |};
    {| FileReader.filename := "b.log";
       FileReader.filepath := "b.log";
       FileReader.lines :=
         ["2025-10-05 07:12:33,4 [PC510A00] FMDOS04 OK ALARM Erro dosagem";
          "2025-00-05 07:12:33,4 [PC510A00] FMDOS05 CFN ALARM Erro dosagem"];
       FileReader.encoding := "utf-8";
       FileReader.line_count := 2 |} ].

(** One file with two alarms logged at the same instant. *)
Definition same_instant_file : list FileReader.FileInfo :=
  [ {| FileReader.filename := "a.log";
       FileReader.filepath := "a.log";
       FileReader.lines :=
         ["2025-10-05 07:12:33,4 [PC510A00] FMDOS01 CFN ALARM Erro dosagem";
          "2025-10-05 07:12:33,4 [PC510A00] FMDOS02 CFN ALARM Erro mistura"];
       FileReader.encoding := "utf-8";
       FileReader.line_count := 2 |} ].

(** A loader on a new database: the tables exist and are empty. *)
Definition fresh_loader : DatabaseLoader.Loader :=
  {| DatabaseLoader.tables := {[ "alarm_logs" := [] ]};
     DatabaseLoader.session :=
       {| DatabaseLoader.etl_statistics := []; DatabaseLoader.pending := [] |};
     DatabaseLoader.log := [] |}.

(** A storage that accepts every write: [to_sql] on a working engine. *)
Definition working_to_sql (tables : gmap string (list DatabaseLoader.AlarmLog))
  (table_name : string) (if_exists : DatabaseLoader.IfExists) (chunksize : nat)
  (rows : list DatabaseLoader.AlarmLog) : option (gmap string (list DatabaseLoader.AlarmLog)) :=
  match if_exists, tables !! table_name with
  | DatabaseLoader.Fail_, Some _ => None
  | DatabaseLoader.Append, Some old => Some (<[table_name := old ++ rows]> tables)
  | _, _ => Some (<[table_name := rows]> tables)
  end.

(** The statistics of a run over [same_instant_file]. *)
Definition sample_stats : gmap string LogParser.StatValue :=
  default ∅
    (LogParser.get_statistics
       (LogParser.parse_multiple_files digits_clock stable_argsort same_instant_file)).

(** A line that passes the filter through [acknowledged] alone and
    matches the general pattern only. *)
Definition line_without_stage : string :=
  "2025-10-05 07:12:33,4 [PC510A00] FMDOS01 acknowledged".

(** An acknowledgment line that also carries the confirmation marker. *)
Definition ack_line_with_cfn : string :=
  "2025-10-05 07:14:01,0 [PC510A00] FMDOS01 ALARM is acknowledged by PC520A00::FORM CFN".

(** The same line as [readlines] returns it, with its newline. *)
Definition ack_line_as_read : string :=
  String.append ack_line_with_cfn (String "010" EmptyString).

(** A directory with one file no encoding decodes, between two that
    can be read (the second only as Latin-1). *)
Definition fs_with_unreadable : FileReader.FileSystem :=
  {| FileReader.dir_exists := Some true;
     FileReader.iterdir := Some ["c.LOG"; "bad.log"; "a.log"; "notes.txt"];
     FileReader.is_file := fun _ => Some true;
     FileReader.open_readlines := fun e f =>
       if String.eqb f "bad.log" then None
       else if String.eqb f "a.log" then Some ["x"]
       else if String.eqb e "utf-8" then None
       else Some ["y"; "z"] |}.

(** A directory in which [stat] fails on one entry with an error that
    [is_file] does not swallow, beside a regular log file. *)
Definition fs_unexaminable : FileReader.FileSystem :=
  {| FileReader.dir_exists := Some true;
     FileReader.iterdir := Some ["a.log"; "b.log"];
     FileReader.is_file := fun f => if String.eqb f "b.log" then None else Some true;
     FileReader.open_readlines := fun _ _ => Some ["x"] |}.

(** Four rows of two alarms of one device, one of them without a time. *)
Definition mixed_frame : LogParser.DataFrame :=
  let row (code : string) (t : option LogParser.Timestamp) :=
    {| LogParser.arquivo_origem := "a.log";
       LogParser.timestamp := "";
       LogParser.datetime := t;
       LogParser.pc_id := "PC510A00";
       LogParser.alarm := code;
       LogParser.type := "CFN";
       LogParser.linha_original := "" |} in
  [row "FMDOS02" (Some 5%Z); row "FMDOS01" None; row "FMDOS01" (Some 9%Z);
   row "FMDOS01" (Some 3%Z)].

End Fixtures.

(** * Properties *)

(** ** Facts about strings *)

Module PyStrFacts.

Import PyStr.

Lemma chars_text (l : list ascii) : chars (text l) = l.
Proof. apply list_ascii_of_string_of_list_ascii. Qed.

Lemma text_chars (s : string) : text (chars s) = s.
Proof. apply string_of_list_ascii_of_string. Qed.

Lemma starts_with_app (p s : list ascii) : starts_with p (p ++ s) = true.
Proof.
  induction p as [|c p IH]; simpl; [reflexivity|].
  rewrite Ascii.eqb_refl. exact IH.
Qed.

(** A text that occurs somewhere in [s] is found by [in]. *)
Lemma find_in_infix (sub a b : list ascii) : find_in sub (a ++ sub ++ b) = true.
Proof.
  induction a as [|c a IH]; simpl.
  - pose proof (starts_with_app sub b) as H.
    destruct (sub ++ b); simpl; rewrite H; reflexivity.
  - rewrite IH. apply orb_true_r.
Qed.

Lemma starts_with_inv (p s : list ascii) :
  starts_with p s = true -> exists b, s = p ++ b.
Proof.
  revert s. induction p as [|c p IH]; intros s H; simpl in *.
  - exists s. reflexivity.
  - destruct s as [|x s]; [discriminate|].
    apply andb_true_iff in H as [Hc Hp].
    apply Ascii.eqb_eq in Hc. subst x.
    destruct (IH _ Hp) as [b ->]. exists b. reflexivity.
Qed.

Lemma find_in_inv (sub s : list ascii) :
  find_in sub s = true -> exists a b, s = a ++ sub ++ b.
Proof.
  induction s as [|x s IH]; simpl; intros H.
  - rewrite orb_false_r in H. apply starts_with_inv in H as [b Hb].
    exists [], b. exact Hb.
  - apply orb_true_iff in H as [H|H].
    + apply starts_with_inv in H as [b Hb]. exists [], b. exact Hb.
    + destruct (IH H) as (a & b & ->). exists (x :: a), b. reflexivity.
Qed.

Lemma lstrip_chars_suffix (l : list ascii) : exists a, l = a ++ lstrip_chars l.
Proof.
  induction l as [|c l [a IH]]; simpl.
  - exists []. reflexivity.
  - destruct (isspace c).
    + exists (c :: a). simpl. f_equal. exact IH.
    + exists []. reflexivity.
Qed.

Lemma rstrip_chars_prefix (l : list ascii) : exists b, l = rstrip_chars l ++ b.
Proof.
  unfold rstrip_chars.
  destruct (lstrip_chars_suffix (rev l)) as [a Ha].
  exists (rev a).
  rewrite <- rev_app_distr, <- Ha. symmetry. apply rev_involutive.
Qed.

(** The trimmed text is a slice of the original. *)
Lemma strip_chars_infix (l : list ascii) : exists a b, l = a ++ strip_chars l ++ b.
Proof.
  unfold strip_chars.
  destruct (lstrip_chars_suffix l) as [a Ha].
  destruct (rstrip_chars_prefix (lstrip_chars l)) as [b Hb].
  exists a, b. rewrite <- Hb. exact Ha.
Qed.

(** What [in] finds in [s.strip()] it finds in [s]. *)
Lemma contains_strip (sub s : string) :
  contains sub (strip s) = true -> contains sub s = true.
Proof.
  unfold contains, strip. rewrite chars_text. intros H.
  apply find_in_inv in H as (a & b & Hs).
  destruct (strip_chars_infix (chars s)) as (a' & b' & Hl).
  rewrite Hl, Hs.
  replace (a' ++ (a ++ chars sub ++ b) ++ b')
    with ((a' ++ a) ++ chars sub ++ (b ++ b'))
    by (rewrite <- !app_assoc; reflexivity).
  apply find_in_infix.
Qed.

Lemma isdigit_not_isspace (c : ascii) : isdigit c = true -> isspace c = false.
Proof.
  unfold isdigit, isspace. intros H.
  apply andb_true_iff in H as [H1 H2].
  apply N.leb_le in H1, H2.
  repeat match goal with
         | |- context [(?a <=? ?b)%N] => destruct (N.leb_spec a b)
         | |- context [(?a =? ?b)%N] => destruct (N.eqb_spec a b)
         end; cbn; try reflexivity; lia.
Qed.

Lemma lstrip_chars_app_solid (x y : list ascii) (c : ascii) :
  isspace c = false -> lstrip_chars (x ++ c :: y) = lstrip_chars x ++ c :: y.
Proof.
  intros Hc. induction x as [|d x IH]; cbn.
  - rewrite Hc. reflexivity.
  - destruct (isspace d); [exact IH|reflexivity].
Qed.

(** Trimming on the right stops at a character that is not a space. *)
Lemma rstrip_chars_app_solid (a b : list ascii) (c : ascii) :
  isspace c = false -> rstrip_chars (a ++ c :: b) = (a ++ [c]) ++ rstrip_chars b.
Proof.
  intros Hc. unfold rstrip_chars.
  rewrite rev_app_distr. cbn [rev]. rewrite <- app_assoc. cbn [app].
  rewrite (lstrip_chars_app_solid _ _ _ Hc).
  rewrite rev_app_distr. cbn [rev]. rewrite rev_involutive. reflexivity.
Qed.

(** A text that starts and ends with characters other than spaces
    survives [strip] in front of whatever follows it. *)
Lemma strip_chars_solid (c d : ascii) (u tail : list ascii) :
  isspace c = false -> isspace d = false ->
  strip_chars (c :: u ++ d :: tail) = (c :: u ++ [d]) ++ rstrip_chars tail.
Proof.
  intros Hc Hd. unfold strip_chars. cbn [lstrip_chars]. rewrite Hc.
  change (c :: u ++ d :: tail) with ((c :: u) ++ d :: tail).
  rewrite (rstrip_chars_app_solid _ _ _ Hd). reflexivity.
Qed.

End PyStrFacts.

(** ** Facts about matching *)

Module ReFacts.

Import Re.

Lemma star_k_sound (p : cclass) (s : list ascii) k x :
  star_k p s k = Some x ->
  exists w rest, s = w ++ rest /\ Forall (fun c => cls_test p c = true) w
                 /\ k rest = Some x.
Proof.
  induction s as [|c s IH]; simpl; intros H.
  - exists [], []. auto.
  - destruct (cls_test p c) eqn:Hc.
    + destruct (star_k p s k) as [r|] eqn:Hs.
      * injection H as ->.
        destruct (IH eq_refl) as (w & rest & -> & Hw & Hk).
        exists (c :: w), rest. auto.
      * exists [], (c :: s). auto.
    + exists [], (c :: s). auto.
Qed.

Lemma times_k_sound (p : cclass) (n : nat) (s : list ascii) k x :
  times_k p n s k = Some x ->
  exists w rest, s = w ++ rest /\ length w = n
                 /\ Forall (fun c => cls_test p c = true) w /\ k rest = Some x.
Proof.
  revert s. induction n as [|n IH]; simpl; intros s H.
  - exists [], s. auto.
  - destruct s as [|c s]; [discriminate|].
    destruct (cls_test p c) eqn:Hc; [|discriminate].
    destruct (IH _ H) as (w & rest & -> & Hl & Hw & Hk).
    exists (c :: w), rest. simpl. auto.
Qed.

(** Soundness of the search: on success the input splits into a text
    of the pattern and the rest handed to the continuation, which
    receives one more capture per group. *)
Lemma match_k_sound (r : regex) : forall s caps k x,
  match_k r s caps k = Some x ->
  exists w rest caps',
    s = w ++ rest /\ lang r w /\
    length caps' = length caps + ngroups r /\ k rest caps' = Some x.
Proof.
  induction r as [c|p n|p|p|r1 IH1 r2 IH2|r IH]; simpl; intros s caps k x H.
  - destruct s as [|c' s]; [discriminate|].
    destruct (Ascii.eqb c c') eqn:Hc; [|discriminate].
    apply Ascii.eqb_eq in Hc. subst c'.
    exists [c], s, caps. rewrite Nat.add_0_r. auto.
  - apply times_k_sound in H as (w & rest & -> & Hl & Hw & Hk).
    exists w, rest, caps. rewrite Nat.add_0_r. auto.
  - destruct s as [|c s]; [discriminate|].
    destruct (cls_test p c) eqn:Hc; [|discriminate].
    apply star_k_sound in H as (w & rest & -> & Hw & Hk).
    exists (c :: w), rest, caps. rewrite Nat.add_0_r.
    repeat split; auto; try discriminate.
  - apply star_k_sound in H as (w & rest & -> & Hw & Hk).
    exists w, rest, caps. rewrite Nat.add_0_r. auto.
  - apply IH1 in H as (w1 & rest1 & caps1 & -> & L1 & N1 & H).
    apply IH2 in H as (w2 & rest2 & caps2 & -> & L2 & N2 & H).
    exists (w1 ++ w2), rest2, caps2. rewrite <- app_assoc.
    repeat split; eauto. lia.
  - apply IH in H as (w & rest & caps' & -> & L & N & H).
    eexists w, rest, _. repeat split; eauto.
    rewrite length_app. simpl. lia.
Qed.

Lemma lang_word_chars (l : list ascii) (w : list ascii) :
  l <> [] -> lang (seq_of (lits l)) w -> w = l.
Proof.
  revert w. induction l as [|c l IH]; intros w Hne H; [congruence|].
  destruct l as [|c' l].
  - simpl in H. exact H.
  - change (lang (Seq (Lit c) (seq_of (lits (c' :: l)))) w) in H.
    destruct H as (w1 & w2 & -> & H1 & H2).
    simpl in H1. subst w1.
    rewrite (IH w2); [reflexivity|discriminate|exact H2].
Qed.

(** A text of [seq_of rs] is the concatenation of texts of its parts. *)
Lemma lang_seq_of (rs : list regex) : forall w,
  lang (seq_of rs) w -> exists ws, Forall2 lang rs ws /\ w = concat ws.
Proof.
  induction rs as [|r rs IH]; intros w H.
  - simpl in H. destruct H as [Hl _].
    destruct w; [|discriminate]. exists []. split; [constructor|reflexivity].
  - destruct rs as [|r' rs].
    + exists [w]. split; [repeat constructor; exact H|].
      simpl. rewrite app_nil_r. reflexivity.
    + change (lang (Seq r (seq_of (r' :: rs))) w) in H.
      destruct H as (w1 & w2 & -> & H1 & H2).
      destruct (IH _ H2) as (ws & Hws & ->).
      exists (w1 :: ws). split; [constructor; assumption|reflexivity].
Qed.

(** If the [i]-th part of a sequence is a fixed word, every text of the
    sequence contains that word. *)
Lemma lang_seq_of_mentions (rs : list regex) (i : nat) (l w : list ascii) :
  rs !! i = Some (seq_of (lits l)) -> l <> [] ->
  lang (seq_of rs) w -> exists a b, w = a ++ l ++ b.
Proof.
  intros Hi Hne H.
  destruct (lang_seq_of _ _ H) as (ws & Hws & ->).
  destruct (Forall2_lookup_l _ _ _ _ _ Hws Hi) as (y & Hy & Ly).
  apply lang_word_chars in Ly; [subst y|exact Hne].
  exists (concat (take i ws)), (concat (drop (S i) ws)).
  rewrite <- (take_drop_middle ws i l Hy) at 1.
  rewrite concat_app. simpl. reflexivity.
Qed.

(** [re_match] returns as many groups as the pattern has. *)
Lemma re_match_groups (r : regex) (s : string) (gs : list string) :
  re_match r s = Some gs -> length gs = ngroups r.
Proof.
  unfold re_match.
  destruct (match_k r (PyStr.chars s) [] _) as [caps|] eqn:H; [|discriminate].
  intros [= <-].
  apply match_k_sound in H as (w & rest & caps' & _ & _ & N & [= ->]).
  rewrite length_map. exact N.
Qed.

(** A successful [re_match] matched a prefix of the input. *)
Lemma re_match_prefix (r : regex) (s : string) (gs : list string) :
  re_match r s = Some gs -> exists w rest, PyStr.chars s = w ++ rest /\ lang r w.
Proof.
  unfold re_match.
  destruct (match_k r (PyStr.chars s) [] _) as [caps|] eqn:H; [|discriminate].
  intros _.
  apply match_k_sound in H as (w & rest & caps' & Hs & L & _).
  exists w, rest. auto.
Qed.

(** Completeness of the search: when a prefix of the input is a text of
    the pattern and the continuation accepts what follows it, the
    search succeeds (with the first such split in its order). *)

Lemma star_k_accepts (p : cclass) (s : list ascii) k :
  is_Some (k s) -> is_Some (star_k p s k).
Proof.
  intros H. destruct s as [|c s]; cbn; [exact H|].
  destruct (cls_test p c); [|exact H].
  destruct (star_k p s k); [eauto|exact H].
Qed.

Lemma star_k_complete (p : cclass) (w rest : list ascii) k :
  Forall (fun c => cls_test p c = true) w -> is_Some (k rest) ->
  is_Some (star_k p (w ++ rest) k).
Proof.
  intros Hw Hk. induction Hw as [|c w Hc Hw IH]; cbn.
  - apply star_k_accepts. exact Hk.
  - rewrite Hc. destruct IH as [x ->]. eauto.
Qed.

Lemma times_k_complete (p : cclass) (w rest : list ascii) k :
  Forall (fun c => cls_test p c = true) w -> is_Some (k rest) ->
  is_Some (times_k p (length w) (w ++ rest) k).
Proof.
  intros Hw Hk. induction Hw as [|c w Hc Hw IH]; cbn.
  - exact Hk.
  - rewrite Hc. exact IH.
Qed.

Lemma match_k_complete (r : regex) : forall w rest caps k,
  lang r w -> (forall caps', is_Some (k rest caps')) ->
  is_Some (match_k r (w ++ rest) caps k).
Proof.
  induction r as [c|p n|p|p|r1 IH1 r2 IH2|r IH]; cbn; intros w rest caps k L Hk.
  - subst w. cbn. rewrite Ascii.eqb_refl. apply Hk.
  - destruct L as [<- Hw]. apply times_k_complete; [exact Hw|apply Hk].
  - destruct L as [Hne Hw]. destruct Hw as [|c w Hc Hw]; [congruence|].
    cbn. rewrite Hc. apply star_k_complete; [exact Hw|apply Hk].
  - apply star_k_complete; [exact L|apply Hk].
  - destruct L as (w1 & w2 & -> & L1 & L2). rewrite <- app_assoc.
    apply IH1; [exact L1|]. intros caps'. apply IH2; [exact L2|exact Hk].
  - apply IH; [exact L|]. intros caps'. apply Hk.
Qed.

Lemma re_match_complete (r : regex) (s : string) (w rest : list ascii) :
  PyStr.chars s = w ++ rest -> lang r w -> is_Some (re_match r s).
Proof.
  intros Hs L. unfold re_match. rewrite Hs.
  destruct (match_k_complete r w rest [] (fun _ caps => Some caps) L) as [x ->];
    eauto.
Qed.

Lemma lang_seq_of_intro (rs : list regex) (ws : list (list ascii)) :
  Forall2 lang rs ws -> lang (seq_of rs) (concat ws).
Proof.
  induction 1 as [|r w rs ws Hr Hrs IH].
  - cbn. split; [reflexivity|constructor].
  - destruct Hrs as [|r' w' rs ws Hr' Hrs].
    + cbn. rewrite app_nil_r. exact Hr.
    + change (lang (Seq r (seq_of (r' :: rs))) (w ++ concat (w' :: ws))).
      exists w, (concat (w' :: ws)). auto.
Qed.

End ReFacts.

(** ** The event parser *)

Module LogParserFacts.

Import Re ReFacts LogParser.

Section Parsing.

Variable to_datetime : string -> option Timestamp.

Lemma ngroups_PATTERN_ACK : ngroups PATTERN_ACK = 3.
Proof. reflexivity. Qed.

Lemma ngroups_PATTERN_FULL : ngroups PATTERN_FULL = 3.
Proof. reflexivity. Qed.

(** The unpacking of [match.groups()] into three names never fails. *)
Lemma re_match_three (r : regex) (s : string) (gs : list string) :
  ngroups r = 3 -> re_match r s = Some gs -> exists t p a, gs = [t; p; a].
Proof.
  intros Hn H. apply re_match_groups in H. rewrite Hn in H.
  destruct gs as [|t [|p [|a [|]]]]; try discriminate. eauto.
Qed.

(** A text matching the acknowledgment pattern mentions [acknowledged],
    so it passes the filter of [parse_line]. *)
Lemma PATTERN_ACK_mentions (s : string) (gs : list string) :
  re_match PATTERN_ACK s = Some gs -> PyStr.contains "acknowledged" s = true.
Proof.
  intros H. apply re_match_prefix in H as (w & rest & Hs & L).
  unfold PATTERN_ACK in L.
  eapply (lang_seq_of_mentions _ 12 (PyStr.chars "acknowledged")) in L;
    [|reflexivity|discriminate].
  destruct L as (a & b & ->).
  unfold PyStr.contains. rewrite Hs.
  replace ((a ++ PyStr.chars "acknowledged" ++ b) ++ rest)
    with (a ++ PyStr.chars "acknowledged" ++ (b ++ rest))
    by (rewrite <- !app_assoc; reflexivity).
  apply PyStrFacts.find_in_infix.
Qed.

(** A text of the acknowledgment pattern starts with a digit, and
    cutting it after [acknowledged] leaves a text of the pattern. *)
Lemma lang_PATTERN_ACK_inv (w : list ascii) :
  lang PATTERN_ACK w ->
  exists c u b,
    w = (c :: u ++ PyStr.chars "acknowledged") ++ b
    /\ PyStr.isspace c = false
    /\ lang PATTERN_ACK (c :: u ++ PyStr.chars "acknowledged").
Proof.
  intros L. unfold PATTERN_ACK in L. apply lang_seq_of in L as (ws & F & ->).
  apply Forall2_cons_inv_l in F as (w1 & ws1 & L1 & F & ->).
  apply Forall2_cons_inv_l in F as (w2 & ws2 & L2 & F & ->).
  apply Forall2_cons_inv_l in F as (w3 & ws3 & L3 & F & ->).
  apply Forall2_cons_inv_l in F as (w4 & ws4 & L4 & F & ->).
  apply Forall2_cons_inv_l in F as (w5 & ws5 & L5 & F & ->).
  apply Forall2_cons_inv_l in F as (w6 & ws6 & L6 & F & ->).
  apply Forall2_cons_inv_l in F as (w7 & ws7 & L7 & F & ->).
  apply Forall2_cons_inv_l in F as (w8 & ws8 & L8 & F & ->).
  apply Forall2_cons_inv_l in F as (w9 & ws9 & L9 & F & ->).
  apply Forall2_cons_inv_l in F as (w10 & ws10 & L10 & F & ->).
  apply Forall2_cons_inv_l in F as (w11 & ws11 & L11 & F & ->).
  apply Forall2_cons_inv_l in F as (w12 & ws12 & L12 & F & ->).
  apply Forall2_cons_inv_l in F as (w13 & ws13 & L13 & F & ->).
  apply Forall2_cons_inv_l in F as (w14 & ws14 & L14 & F & ->).
  apply Forall2_nil_inv_l in F as ->.
  apply (lang_word_chars (PyStr.chars "acknowledged")) in L13; [subst w13|discriminate].
  pose proof L1 as L1'.
  unfold TIMESTAMP_GROUP in L1'. cbn [lang] in L1'.
  apply lang_seq_of in L1' as (ts & FT & E1).
  apply Forall2_cons_inv_l in FT as (t1 & ts' & [Hlen Hdig] & _ & ->).
  destruct Hdig as [|c t1 Hc _]; [discriminate|].
  cbn [concat app] in E1.
  exists c, (t1 ++ concat ts' ++ w2 ++ w3 ++ w4 ++ w5 ++ w6 ++ w7 ++ w8 ++ w9 ++ w10
             ++ w11 ++ w12), w14.
  assert (E : c :: (t1 ++ concat ts' ++ w2 ++ w3 ++ w4 ++ w5 ++ w6 ++ w7 ++ w8 ++ w9
                    ++ w10 ++ w11 ++ w12) ++ PyStr.chars "acknowledged"
              = concat [w1; w2; w3; w4; w5; w6; w7; w8; w9; w10; w11; w12;
                        PyStr.chars "acknowledged"; []]).
  { cbn [concat]. rewrite E1. rewrite !app_nil_r.
    cbn [app]. rewrite <- !app_assoc. reflexivity. }
  split; [|split].
  - rewrite E. cbn [concat]. rewrite !app_nil_r. rewrite <- !app_assoc. reflexivity.
  - apply PyStrFacts.isdigit_not_isspace. exact Hc.
  - rewrite E. apply lang_seq_of_intro.
    repeat (constructor; [assumption|]).
    constructor; [apply (lang_seq_of_intro (lits (PyStr.chars "acknowledged"))
                           (map (fun c => [c]) (PyStr.chars "acknowledged")));
                  repeat constructor|].
    constructor; [constructor|constructor].
Qed.

(** A line that matches the acknowledgment pattern as it is read still
    matches it once trimmed. *)
Lemma ack_shape_trimmed (s : string) :
  is_Some (re_match PATTERN_ACK s) -> is_Some (re_match PATTERN_ACK (PyStr.strip s)).
Proof.
  intros [gs H]. apply re_match_prefix in H as (w & rest & Hs & L).
  apply lang_PATTERN_ACK_inv in L as (c & u & b & -> & Hc & L).
  apply (re_match_complete _ _ (c :: u ++ PyStr.chars "acknowledged")
           (PyStr.rstrip_chars (b ++ rest))); [|exact L].
  unfold PyStr.strip. rewrite PyStrFacts.chars_text, Hs.
  replace (((c :: u ++ PyStr.chars "acknowledged") ++ b) ++ rest)
    with (c :: (u ++ PyStr.chars "acknowledge") ++ "d"%char :: (b ++ rest))
    by (cbn; rewrite <- !app_assoc; reflexivity).
  rewrite PyStrFacts.strip_chars_solid by (assumption || reflexivity).
  f_equal. cbn. rewrite <- !app_assoc. reflexivity.
Qed.

Lemma filter_passes_ack (line : string) (gs : list string) :
  re_match PATTERN_ACK (PyStr.strip line) = Some gs ->
  existsb (fun filter_term => PyStr.contains filter_term line) Config.filters = true.
Proof.
  intros H. apply PATTERN_ACK_mentions, PyStrFacts.contains_strip in H.
  unfold Config.filters. simpl. rewrite H. rewrite !orb_true_r. reflexivity.
Qed.

Lemma determine_type_range (line : string) :
  In (determine_type line) ["ACK"; "CFN"; "OK"; "N/A"].
Proof.
  unfold determine_type.
  repeat match goal with |- context [if ?b then _ else _] => destruct b end;
    simpl; auto.
Qed.

(** The stage of a produced record: [ACK] on the acknowledgment
    pattern, else whatever [determine_type] said of the trimmed line. *)
Lemma parse_line_type (line source_file : string) (r : AlarmRecord) :
  parse_line to_datetime line source_file = Some r ->
  type r = match re_match PATTERN_ACK (PyStr.strip line) with
           | Some _ => "ACK"
           | None => determine_type (PyStr.strip line)
           end.
Proof.
  unfold parse_line.
  destruct (negb _); [discriminate|].
  destruct (re_match PATTERN_ACK _) as [gs|] eqn:HA.
  - destruct (re_match_three _ _ _ ngroups_PATTERN_ACK HA) as (t & p & a & ->).
    intros [= <-]. reflexivity.
  - destruct (re_match PATTERN_FULL _) as [gs|] eqn:HF; [|discriminate].
    destruct (re_match_three _ _ _ ngroups_PATTERN_FULL HF) as (t & p & a & ->).
    intros [= <-]. reflexivity.
Qed.

Lemma determine_type_NA (line : string) :
  determine_type line = "N/A" ->
  PyStr.contains "ALARM is acknowledged" line = false
  /\ PyStr.contains "CFN" line = false /\ PyStr.contains "OK" line = false.
Proof.
  unfold determine_type.
  destruct (PyStr.contains "ALARM is acknowledged" line); [discriminate|].
  destruct (PyStr.contains "CFN" line); [discriminate|].
  destruct (PyStr.contains "OK" line); [discriminate|].
  auto.
Qed.

End Parsing.

(** C1 (as the code has it).  A record produced by [parse_line] has a
    stage among [ACK], [CFN], [OK] and the fall-through value [N/A] of
    [determine_type]; [N/A] is only produced when the trimmed line has
    none of [ALARM is acknowledged], [CFN], [OK] and does not match the
    acknowledgment pattern; and a line matching neither pattern
    produces no record. *)
Theorem parse_line_stage (to_datetime : string -> option Timestamp)
  (line source_file : string) :
  (forall r, parse_line to_datetime line source_file = Some r ->
     In (type r) ["ACK"; "CFN"; "OK"; "N/A"])
  /\ (forall r, parse_line to_datetime line source_file = Some r ->
        type r = "N/A" ->
        re_match PATTERN_ACK (PyStr.strip line) = None
        /\ PyStr.contains "ALARM is acknowledged" (PyStr.strip line) = false
        /\ PyStr.contains "CFN" (PyStr.strip line) = false
        /\ PyStr.contains "OK" (PyStr.strip line) = false)
  /\ (re_match PATTERN_ACK (PyStr.strip line) = None ->
      re_match PATTERN_FULL (PyStr.strip line) = None ->
      parse_line to_datetime line source_file = None).
Proof.
  split; [|split].
  - intros r H. rewrite (parse_line_type _ _ _ _ H).
    destruct (re_match PATTERN_ACK _); [simpl; auto|apply determine_type_range].
  - intros r H HNA. rewrite (parse_line_type _ _ _ _ H) in HNA.
    destruct (re_match PATTERN_ACK _); [discriminate|].
    split; [reflexivity|]. apply determine_type_NA. exact HNA.
  - intros HA HF. unfold parse_line. rewrite HA, HF.
    destruct (negb _); reflexivity.
Qed.

Lemma line_without_stage_parsed (to_datetime : string -> option Timestamp) (f : string) :
  parse_line to_datetime Fixtures.line_without_stage f =
  Some {| arquivo_origem := f;
          timestamp := "2025-10-05 07:12:33,4";
          datetime := to_datetime "2025-10-05 07:12:33,4";
          pc_id := "PC510A00";
          alarm := "FMDOS01";
          type := "N/A";
          linha_original := Fixtures.line_without_stage |}.
Proof. reflexivity. Qed.

(** C1, counterexample: a record whose stage is none of ACK, CFN, OK. *)
Lemma parse_line_stage_not_closed :
  exists r,
    parse_line Fixtures.digits_clock Fixtures.line_without_stage "a.log" = Some r
    /\ type r = "N/A"
    /\ existsb (String.eqb (type r)) ["ACK"; "CFN"; "OK"] = false.
Proof.
  eexists. split; [apply line_without_stage_parsed|]. split; reflexivity.
Qed.

(** C1, witness: the record of that line. *)
Lemma parse_line_stage_witness :
  exists r,
    parse_line Fixtures.digits_clock Fixtures.line_without_stage "a.log" = Some r
    /\ In (type r) ["ACK"; "CFN"; "OK"; "N/A"]
    /\ PyStr.contains "CFN" (PyStr.strip Fixtures.line_without_stage) = false.
Proof.
  eexists. split; [apply line_without_stage_parsed|].
  destruct (parse_line_stage Fixtures.digits_clock Fixtures.line_without_stage "a.log")
    as (H1 & H2 & _).
  split.
  - apply H1. apply line_without_stage_parsed.
  - eapply H2; [apply line_without_stage_parsed|reflexivity].
Defined.

(** C5.  When the line matches the acknowledgment pattern, as it is
    read or once trimmed, [parse_line] produces a record of stage [ACK]
    from the groups of that pattern on the trimmed line, whatever else
    the line contains and whether or not the general pattern matches
    too. *)
Theorem parse_line_ack_first (to_datetime : string -> option Timestamp)
  (line source_file : string) :
  is_Some (re_match PATTERN_ACK line)
  \/ is_Some (re_match PATTERN_ACK (PyStr.strip line)) ->
  exists t p a,
    re_match PATTERN_ACK (PyStr.strip line) = Some [t; p; a]
    /\ parse_line to_datetime line source_file =
       Some {| arquivo_origem := source_file;
               timestamp := t;
               datetime := to_datetime t;
               pc_id := p;
               alarm := PyStr.strip a;
               type := "ACK";
               linha_original := PyStr.strip line |}.
Proof.
  intros H.
  assert (HA : is_Some (re_match PATTERN_ACK (PyStr.strip line)))
    by (destruct H as [H|H]; [apply ack_shape_trimmed; exact H|exact H]).
  destruct HA as [gs HA].
  destruct (re_match_three _ _ _ ngroups_PATTERN_ACK HA) as (t & p & a & ->).
  exists t, p, a. split; [exact HA|].
  unfold parse_line. rewrite (filter_passes_ack _ _ HA). simpl negb. cbv iota.
  rewrite HA. reflexivity.
Qed.

(** C5, witness: a line as [readlines] returns it, with the marker
    [CFN] in it; the stage is [ACK]. *)
Lemma parse_line_ack_first_witness :
  PyStr.contains "CFN" Fixtures.ack_line_as_read = true
  /\ exists t p a,
      re_match PATTERN_ACK (PyStr.strip Fixtures.ack_line_as_read) = Some [t; p; a]
      /\ parse_line Fixtures.digits_clock Fixtures.ack_line_as_read "a.log" =
         Some {| arquivo_origem := "a.log";
                 timestamp := t;
                 datetime := Fixtures.digits_clock t;
                 pc_id := p;
                 alarm := PyStr.strip a;
                 type := "ACK";
                 linha_original := PyStr.strip Fixtures.ack_line_as_read |}.
Proof.
  split; [reflexivity|].
  apply (parse_line_ack_first Fixtures.digits_clock Fixtures.ack_line_as_read "a.log").
  left. eexists. reflexivity.
Defined.

(** C6.  The line of the first end-to-end scenario yields exactly one
    record, of stage [CFN], device [PC510A00] and alarm [FMDOS01]. *)
Theorem parse_scenario_confirmed (to_datetime : string -> option Timestamp)
  (source_file : string) :
  parse_file to_datetime
    ["2025-10-05 07:12:33,4 [PC510A00] FMDOS01 CFN ALARM Erro dosagem"] source_file =
  [ {| arquivo_origem := source_file;
       timestamp := "2025-10-05 07:12:33,4";
       datetime := to_datetime "2025-10-05 07:12:33,4";
       pc_id := "PC510A00";
       alarm := "FMDOS01";
       type := "CFN";
       linha_original :=
         "2025-10-05 07:12:33,4 [PC510A00] FMDOS01 CFN ALARM Erro dosagem" |} ].
Proof. reflexivity. Qed.

End LogParserFacts.

(** ** Sorting *)

Module PySortFacts.

Import PySort.

Section Insertion.
Context {A : Type} (le : A -> A -> bool).

Lemma insert_Permutation (x : A) (l : list A) : Permutation (insert le x l) (x :: l).
Proof.
  induction l as [|y l IH]; simpl; [reflexivity|].
  destruct (le x y); [reflexivity|].
  rewrite IH. apply perm_swap.
Qed.

Lemma sort_Permutation (l : list A) : Permutation (sort le l) l.
Proof.
  induction l as [|x l IH]; simpl; [reflexivity|].
  rewrite insert_Permutation, IH. reflexivity.
Qed.

Lemma sort_length (l : list A) : length (sort le l) = length l.
Proof. apply Permutation_length, sort_Permutation. Qed.

Hypothesis le_total : forall a b, le a b = false -> le b a = true.

Lemma insert_HdRel (y x : A) (l : list A) :
  le y x = true -> HdRel (le_prop le) y l -> HdRel (le_prop le) y (insert le x l).
Proof.
  intros Hyx H. destruct l as [|z l]; simpl.
  - constructor. exact Hyx.
  - destruct (le x z); constructor; [exact Hyx|].
    inversion H; assumption.
Qed.

Lemma insert_Sorted (x : A) (l : list A) :
  Sorted (le_prop le) l -> Sorted (le_prop le) (insert le x l).
Proof.
  induction l as [|y l IH]; simpl; intros H.
  - repeat constructor.
  - destruct (le x y) eqn:Hxy.
    + constructor; [exact H|]. constructor. exact Hxy.
    + inversion H as [|? ? Hs Hh]; subst.
      constructor; [apply IH; exact Hs|].
      apply insert_HdRel; [apply le_total; exact Hxy|exact Hh].
Qed.

Lemma sort_Sorted (l : list A) : Sorted (le_prop le) (sort le l).
Proof.
  induction l as [|x l IH]; simpl; [constructor|].
  apply insert_Sorted, IH.
Qed.

Hypothesis le_trans : forall a b c, le a b = true -> le b c = true -> le a c = true.

Lemma sort_StronglySorted (l : list A) : StronglySorted (le_prop le) (sort le l).
Proof.
  apply Sorted_StronglySorted; [|apply sort_Sorted].
  intros a b c. apply le_trans.
Qed.

End Insertion.

Lemma StronglySorted_filter {A : Type} (R : A -> A -> Prop) (f : A -> bool) (l : list A) :
  StronglySorted R l -> StronglySorted R (List.filter f l).
Proof.
  induction 1 as [|x l Hs IH Hall]; simpl; [constructor|].
  destruct (f x); [|exact IH].
  constructor; [exact IH|].
  rewrite List.Forall_forall in *. intros y Hy.
  apply List.filter_In in Hy as [Hy _]. auto.
Qed.

Lemma StronglySorted_weaken {A : Type} (R S : A -> A -> Prop) (P : A -> Prop) (l : list A) :
  (forall a b, P a -> P b -> R a b -> S a b) ->
  List.Forall P l -> StronglySorted R l -> StronglySorted S l.
Proof.
  intros HRS HP H. induction H as [|x l Hs IH Hall]; [constructor|].
  inversion HP as [|? ? Px Pl]; subst.
  constructor; [apply IH; exact Pl|].
  rewrite List.Forall_forall in *. intros y Hy. apply HRS; auto.
Qed.

(** Code-point order of strings. *)

Lemma compare_refl (s : string) : PyStr.compare s s = Eq.
Proof.
  unfold PyStr.compare. induction s as [|c s IH]; simpl; [reflexivity|].
  unfold Ascii.compare. rewrite N.compare_refl. exact IH.
Qed.

Lemma compare_eq (a b : string) : PyStr.compare a b = Eq -> a = b.
Proof. apply String.compare_eq_iff. Qed.

Lemma compare_Lt_Gt (a b : string) : PyStr.compare a b = Lt <-> PyStr.compare b a = Gt.
Proof.
  unfold PyStr.compare. rewrite (String.compare_antisym b a).
  destruct (String.compare a b); simpl; split; congruence.
Qed.

Lemma compare_Lt_trans (a b c : string) :
  PyStr.compare a b = Lt -> PyStr.compare b c = Lt -> PyStr.compare a c = Lt.
Proof.
  unfold PyStr.compare. revert b c.
  induction a as [|x a IH]; intros [|y b] [|z c]; simpl; try congruence.
  unfold Ascii.compare.
  destruct (N.compare_spec (N_of_ascii x) (N_of_ascii y)) as [E1|L1|G1];
    destruct (N.compare_spec (N_of_ascii y) (N_of_ascii z)) as [E2|L2|G2];
    destruct (N.compare_spec (N_of_ascii x) (N_of_ascii z)) as [E3|L3|G3];
    try congruence; try lia.
  apply IH.
Qed.

Lemma leb_total (a b : string) : PyStr.leb a b = false -> PyStr.leb b a = true.
Proof.
  unfold PyStr.leb. destruct (PyStr.compare a b) eqn:H; try discriminate.
  intros _. apply compare_Lt_Gt in H. rewrite H. reflexivity.
Qed.

Lemma leb_trans (a b c : string) :
  PyStr.leb a b = true -> PyStr.leb b c = true -> PyStr.leb a c = true.
Proof.
  unfold PyStr.leb.
  destruct (PyStr.compare a b) eqn:H1; try discriminate;
    destruct (PyStr.compare b c) eqn:H2; try discriminate; intros _ _.
  - apply compare_eq in H1, H2. subst. rewrite compare_refl. reflexivity.
  - apply compare_eq in H1. subst. rewrite H2. reflexivity.
  - apply compare_eq in H2. subst. rewrite H1. reflexivity.
  - rewrite (compare_Lt_trans _ _ _ H1 H2). reflexivity.
Qed.

End PySortFacts.

(** ** The file reader *)

Module FileReaderFacts.

Import FileReader.

Lemma try_encodings_exhausted (fs : FileSystem) (filepath : Path) (encodings : list string) :
  (forall e, In e encodings -> open_readlines fs e filepath = None) ->
  try_encodings fs filepath encodings = None.
Proof.
  induction encodings as [|e rest IH]; simpl; intros H; [reflexivity|].
  rewrite (H e) by (left; reflexivity).
  apply IH. intros e' He'. apply H. right. exact He'.
Qed.

(** The loop of [read_all_files] keeps what [read_file] returns, file
    by file, after what was accumulated. *)
Lemma read_loop_omap (fs : FileSystem) (files : list Path) (acc : list FileInfo) :
  read_loop fs files acc = acc ++ omap (read_file fs) files.
Proof.
  revert acc. induction files as [|f files IH]; intros acc; simpl.
  - rewrite app_nil_r. reflexivity.
  - destruct (read_file fs f) as [fi|]; rewrite IH; [|reflexivity].
    rewrite <- app_assoc. reflexivity.
Qed.

Lemma read_all_files_omap (fs : FileSystem) :
  read_all_files fs = omap (read_file fs) (list_files fs).
Proof.
  unfold read_all_files.
  destruct (list_files fs) as [|f files]; [reflexivity|].
  apply read_loop_omap.
Qed.

Lemma omap_skip (fs : FileSystem) (p : Path) (files : list Path) :
  read_file fs p = None ->
  omap (read_file fs) files =
  omap (read_file fs) (List.filter (fun q => negb (String.eqb q p)) files).
Proof.
  intros Hp. induction files as [|f files IH]; simpl; [reflexivity|].
  destruct (String.eqb_spec f p) as [->|Hne]; simpl.
  - rewrite Hp. exact IH.
  - destruct (read_file fs f); [f_equal|]; exact IH.
Qed.

(** C8.  When every configured encoding fails on a file, [read_file]
    returns nothing for it, and [read_all_files] returns what it would
    without that file: every other listed file that can be read is in
    the result. *)
Theorem read_all_files_skips_undecodable (fs : FileSystem) (p : Path) :
  (forall e, In e Config.encodings_to_try -> open_readlines fs e p = None) ->
  read_file fs p = None
  /\ read_all_files fs =
     omap (read_file fs) (List.filter (fun q => negb (String.eqb q p)) (list_files fs))
  /\ (forall q file_info,
        In q (list_files fs) -> read_file fs q = Some file_info ->
        In file_info (read_all_files fs)).
Proof.
  intros H.
  assert (Hp : read_file fs p = None) by (apply try_encodings_exhausted; exact H).
  split; [exact Hp|]. split.
  - rewrite read_all_files_omap. apply omap_skip. exact Hp.
  - intros q fi Hq Hfi. rewrite read_all_files_omap.
    apply list_elem_of_In, list_elem_of_omap.
    exists q. split; [apply list_elem_of_In; exact Hq|exact Hfi].
Qed.

(** C8, witness. *)
Lemma read_all_files_skips_undecodable_witness :
  read_file Fixtures.fs_with_unreadable "bad.log" = None
  /\ read_all_files Fixtures.fs_with_unreadable =
     [ {| filename := "a.log"; filepath := "a.log"; lines := ["x"];
          encoding := "utf-8"; line_count := 1 |};
       {| filename := "c.LOG"; filepath := "c.LOG"; lines := ["y"; "z"];
          encoding := "latin-1"; line_count := 2 |} ].
Proof.
  assert (H : forall e, In e Config.encodings_to_try ->
                        open_readlines Fixtures.fs_with_unreadable e "bad.log" = None)
    by (intros e _; reflexivity).
  destruct (read_all_files_skips_undecodable Fixtures.fs_with_unreadable "bad.log" H)
    as (H1 & H2 & _).
  split; [exact H1|]. rewrite H2. reflexivity.
Defined.

Lemma same_upper_spec (a b : string) : same_upper a b = true <-> upper a = upper b.
Proof. unfold same_upper. apply bool_decide_eq_true. Qed.

(** The comprehension returns the entries that pass both tests when no
    test raises, and raises as soon as one does. *)
Lemma select_files_filter (fs : FileSystem) (entries : list Path) :
  Forall (fun f => is_file fs f <> None) entries ->
  select_files fs entries
  = Some (List.filter
            (fun f => default false (is_file fs f)
                      && same_upper (suffix f) Config.file_extension)
            entries).
Proof.
  induction 1 as [|f entries Hf _ IH]; [reflexivity|].
  cbn [select_files List.filter]. rewrite IH.
  destruct (is_file fs f) as [is_f|]; [reflexivity|congruence].
Qed.

Lemma select_files_raises (fs : FileSystem) (entries : list Path) :
  Exists (fun f => is_file fs f = None) entries -> select_files fs entries = None.
Proof.
  induction 1 as [f entries Hf|f entries _ IH]; cbn [select_files].
  - rewrite Hf. reflexivity.
  - rewrite IH. destruct (is_file fs f); reflexivity.
Qed.

Lemma list_files_sorted (fs : FileSystem) :
  StronglySorted (fun a b => PyStr.leb a b = true) (list_files fs).
Proof.
  unfold list_files. destruct (dir_exists fs) as [[|]|]; try constructor.
  destruct (iterdir fs) as [entries|]; [|constructor].
  destruct (select_files fs entries) as [files|]; [|constructor].
  apply PySortFacts.sort_StronglySorted.
  - apply PySortFacts.leb_total.
  - apply PySortFacts.leb_trans.
Qed.

(** Membership in the listing of a directory all of whose entries can
    be examined. *)
Lemma In_list_files (fs : FileSystem) (entries : list Path) (f : Path) :
  dir_exists fs = Some true -> iterdir fs = Some entries ->
  Forall (fun f => is_file fs f <> None) entries ->
  In f (list_files fs)
  <-> In f entries /\ is_file fs f = Some true
      /\ upper (suffix f) = upper Config.file_extension.
Proof.
  intros Hd Hi Hok. unfold list_files. rewrite Hd, Hi, (select_files_filter fs entries Hok).
  split.
  - intros H.
    apply (Permutation_in _ (PySortFacts.sort_Permutation PyStr.leb _)) in H.
    apply List.filter_In in H as [Hin H].
    apply andb_true_iff in H as [Hf Hu].
    apply same_upper_spec in Hu.
    destruct (is_file fs f) as [[|]|]; try discriminate. auto.
  - intros (Hin & Hf & Hu).
    apply (Permutation_in _ (Permutation_sym (PySortFacts.sort_Permutation PyStr.leb _))).
    apply List.filter_In. split; [exact Hin|].
    rewrite Hf. apply andb_true_iff. split; [reflexivity|].
    apply same_upper_spec. exact Hu.
Qed.

(** C9 (as the code has it).  In an existing directory that can be
    listed and all of whose entries can be examined, [list_files]
    returns exactly the entries that are files and whose suffix equals
    the configured extension once both are uppercased, and the result
    is sorted.  When [is_file] raises on one entry, the [except] clause
    returns the empty list: no file is listed, whatever its suffix. *)
Theorem list_files_by_extension (fs : FileSystem) (entries : list Path) :
  dir_exists fs = Some true -> iterdir fs = Some entries ->
  (Forall (fun f => is_file fs f <> None) entries ->
   (forall f, In f (list_files fs) <->
              In f entries /\ is_file fs f = Some true
              /\ upper (suffix f) = upper Config.file_extension)
   /\ StronglySorted (fun a b => PyStr.leb a b = true) (list_files fs))
  /\ (Exists (fun f => is_file fs f = None) entries -> list_files fs = []).
Proof.
  intros Hd Hi. split.
  - intros Hok. split; [|apply list_files_sorted].
    intros f. apply (In_list_files fs entries f Hd Hi Hok).
  - intros Hraise. unfold list_files.
    rewrite Hd, Hi, (select_files_raises fs entries Hraise). reflexivity.
Qed.

(** C9, counterexample: [a.log] is a file of the directory and its
    suffix is the configured extension, but it is not listed, because
    [is_file] raises on another entry. *)
Lemma list_files_unexaminable_entry :
  dir_exists Fixtures.fs_unexaminable = Some true
  /\ iterdir Fixtures.fs_unexaminable = Some ["a.log"; "b.log"]
  /\ is_file Fixtures.fs_unexaminable "a.log" = Some true
  /\ upper (suffix "a.log") = upper Config.file_extension
  /\ is_file Fixtures.fs_unexaminable "b.log" = None
  /\ list_files Fixtures.fs_unexaminable = [].
Proof. repeat split. Qed.

(** C9, witness: [.LOG] and [.log] are both selected for [.log] where
    every entry can be examined; nothing is selected where one cannot. *)
Lemma list_files_by_extension_witness :
  list_files Fixtures.fs_with_unreadable = ["a.log"; "bad.log"; "c.LOG"]
  /\ (In "c.LOG" (list_files Fixtures.fs_with_unreadable) <->
      In "c.LOG" ["c.LOG"; "bad.log"; "a.log"; "notes.txt"]
      /\ is_file Fixtures.fs_with_unreadable "c.LOG" = Some true
      /\ upper (suffix "c.LOG") = upper Config.file_extension)
  /\ StronglySorted (fun a b => PyStr.leb a b = true) (list_files Fixtures.fs_with_unreadable)
  /\ list_files Fixtures.fs_unexaminable = [].
Proof.
  split; [reflexivity|].
  destruct (list_files_by_extension Fixtures.fs_with_unreadable
              ["c.LOG"; "bad.log"; "a.log"; "notes.txt"] eq_refl eq_refl) as [H _].
  destruct H as [H1 H2]; [repeat constructor; discriminate|].
  split; [apply H1|]. split; [exact H2|].
  destruct (list_files_by_extension Fixtures.fs_unexaminable
              ["a.log"; "b.log"] eq_refl eq_refl) as [_ H].
  apply H. apply Exists_cons_tl, Exists_cons_hd. reflexivity.
Defined.

End FileReaderFacts.

(** ** Three-way comparisons and the orders they induce *)

Module CmpFacts.

Import Cmp.

Section Order.
Context {A : Type} (cmp : A -> A -> comparison) `{!CmpOrder cmp}.

Lemma cmp_eq_sym (a b : A) : cmp a b = Eq -> cmp b a = Eq.
Proof. intros H. rewrite (cmp_antisym a b), H. reflexivity. Qed.

Lemma cmp_eq_r (a b c : A) : cmp b c = Eq -> cmp a b = cmp a c.
Proof.
  intros H. apply cmp_eq_sym in H.
  pose proof (cmp_eq_l c b a H) as E.
  rewrite (cmp_antisym a b), (cmp_antisym a c) in E.
  destruct (cmp a b), (cmp a c); simpl in E; congruence.
Qed.

Lemma le_of_total (a b : A) : le_of cmp a b = false -> le_of cmp b a = true.
Proof.
  unfold le_of. rewrite (cmp_antisym a b).
  destruct (cmp a b); simpl; congruence.
Qed.

Lemma le_of_trans (a b c : A) :
  le_of cmp a b = true -> le_of cmp b c = true -> le_of cmp a c = true.
Proof.
  unfold le_of.
  destruct (cmp a b) eqn:H1; try discriminate;
    destruct (cmp b c) eqn:H2; try discriminate; intros _ _.
  - rewrite (cmp_eq_l _ _ c H1), H2. reflexivity.
  - rewrite (cmp_eq_l _ _ c H1), H2. reflexivity.
  - rewrite <- (cmp_eq_r a _ _ H2), H1. reflexivity.
  - rewrite (cmp_lt_trans _ _ _ H1 H2). reflexivity.
Qed.

End Order.

Global Instance on_CmpOrder {A B : Type} (f : A -> B) (cmp : B -> B -> comparison)
  `{!CmpOrder cmp} : CmpOrder (on f cmp).
Proof.
  unfold on. split; intros.
  - apply cmp_antisym.
  - eapply cmp_lt_trans; eassumption.
  - apply cmp_eq_l; assumption.
Qed.

Global Instance lex_CmpOrder {A : Type} (c1 c2 : A -> A -> comparison)
  `{!CmpOrder c1, !CmpOrder c2} : CmpOrder (lex c1 c2).
Proof.
  unfold lex. split.
  - intros a b. rewrite (cmp_antisym (cmp := c1) a b), (cmp_antisym (cmp := c2) a b).
    destruct (c1 a b); reflexivity.
  - intros a b c.
    destruct (c1 a b) eqn:H1; try discriminate;
      destruct (c1 b c) eqn:H2; try discriminate; intros Hab Hbc.
    + rewrite (cmp_eq_l _ _ c H1), H2. eapply cmp_lt_trans; eassumption.
    + rewrite (cmp_eq_l _ _ c H1), H2. reflexivity.
    + rewrite <- (cmp_eq_r c1 a _ _ H2), H1. reflexivity.
    + rewrite (cmp_lt_trans _ _ _ H1 H2). reflexivity.
  - intros a b c. destruct (c1 a b) eqn:H1; try discriminate. intros H2.
    rewrite (cmp_eq_l _ _ c H1). rewrite (cmp_eq_l _ _ c H2). reflexivity.
Qed.

Global Instance string_CmpOrder : CmpOrder PyStr.compare.
Proof.
  split.
  - intros a b. apply String.compare_antisym.
  - apply PySortFacts.compare_Lt_trans.
  - intros a b c H. apply PySortFacts.compare_eq in H. subst. reflexivity.
Qed.

Global Instance datetime_CmpOrder : CmpOrder LogParser.cmp_datetime.
Proof.
  split.
  - intros [a|] [b|]; simpl; try reflexivity. apply Z.compare_antisym.
  - intros [a|] [b|] [c|]; simpl; try congruence.
    rewrite !Z.compare_lt_iff. lia.
  - intros [a|] [b|] [c|]; simpl; try congruence;
      intros H; apply Z.compare_eq in H; subst; reflexivity.
Qed.

End CmpFacts.

(** ** Sequence grouping *)

Module GrouperFacts.

Import LogParser LogParserSpec Cmp CmpFacts.

Lemma cmp_sequence_lex :
  cmp_sequence =
  lex (on pc_id PyStr.compare) (lex (on alarm PyStr.compare) (on datetime cmp_datetime)).
Proof. reflexivity. Qed.

Lemma le_sequence_le_of : le_sequence = le_of cmp_sequence.
Proof. reflexivity. Qed.

Lemma le_sequence_total (a b : AlarmRecord) :
  le_sequence a b = false -> le_sequence b a = true.
Proof.
  rewrite le_sequence_le_of, cmp_sequence_lex. apply le_of_total. apply _.
Qed.

Lemma le_sequence_trans (a b c : AlarmRecord) :
  le_sequence a b = true -> le_sequence b c = true -> le_sequence a c = true.
Proof.
  rewrite le_sequence_le_of, cmp_sequence_lex. apply le_of_trans. apply _.
Qed.

(** Inside one group the sort order is the order of the times. *)
Lemma le_sequence_same_group (a b : AlarmRecord) :
  pc_id a = pc_id b -> alarm a = alarm b -> le_sequence a b = true -> not_later a b.
Proof.
  unfold le_sequence, cmp_sequence, not_later. intros -> ->.
  rewrite !PySortFacts.compare_refl.
  destruct (datetime a) as [x|], (datetime b) as [y|]; simpl; try congruence; auto.
  destruct (Z.compare_spec x y); try congruence; intros _; lia.
Qed.

Lemma group_of_same (device code : string) (df : DataFrame) :
  List.Forall (fun r => pc_id r = device /\ alarm r = code) (group_of device code df).
Proof.
  apply List.Forall_forall. intros r H.
  apply List.filter_In in H as [_ H]. apply andb_true_iff in H as [H1 H2].
  apply String.eqb_eq in H1, H2. auto.
Qed.

(** C7.  [group_alarm_sequences] only reorders: its result is a
    permutation of its argument, of the same length, and the rows of
    each [(pc_id, alarm)] group appear with non-decreasing times, those
    without a time after all the others of the group. *)
Theorem group_alarm_sequences_reorders (df : DataFrame) :
  Permutation df (group_alarm_sequences df)
  /\ length (group_alarm_sequences df) = length df
  /\ forall device code,
       StronglySorted not_later (group_of device code (group_alarm_sequences df)).
Proof.
  assert (E : group_alarm_sequences df = PySort.sort le_sequence df)
    by (destruct df; reflexivity).
  rewrite E. split; [|split].
  - symmetry. apply PySortFacts.sort_Permutation.
  - apply PySortFacts.sort_length.
  - intros device code.
    apply (PySortFacts.StronglySorted_weaken
             (fun a b => le_sequence a b = true) not_later
             (fun r => pc_id r = device /\ alarm r = code)).
    + intros a b [Ha1 Ha2] [Hb1 Hb2]. apply le_sequence_same_group; congruence.
    + apply group_of_same.
    + apply PySortFacts.StronglySorted_filter.
      apply PySortFacts.sort_StronglySorted.
      * apply le_sequence_total.
      * apply le_sequence_trans.
Qed.

(** C7, witness: the groups come out by alarm code, each by time, the
    row without a time closing its group. *)
Lemma group_alarm_sequences_reorders_witness :
  map (fun r => (alarm r, datetime r)) (group_alarm_sequences Fixtures.mixed_frame)
  = [("FMDOS01", Some 3%Z); ("FMDOS01", Some 9%Z); ("FMDOS01", None); ("FMDOS02", Some 5%Z)]
  /\ Permutation Fixtures.mixed_frame (group_alarm_sequences Fixtures.mixed_frame)
  /\ StronglySorted not_later
       (group_of "PC510A00" "FMDOS01" (group_alarm_sequences Fixtures.mixed_frame)).
Proof.
  split; [reflexivity|].
  destruct (group_alarm_sequences_reorders Fixtures.mixed_frame) as (H1 & _ & H3).
  split; [exact H1|apply H3].
Defined.

End GrouperFacts.

(** ** Consolidation *)

Module ConsolidatorFacts.

Import LogParser LogParserSpec.

Section Lists.
Context {A B : Type}.

Lemma omap_ext_all (f g : A -> option B) (l : list A) :
  (forall x, f x = g x) -> omap f l = omap g l.
Proof.
  intros H. induction l as [|x l IH]; [reflexivity|].
  cbn. rewrite H, IH. reflexivity.
Qed.

Lemma omap_omap {C : Type} (f : A -> option B) (g : B -> option C) (l : list A) :
  omap g (omap f l) = omap (fun x => f x ≫= g) l.
Proof.
  induction l as [|x l IH]; [reflexivity|].
  cbn. destruct (f x) as [y|]; cbn; [|exact IH].
  destruct (g y); rewrite IH; reflexivity.
Qed.

(** Looking up in [omap f l] when [f] is defined on all of [l]. *)
Lemma lookup_omap_total (f : A -> option B) (l : list A) (j : nat) :
  List.Forall (fun x => is_Some (f x)) l -> omap f l !! j = l !! j ≫= f.
Proof.
  intros H. revert j. induction H as [|x l [y Hy] Hl IH]; intros j; [destruct j; reflexivity|].
  cbn. rewrite Hy. destruct j as [|j]; cbn; [symmetry; exact Hy|apply IH].
Qed.

Lemma omap_lookup_seq (pre l : list A) :
  omap (fun i => (pre ++ l) !! i) (seq (length pre) (length l)) = l.
Proof.
  revert pre. induction l as [|x l IH]; intros pre; [reflexivity|].
  cbn. rewrite lookup_app_r by lia. rewrite Nat.sub_diag. cbn. f_equal.
  specialize (IH (pre ++ [x])).
  rewrite length_app, <- app_assoc in IH. cbn in IH.
  rewrite Nat.add_1_r in IH. exact IH.
Qed.

(** Rows taken through a permutation of all positions are a
    permutation of the rows. *)
Lemma take_Permutation (l : list A) (idx : list nat) :
  Permutation idx (seq 0 (length l)) -> Permutation (omap (fun i => l !! i) idx) l.
Proof.
  intros H. rewrite H.
  pose proof (omap_lookup_seq [] l) as E. cbn [app length] in E.
  rewrite E. reflexivity.
Qed.

End Lists.

Lemma positions_take (keep : AlarmRecord -> bool) (pre df : DataFrame) :
  omap (fun i => (pre ++ df) !! i) (positions keep (length pre) df) = List.filter keep df.
Proof.
  revert pre. induction df as [|r df IH]; intros pre; [reflexivity|].
  specialize (IH (pre ++ [r])).
  rewrite length_app, <- app_assoc in IH. cbn in IH. rewrite Nat.add_1_r in IH.
  cbn. destruct (keep r); [|exact IH].
  cbn. rewrite lookup_app_r by lia. rewrite Nat.sub_diag. cbn. f_equal. exact IH.
Qed.

Lemma positions_valid (keep : AlarmRecord -> bool) (pre df : DataFrame) :
  List.Forall (fun i => is_Some ((pre ++ df) !! i)) (positions keep (length pre) df).
Proof.
  revert pre. induction df as [|r df IH]; intros pre; [constructor|].
  specialize (IH (pre ++ [r])).
  rewrite length_app, <- app_assoc in IH. cbn in IH. rewrite Nat.add_1_r in IH.
  cbn. destruct (keep r); [|exact IH].
  constructor; [|exact IH].
  rewrite lookup_app_r by lia. rewrite Nat.sub_diag. cbn. eauto.
Qed.

Lemma positions_take_all (keep : AlarmRecord -> bool) (df : DataFrame) :
  omap (fun i => df !! i) (positions keep 0 df) = List.filter keep df.
Proof. exact (positions_take keep [] df). Qed.

Lemma positions_valid_all (keep : AlarmRecord -> bool) (df : DataFrame) :
  List.Forall (fun i => is_Some (df !! i)) (positions keep 0 df).
Proof. exact (positions_valid keep [] df). Qed.

Lemma known_times_filter_notna (df : DataFrame) :
  known_times (List.filter notna df) = known_times df.
Proof.
  unfold known_times, notna. induction df as [|r df IH]; [reflexivity|].
  cbn. destruct (datetime r) eqn:E; cbn; rewrite ?E, IH; reflexivity.
Qed.

Lemma filter_notna_known (df : DataFrame) :
  List.Forall (fun r => is_Some (datetime r)) (List.filter notna df).
Proof.
  apply List.Forall_forall. intros r H. apply List.filter_In in H as [_ H].
  unfold notna in H. destruct (datetime r); [eauto|discriminate].
Qed.

Lemma known_times_length (df : DataFrame) :
  length (known_times df) = length (List.filter notna df).
Proof.
  unfold known_times, notna. induction df as [|r df IH]; [reflexivity|].
  cbn. destruct (datetime r); cbn; rewrite IH; reflexivity.
Qed.

Lemma filter_partition_Permutation (df : DataFrame) :
  Permutation (List.filter notna df ++ List.filter isna df) df.
Proof.
  unfold isna. induction df as [|r df IH]; [reflexivity|].
  cbn. destruct (notna r); cbn.
  - constructor. exact IH.
  - rewrite <- Permutation_middle. constructor. exact IH.
Qed.

Section Sorting.

Variable argsort : list Timestamp -> list nat.

Lemma sort_values_datetime_split (df : DataFrame) :
  sort_values_datetime argsort df = timed_part argsort df ++ List.filter isna df.
Proof.
  unfold sort_values_datetime, nargsort, timed_part.
  rewrite omap_app, positions_take_all. f_equal.
  rewrite omap_omap. apply omap_ext_all. intros j.
  rewrite <- (positions_take_all notna df).
  rewrite lookup_omap_total by apply positions_valid_all.
  reflexivity.
Qed.

Lemma timed_part_Permutation (df : DataFrame) :
  sorting_indexer (known_times df) (argsort (known_times df)) ->
  Permutation (timed_part argsort df) (List.filter notna df).
Proof.
  intros [H _]. apply take_Permutation. rewrite <- known_times_length. exact H.
Qed.

Lemma timed_part_Sorted (df : DataFrame) :
  sorting_indexer (known_times df) (argsort (known_times df)) ->
  Sorted Z.le (known_times (timed_part argsort df)).
Proof.
  intros [_ H]. unfold timed_part, known_times at 1. rewrite omap_omap.
  erewrite omap_ext_all; [exact H|].
  intros j. cbn. rewrite <- known_times_filter_notna. unfold known_times.
  rewrite lookup_omap_total by apply filter_notna_known. reflexivity.
Qed.

End Sorting.

Lemma collect_dataframes_concat (to_datetime : string -> option Timestamp)
  (file_infos : list FileReader.FileInfo) :
  concat (collect_dataframes to_datetime file_infos) =
  flat_map (fun fi => parse_file to_datetime (FileReader.lines fi) (FileReader.filename fi))
           file_infos.
Proof.
  induction file_infos as [|fi fis IH]; [reflexivity|].
  cbn. destruct (parse_file to_datetime _ _) as [|r df]; cbn; rewrite <- IH; reflexivity.
Qed.

(** C3 (as the code has it).  [parse_multiple_files] returns the rows
    of all files, those with a known time first and by non-decreasing
    time, then those without a time in their input order.  The order
    among rows of equal known time is the one chosen by the sort of
    the library, of which only the sorting of the keys is assumed. *)
Theorem parse_multiple_files_order (to_datetime : string -> option Timestamp)
  (argsort : list Timestamp -> list nat) (file_infos : list FileReader.FileInfo) :
  let input :=
    flat_map (fun fi => parse_file to_datetime (FileReader.lines fi) (FileReader.filename fi))
             file_infos in
  sorting_indexer (known_times input) (argsort (known_times input)) ->
  exists timed,
    parse_multiple_files to_datetime argsort file_infos = timed ++ List.filter isna input
    /\ Permutation timed (List.filter notna input)
    /\ Sorted Z.le (known_times timed)
    /\ Permutation (parse_multiple_files to_datetime argsort file_infos) input.
Proof.
  intros input. subst input. rewrite <- collect_dataframes_concat.
  unfold parse_multiple_files.
  destruct (collect_dataframes to_datetime file_infos) as [|df dfs] eqn:E.
  - intros _. exists []. cbn. repeat split; constructor.
  - set (all := concat (df :: dfs)). intros H.
    exists (timed_part argsort all).
    split; [apply sort_values_datetime_split|].
    split; [apply timed_part_Permutation; exact H|].
    split; [apply timed_part_Sorted; exact H|].
    rewrite sort_values_datetime_split.
    rewrite (timed_part_Permutation argsort all H).
    apply filter_partition_Permutation.
Qed.

(** C3, counterexample: eighteen rows of one file carry the same time;
    the default sort of the library returns the second to the sixteenth
    of them in the reverse of their input order. *)
Lemma parse_multiple_files_not_stable :
  let input :=
    flat_map (fun fi => parse_file Fixtures.digits_clock
                          (FileReader.lines fi) (FileReader.filename fi))
             Fixtures.burst_file in
  let output :=
    parse_multiple_files Fixtures.digits_clock Numpy.argsort_quicksort
      Fixtures.burst_file in
  map alarm input
  = ["FMDOS01"; "FMDOS02"; "FMDOS03"; "FMDOS04"; "FMDOS05"; "FMDOS06";
     "FMDOS07"; "FMDOS08"; "FMDOS09"; "FMDOS10"; "FMDOS11"; "FMDOS12";
     "FMDOS13"; "FMDOS14"; "FMDOS15"; "FMDOS16"; "FMDOS17"; "FMDOS18"]
  /\ map timestamp input = repeat "2025-10-05 07:12:33,4" 18
  /\ map datetime input = repeat (Some 202510050712334%Z) 18
  /\ map alarm output
     = ["FMDOS01"; "FMDOS16"; "FMDOS15"; "FMDOS14"; "FMDOS13"; "FMDOS12";
        "FMDOS11"; "FMDOS10"; "FMDOS09"; "FMDOS08"; "FMDOS07"; "FMDOS06";
        "FMDOS05"; "FMDOS04"; "FMDOS03"; "FMDOS02"; "FMDOS17"; "FMDOS18"].
Proof. cbv zeta. repeat split; vm_compute; reflexivity. Qed.

(** C3, witness: five rows of two files under the default sort of the
    library.  The three with a known time come first, by time, and the
    two without follow in input order. *)
Lemma parse_multiple_files_order_witness :
  let input :=
    flat_map (fun fi => parse_file Fixtures.calendar_clock
                          (FileReader.lines fi) (FileReader.filename fi))
             Fixtures.mixed_times_files in
  let output :=
    parse_multiple_files Fixtures.calendar_clock Numpy.argsort_quicksort
      Fixtures.mixed_times_files in
  map alarm input = ["FMDOS01"; "FMDOS02"; "FMDOS03"; "FMDOS04"; "FMDOS05"]
  /\ map alarm output = ["FMDOS02"; "FMDOS04"; "FMDOS01"; "FMDOS03"; "FMDOS05"]
  /\ exists timed,
       output = timed ++ List.filter isna input
       /\ map alarm (List.filter isna input) = ["FMDOS03"; "FMDOS05"]
       /\ Permutation timed (List.filter notna input)
       /\ Sorted Z.le (known_times timed)
       /\ Permutation output input.
Proof.
  cbv zeta. split; [vm_compute; reflexivity|]. split; [vm_compute; reflexivity|].
  destruct (parse_multiple_files_order Fixtures.calendar_clock Numpy.argsort_quicksort
              Fixtures.mixed_times_files)
    as (timed & H1 & H2 & H3 & H4).
  - split.
    + apply (bool_decide_unpack _). vm_compute. exact I.
    + match goal with
      | |- Sorted _ ?l => let l' := eval vm_compute in l in change l with l'
      end.
      repeat (constructor; try lia).
  - exists timed. split; [exact H1|]. split; [vm_compute; reflexivity|].
    split; [exact H2|]. split; [exact H3|exact H4].
Defined.

(** C4 (as the code has it).  With no file, or with files none of
    whose lines parses, consolidation returns the empty collection and
    [get_statistics] the empty dictionary: it has no entry, and the
    reads of the loader, which default to zero, find zero counts. *)
Theorem consolidate_nothing (to_datetime : string -> option Timestamp)
  (argsort : list Timestamp -> list nat) :
  parse_multiple_files to_datetime argsort [] = []
  /\ (forall file_infos,
        List.Forall
          (fun fi => parse_file to_datetime (FileReader.lines fi) (FileReader.filename fi) = [])
          file_infos ->
        parse_multiple_files to_datetime argsort file_infos = [])
  /\ exists stats,
       get_statistics [] = Some stats
       /\ stats = ∅
       /\ (forall key, stats !! key = None)
       /\ default (VInt 0) (stats !! "total_records") = VInt 0
       /\ (forall stage, DatabaseLoader.count_of stats stage = Some 0%Z).
Proof.
  split; [reflexivity|]. split; [|exists ∅; repeat split].
  intros fis H. unfold parse_multiple_files.
  assert (E : collect_dataframes to_datetime fis = []).
  { induction H as [|fi fis Hfi Hfis IH]; [reflexivity|].
    cbn. rewrite Hfi. exact IH. }
  rewrite E. reflexivity.
Qed.

(** C4, counterexample: the statistics of an empty consolidation hold
    no count of records, where a count of zero was expected. *)
Lemma statistics_of_nothing_has_no_count :
  exists stats,
    get_statistics
      (parse_multiple_files Fixtures.digits_clock Fixtures.stable_argsort [])
    = Some stats
    /\ stats !! "total_records" = None
    /\ stats !! "records_by_type" = None.
Proof. exists ∅. repeat split. Qed.

End ConsolidatorFacts.

(** ** The batch loader *)

Module DatabaseLoaderFacts.

Import LogParser DatabaseLoader.

(** C2 (as the code has it).  On an empty collection
    [load_dataframe] writes nothing: tables and session are unchanged,
    one warning is logged, and the flag returned is [False], the value
    it also returns when a write fails. *)
Theorem load_dataframe_empty (now : Timestamp)
  (to_sql : gmap string (list AlarmLog) -> string -> IfExists -> nat -> list AlarmLog ->
            option (gmap string (list AlarmLog)))
  (table_name : string) (if_exists : IfExists) (st : Loader) :
  let result := load_dataframe now to_sql [] table_name if_exists st in
  fst result = false
  /\ tables (snd result) = tables st
  /\ session (snd result) = session st
  /\ log (snd result) = log st ++ [WARNING].
Proof. cbn. repeat split. Qed.

(** C2, counterexample: the empty load is not reported as a success. *)
Lemma load_dataframe_empty_not_success :
  fst (load_dataframe 0%Z Fixtures.working_to_sql [] "alarm_logs" Append
         Fixtures.fresh_loader) = false.
Proof. reflexivity. Qed.

Section Session.

Variable now : Timestamp.
Variable commit_raises : Session -> bool.

Lemma flush_one (rows : list StatRow) (obj : ETLStatistics) :
  flush now rows [obj] =
  rows ++ [{| id := next_id rows; execution_date := now; stat := obj |}].
Proof. reflexivity. Qed.

(** Every exit of [save_etl_statistics] leaves the session without
    pending objects and the tables of events untouched. *)
Lemma save_etl_statistics_settles (stats : gmap string StatValue)
  (execution_time : pyfloat) (status : string) (st : Loader) :
  let result := save_etl_statistics now commit_raises stats execution_time status st in
  pending (session (snd result)) = [] /\ tables (snd result) = tables st.
Proof.
  cbn. unfold save_etl_statistics.
  destruct (new_statistics stats execution_time status) as [obj|]; [|split; reflexivity].
  unfold session_commit.
  destruct (commit_raises _); split; reflexivity.
Qed.

End Session.

(** C10.  Called on a session with nothing pending,
    [save_etl_statistics] returns [False] exactly when building the
    object or committing raises, and then the statistics table is as
    before and the pending insert is gone; otherwise it returns [True]
    and the table has gained exactly one row, the object built from
    the arguments. *)
Theorem save_etl_statistics_atomic (now : Timestamp) (commit_raises : Session -> bool)
  (stats : gmap string StatValue) (execution_time : pyfloat) (status : string)
  (st : Loader) :
  pending (session st) = [] ->
  let result := save_etl_statistics now commit_raises stats execution_time status st in
  let raised :=
    match new_statistics stats execution_time status with
    | None => true
    | Some obj => commit_raises (session_add obj (session st))
    end in
  fst result = negb raised
  /\ pending (session (snd result)) = []
  /\ (fst result = false ->
      etl_statistics (session (snd result)) = etl_statistics (session st))
  /\ (fst result = true ->
      exists obj,
        new_statistics stats execution_time status = Some obj
        /\ etl_statistics (session (snd result)) =
           etl_statistics (session st)
           ++ [{| id := next_id (etl_statistics (session st));
                  execution_date := now;
                  stat := obj |}]).
Proof.
  intros Hp. cbn zeta. unfold save_etl_statistics.
  destruct (new_statistics stats execution_time status) as [obj|].
  - unfold session_commit.
    destruct (commit_raises (session_add obj (session st))) eqn:Hc; cbn.
    + split; [reflexivity|]. split; [reflexivity|].
      split; [reflexivity|discriminate].
    + split; [reflexivity|]. split; [reflexivity|].
      split; [discriminate|].
      intros _. exists obj. split; [reflexivity|].
      rewrite Hp. reflexivity.
  - cbn. split; [reflexivity|]. split; [reflexivity|].
    split; [reflexivity|discriminate].
Qed.

(** C10, witness: one run that commits and one whose commit raises. *)
Lemma save_etl_statistics_atomic_witness :
  (let result :=
     save_etl_statistics 7%Z (fun _ => false) Fixtures.sample_stats (Finite 5 2) "success"
       Fixtures.fresh_loader in
   fst result = true
   /\ map (fun row => (id row, total_records (stat row), cfn_count (stat row),
                       execution_time_seconds (stat row)))
          (etl_statistics (session (snd result)))
      = [(1%Z, VInt 2, 2%Z, 2%Z)])
  /\ (let result :=
        save_etl_statistics 7%Z (fun _ => true) Fixtures.sample_stats (Finite 5 2) "success"
          Fixtures.fresh_loader in
      fst result = false
      /\ etl_statistics (session (snd result)) = []
      /\ pending (session (snd result)) = []).
Proof.
  split.
  - destruct (save_etl_statistics_atomic 7%Z (fun _ => false) Fixtures.sample_stats
                (Finite 5 2) "success" Fixtures.fresh_loader eq_refl)
      as (H1 & _ & _ & _).
    split; [exact H1|reflexivity].
  - destruct (save_etl_statistics_atomic 7%Z (fun _ => true) Fixtures.sample_stats
                (Finite 5 2) "success" Fixtures.fresh_loader eq_refl)
      as (H1 & H2 & H3 & _).
    split; [exact H1|]. split; [apply H3; exact H1|exact H2].
Defined.

End DatabaseLoaderFacts.

(** ** More on the file reader *)

Module EncodingFacts.

Import FileReader.

Lemma try_encodings_first (fs : FileSystem) (p : Path) (encodings : list string)
  (file_info : FileInfo) :
  try_encodings fs p encodings = Some file_info ->
  exists before after,
    encodings = before ++ encoding file_info :: after
    /\ (forall e, In e before -> open_readlines fs e p = None)
    /\ open_readlines fs (encoding file_info) p = Some (lines file_info)
    /\ line_count file_info = length (lines file_info)
    /\ filename file_info = p /\ filepath file_info = p.
Proof.
  induction encodings as [|e rest IH]; cbn; [discriminate|].
  destruct (open_readlines fs e p) as [ls|] eqn:He.
  - intros [= <-]. exists [], rest. cbn. repeat split; auto. intros ? [].
  - intros H. destruct (IH H) as (before & after & -> & Hb & Hrest).
    exists (e :: before), after. split; [reflexivity|]. split; [|exact Hrest].
    intros e' [<-|He']; [exact He|apply Hb; exact He'].
Qed.

Lemma try_encodings_none (fs : FileSystem) (p : Path) (encodings : list string) :
  try_encodings fs p encodings = None ->
  forall e, In e encodings -> open_readlines fs e p = None.
Proof.
  induction encodings as [|e rest IH]; cbn; [intros _ ? []|].
  destruct (open_readlines fs e p) as [ls|] eqn:He; [discriminate|].
  intros H e' [<-|He']; [exact He|apply IH; assumption].
Qed.

(** X1.  [read_file] returns the result of the first configured
    encoding that reads the file: every encoding before it in the list
    failed, the lines are those read with it, [line_count] is their
    number; and it returns nothing only if every encoding fails. *)
Theorem read_file_first_encoding (fs : FileSystem) (p : Path) :
  (forall file_info, read_file fs p = Some file_info ->
     exists before after,
       Config.encodings_to_try = before ++ encoding file_info :: after
       /\ (forall e, In e before -> open_readlines fs e p = None)
       /\ open_readlines fs (encoding file_info) p = Some (lines file_info)
       /\ line_count file_info = length (lines file_info)
       /\ filename file_info = p /\ filepath file_info = p)
  /\ (read_file fs p = None ->
      forall e, In e Config.encodings_to_try -> open_readlines fs e p = None).
Proof.
  split.
  - intros fi H. apply try_encodings_first. exact H.
  - apply try_encodings_none.
Qed.

(** X1, witness: [c.LOG] is not valid UTF-8 and is read as Latin-1. *)
Lemma read_file_first_encoding_witness :
  exists file_info before after,
    read_file Fixtures.fs_with_unreadable "c.LOG" = Some file_info
    /\ encoding file_info = "latin-1"
    /\ Config.encodings_to_try = before ++ encoding file_info :: after
    /\ (forall e, In e before -> open_readlines Fixtures.fs_with_unreadable e "c.LOG" = None).
Proof.
  destruct (read_file_first_encoding Fixtures.fs_with_unreadable "c.LOG") as [H _].
  destruct (H _ eq_refl) as (before & after & E & Hb & _).
  eexists _, before, after. split; [reflexivity|]. split; [reflexivity|].
  split; [exact E|exact Hb].
Defined.

Lemma read_file_filepath (fs : FileSystem) (p : Path) (file_info : FileInfo) :
  read_file fs p = Some file_info -> filepath file_info = p /\ filename file_info = p.
Proof.
  intros H. apply try_encodings_first in H as (_ & _ & _ & _ & _ & _ & H1 & H2). auto.
Qed.

Lemma omap_read_file_sublist (fs : FileSystem) (files : list Path) :
  sublist (map filepath (omap (read_file fs) files)) files.
Proof.
  induction files as [|f files IH]; [constructor|].
  change (omap (read_file fs) (f :: files))
    with (match read_file fs f with
          | Some y => y :: omap (read_file fs) files
          | None => omap (read_file fs) files
          end).
  destruct (read_file fs f) as [fi|] eqn:H.
  - apply read_file_filepath in H as [H _].
    change (map filepath (fi :: omap (read_file fs) files))
      with (filepath fi :: map filepath (omap (read_file fs) files)).
    rewrite H. constructor. exact IH.
  - constructor. exact IH.
Qed.

Lemma StronglySorted_sublist {A : Type} (R : A -> A -> Prop) (l k : list A) :
  sublist l k -> StronglySorted R k -> StronglySorted R l.
Proof.
  intros Hs Hk. revert l Hs.
  induction Hk as [|x k Hk IH Hx]; intros l Hs.
  - apply sublist_nil_r in Hs. subst. constructor.
  - apply sublist_cons_r in Hs as [Hs|(l' & -> & Hs)]; [apply IH; exact Hs|].
    constructor; [apply IH; exact Hs|].
    rewrite List.Forall_forall in *. intros y Hy. apply Hx.
    apply list_elem_of_In. apply (sublist_subseteq _ _ Hs).
    apply list_elem_of_In. exact Hy.
Qed.

Lemma omap_read_file_readable (fs : FileSystem) (files : list Path) :
  map filepath (omap (read_file fs) files)
  = List.filter (fun p => bool_decide (is_Some (read_file fs p))) files.
Proof.
  induction files as [|f files IH]; [reflexivity|].
  change (omap (read_file fs) (f :: files))
    with (match read_file fs f with
          | Some y => y :: omap (read_file fs) files
          | None => omap (read_file fs) files
          end).
  cbn [List.filter].
  destruct (read_file fs f) as [fi|] eqn:H.
  - rewrite bool_decide_eq_true_2 by (eexists; reflexivity).
    apply read_file_filepath in H as [H _].
    cbn [map]. rewrite H, IH. reflexivity.
  - rewrite bool_decide_eq_false_2 by (intros [? ?]; discriminate).
    exact IH.
Qed.

(** X2.  [read_all_files] returns one [FileInfo] per listed file that
    could be read, in the order of the sorted listing: the paths of the
    result are exactly the listed paths that [read_file] can read, in
    the same order and with the same repetitions, hence a sorted
    subsequence of [list_files]; and each element is what [read_file]
    returns for its path. *)
Theorem read_all_files_in_listing_order (fs : FileSystem) :
  map filepath (read_all_files fs)
  = List.filter (fun p => bool_decide (is_Some (read_file fs p))) (list_files fs)
  /\ sublist (map filepath (read_all_files fs)) (list_files fs)
  /\ StronglySorted (fun a b => PyStr.leb a b = true) (map filepath (read_all_files fs))
  /\ Forall (fun file_info => read_file fs (filepath file_info) = Some file_info)
            (read_all_files fs).
Proof.
  rewrite FileReaderFacts.read_all_files_omap.
  split; [apply omap_read_file_readable|].
  split; [apply omap_read_file_sublist|]. split.
  - eapply StronglySorted_sublist;
      [apply omap_read_file_sublist|apply FileReaderFacts.list_files_sorted].
  - apply Forall_forall. intros fi Hfi.
    apply list_elem_of_omap in Hfi as (q & _ & Hq).
    pose proof (read_file_filepath _ _ _ Hq) as [-> _]. exact Hq.
Qed.

End EncodingFacts.

(** ** Stability of the insertion sort *)

Module StableSortFacts.

Import PySort.

Section Stable.
Context {A : Type} (le : A -> A -> bool).

Hypothesis le_total : forall a b, le a b = false -> le b a = true.
Hypothesis le_trans : forall a b c, le a b = true -> le b c = true -> le a c = true.

Lemma insert_filter_out (p : A -> bool) (x : A) (l : list A) :
  p x = false -> List.filter p (insert le x l) = List.filter p l.
Proof.
  intros Hx. induction l as [|y l IH]; cbn; [rewrite Hx; reflexivity|].
  destruct (le x y); cbn; [rewrite Hx; reflexivity|].
  rewrite IH. reflexivity.
Qed.

Lemma insert_filter_in (p : A -> bool) (x : A) (l : list A) :
  p x = true -> (forall z, le x z = false -> p z = false) ->
  List.filter p (insert le x l) = x :: List.filter p l.
Proof.
  intros Hx Hz. induction l as [|y l IH]; cbn; [rewrite Hx; reflexivity|].
  destruct (le x y) eqn:Hxy; cbn; [rewrite Hx; reflexivity|].
  rewrite (Hz y Hxy). exact IH.
Qed.

(** Elements that compare equal leave the sort in their input order. *)
Lemma sort_stable (k : A) (l : list A) :
  List.filter (tied le k) (sort le l) = List.filter (tied le k) l.
Proof.
  induction l as [|x l IH]; [reflexivity|].
  cbn [sort List.filter]. destruct (tied le k x) eqn:Hx.
  - rewrite insert_filter_in; [rewrite IH; reflexivity|exact Hx|].
    intros z Hxz. unfold tied in *.
    apply andb_true_iff in Hx as [Hkx Hxk].
    destruct (le k z) eqn:Hkz; [|reflexivity].
    rewrite (le_trans _ _ _ Hxk Hkz) in Hxz. discriminate.
  - rewrite insert_filter_out; [exact IH|exact Hx].
Qed.

(** Sorting a sorted list changes nothing. *)
Lemma insert_sorted_head (x : A) (l : list A) :
  Forall (fun y => le x y = true) l -> insert le x l = x :: l.
Proof.
  intros H. destruct H as [|y l Hy _]; cbn; [reflexivity|].
  rewrite Hy. reflexivity.
Qed.

Lemma sort_of_sorted (l : list A) :
  StronglySorted (fun a b => le a b = true) l -> sort le l = l.
Proof.
  induction 1 as [|x l Hl IH Hx]; [reflexivity|].
  cbn. rewrite IH. apply insert_sorted_head. apply Forall_forall.
  rewrite List.Forall_forall in Hx. intros y Hy. apply Hx.
  apply list_elem_of_In. exact Hy.
Qed.

Lemma sort_idempotent (l : list A) : sort le (sort le l) = sort le l.
Proof.
  apply sort_of_sorted.
  apply (PySortFacts.sort_StronglySorted le le_total le_trans).
Qed.

End Stable.

End StableSortFacts.

(** ** Statistics of the reader *)

Module ReaderStatisticsFacts.

Import FileReader.

Lemma by_size_total (a b : string * nat) :
  (snd b <=? snd a)%nat = false -> (snd a <=? snd b)%nat = true.
Proof. intros H. apply Nat.leb_gt in H. apply Nat.leb_le. lia. Qed.

Lemma by_size_trans (a b c : string * nat) :
  (snd b <=? snd a)%nat = true -> (snd c <=? snd b)%nat = true ->
  (snd c <=? snd a)%nat = true.
Proof. rewrite !Nat.leb_le. lia. Qed.

Lemma sum_sizes_Permutation (l k : list (string * nat)) :
  Permutation l k -> sum_sizes l = sum_sizes k.
Proof.
  unfold sum_sizes.
  induction 1 as [|x l k _ IH|x y l|l k m _ IH1 _ IH2]; cbn in *; lia.
Qed.

Lemma total_lines_sum (file_infos : list FileInfo) :
  total_lines file_infos = sum_sizes (size_pairs file_infos).
Proof.
  induction file_infos as [|fi fis IH]; [reflexivity|].
  change (total_lines (fi :: fis)) with (Z.of_nat (line_count fi) + total_lines fis)%Z.
  rewrite IH. reflexivity.
Qed.

(** X3.  For a non-empty list of files, [files_by_size] lists every
    file once with its line count, by non-increasing line count, files
    of equal line count in their input order; [total_lines] is the sum
    of those counts and [total_files] their number. *)
Theorem reader_statistics_sizes (file_info : FileInfo) (others : list FileInfo) :
  let file_infos := file_info :: others in
  let stats := get_statistics file_infos in
  exists sizes,
    stats !! "files_by_size" = Some (RSizes sizes)
    /\ Permutation sizes (size_pairs file_infos)
    /\ StronglySorted (fun a b => snd b <= snd a) sizes
    /\ (forall n : nat,
          List.filter (fun p => (snd p =? n)%nat) sizes
          = List.filter (fun p => (snd p =? n)%nat) (size_pairs file_infos))
    /\ stats !! "total_lines" = Some (RInt (sum_sizes sizes))
    /\ stats !! "total_files" = Some (RInt (Z.of_nat (length sizes))).
Proof.
  cbn zeta. exists (sorted_by_size (size_pairs (file_info :: others))).
  assert (P : Permutation (sorted_by_size (size_pairs (file_info :: others)))
                          (size_pairs (file_info :: others)))
    by apply PySortFacts.sort_Permutation.
  split; [reflexivity|]. split; [exact P|]. split; [|split; [|split]].
  - eapply PySortFacts.StronglySorted_weaken with (P := fun _ => True);
      [|apply Forall_forall; auto
       |apply (PySortFacts.sort_StronglySorted _ by_size_total by_size_trans)].
    intros a b _ _ H. apply Nat.leb_le in H. exact H.
  - intros n.
    pose proof (StableSortFacts.sort_stable (fun a b => (snd b <=? snd a)%nat)
                  by_size_trans ("", n)
                  (size_pairs (file_info :: others))) as S.
    assert (Ext : forall p : string * nat,
               (snd p =? n)%nat = ((snd p <=? n)%nat && (n <=? snd p)%nat)).
    { intros p.
      destruct (Nat.eqb_spec (snd p) n), (Nat.leb_spec (snd p) n),
        (Nat.leb_spec n (snd p)); cbn; try reflexivity; lia. }
    rewrite (List.filter_ext _ _ Ext (sorted_by_size _)).
    rewrite (List.filter_ext _ _ Ext (size_pairs _)).
    exact S.
  - unfold get_statistics. rewrite lookup_insert_ne by discriminate.
    rewrite lookup_insert_ne by discriminate. rewrite lookup_insert_eq.
    rewrite total_lines_sum. rewrite (sum_sizes_Permutation _ _ P). reflexivity.
  - unfold get_statistics. do 3 (rewrite lookup_insert_ne by discriminate).
    rewrite lookup_insert_eq. rewrite (Permutation_length P).
    unfold size_pairs. rewrite length_map. reflexivity.
Qed.

Lemma read_all_files_line_counts (fs : FileSystem) :
  Forall (fun fi => line_count fi = length (lines fi)) (read_all_files fs).
Proof.
  rewrite FileReaderFacts.read_all_files_omap. apply Forall_forall. intros fi H.
  apply list_elem_of_omap in H as (q & _ & Hq).
  apply EncodingFacts.try_encodings_first in Hq as (_ & _ & _ & _ & _ & H & _).
  exact H.
Qed.

(** X4.  After [read_all_files], the [total_lines] of the reader's
    statistics is the number of lines held by the returned files; and
    the statistics of no file at all is the empty dictionary. *)
Theorem reader_statistics_of_run (fs : FileSystem) :
  total_lines (read_all_files fs)
  = Z.of_nat (length (concat (map lines (read_all_files fs))))
  /\ (read_all_files fs = [] -> get_statistics (read_all_files fs) = ∅)
  /\ (read_all_files fs <> [] ->
      get_statistics (read_all_files fs) !! "total_lines"
      = Some (RInt (Z.of_nat (length (concat (map lines (read_all_files fs))))))).
Proof.
  assert (E : total_lines (read_all_files fs)
              = Z.of_nat (length (concat (map lines (read_all_files fs))))).
  { pose proof (read_all_files_line_counts fs) as H. revert H.
    generalize (read_all_files fs) as l. intros l H.
    induction H as [|fi fis Hfi _ IH]; [reflexivity|].
    change (total_lines (fi :: fis)) with (Z.of_nat (line_count fi) + total_lines fis)%Z.
    change (concat (map lines (fi :: fis))) with (lines fi ++ concat (map lines fis)).
    rewrite IH, Hfi, length_app. lia. }
  split; [exact E|]. split.
  - intros ->. reflexivity.
  - intros Hne. rewrite <- E. destruct (read_all_files fs); [congruence|].
    unfold get_statistics. rewrite lookup_insert_ne by discriminate.
    rewrite lookup_insert_ne by discriminate. apply lookup_insert_eq.
Qed.

(** X4, witness: two readable files holding three lines in all. *)
Lemma reader_statistics_of_run_witness :
  get_statistics (read_all_files Fixtures.fs_with_unreadable) !! "total_lines"
  = Some (RInt 3).
Proof.
  destruct (reader_statistics_of_run Fixtures.fs_with_unreadable) as (_ & _ & H).
  rewrite H; [reflexivity|discriminate].
Defined.

End ReaderStatisticsFacts.

(** ** More on the loader *)

Module SessionFacts.

Import LogParser DatabaseLoader DatabaseLoaderSpec.

Section Backend.

Variable now : Timestamp.
Variable to_sql :
  gmap string (list AlarmLog) -> string -> IfExists -> nat -> list AlarmLog ->
  option (gmap string (list AlarmLog)).
Variable commit_raises : Session -> bool.

Lemma flush_appends (objs : list ETLStatistics) : forall rows,
  exists added,
    flush now rows objs = rows ++ added /\ map stat added = objs.
Proof.
  induction objs as [|o objs IH]; intros rows; cbn.
  - exists []. rewrite app_nil_r. auto.
  - destruct (IH (rows ++ [{| id := next_id rows; execution_date := now; stat := o |}]))
      as (added & -> & Hs).
    eexists (_ :: added). rewrite <- app_assoc. cbn. split; [reflexivity|].
    rewrite Hs. reflexivity.
Qed.

End Backend.

(** X5.  [save_etl_statistics] never removes or rewrites a stored
    statistics row: whatever the arguments and the state of the
    session, the rows stored before the call are a prefix of the rows
    stored after it, and a call that returns [False] stores nothing. *)
Theorem save_etl_statistics_append_only (now : Timestamp) (commit_raises : Session -> bool)
  (stats : gmap string StatValue) (execution_time : pyfloat) (status : string)
  (st : Loader) :
  let result := save_etl_statistics now commit_raises stats execution_time status st in
  exists added,
    etl_statistics (session (snd result)) = etl_statistics (session st) ++ added
    /\ (fst result = false -> added = [])
    /\ (fst result = true ->
        exists obj, new_statistics stats execution_time status = Some obj
                    /\ map stat added = pending (session st) ++ [obj]).
Proof.
  cbn zeta. unfold save_etl_statistics.
  destruct (new_statistics stats execution_time status) as [obj|]; cbn.
  - unfold session_commit. destruct (commit_raises _); cbn.
    + exists []. rewrite app_nil_r. split; [reflexivity|]. split; [auto|discriminate].
    + destruct (flush_appends now (pending (session st) ++ [obj])
                  (etl_statistics (session st))) as (added & E & Hs).
      exists added. split; [exact E|]. split; [discriminate|].
      intros _. exists obj. auto.
  - exists []. rewrite app_nil_r. split; [reflexivity|]. split; [auto|discriminate].
Qed.

Lemma save_call_pending (call : SaveCall) (st : Loader) :
  pending (session (snd (save_call call st))) = [].
Proof.
  unfold save_call, save_etl_statistics.
  destruct (new_statistics _ _ _); [|reflexivity].
  unfold session_commit. destruct (call_commit_raises call); reflexivity.
Qed.

Lemma save_call_rows (call : SaveCall) (st : Loader) :
  pending (session st) = [] ->
  exists added,
    etl_statistics (session (snd (save_call call st)))
    = etl_statistics (session st) ++ added
    /\ length added = (if fst (save_call call st) then 1 else 0).
Proof.
  intros Hp. unfold save_call, save_etl_statistics.
  destruct (new_statistics _ _ _) as [obj|]; cbn.
  - unfold session_commit.
    destruct (call_commit_raises call); cbn.
    + exists []. rewrite app_nil_r. auto.
    + rewrite Hp. cbn. eexists [_]. split; reflexivity.
  - exists []. rewrite app_nil_r. auto.
Qed.

(** X6.  Over any run of calls of [save_etl_statistics] that starts
    with nothing pending, each call with its own arguments, its own
    reading of the clock and its own outcome of the commit, the
    statistics table keeps its rows and gains exactly one row per call
    that returned [True]; nothing is left pending. *)
Theorem save_calls_one_row_per_success (calls : list SaveCall) (st : Loader) :
  pending (session st) = [] ->
  let result := save_calls calls st in
  exists added,
    etl_statistics (session (snd result)) = etl_statistics (session st) ++ added
    /\ length added = length (List.filter (fun ok : bool => ok) (fst result))
    /\ length (fst result) = length calls
    /\ pending (session (snd result)) = [].
Proof.
  cbn zeta. revert st. induction calls as [|call rest IH]; intros st Hp.
  - exists []. cbn. rewrite app_nil_r. auto.
  - cbn [save_calls fst snd].
    destruct (save_call_rows call st Hp) as (a1 & E1 & L1).
    destruct (IH (snd (save_call call st)) (save_call_pending call st))
      as (a2 & E2 & L2 & L3 & P).
    exists (a1 ++ a2). rewrite E2, E1, <- app_assoc.
    split; [reflexivity|]. split; [|split; [cbn; rewrite L3; reflexivity|exact P]].
    rewrite length_app, L1, L2. cbn [List.filter].
    destruct (fst (save_call call st)); reflexivity.
Qed.

(** X6, witness: the same statistics saved three times; the commit
    raises at the first and at the third call and one row is stored. *)
Lemma save_calls_one_row_per_success_witness :
  let call (t : Timestamp) (raises : bool) :=
    {| call_now := t; call_commit_raises := raises;
       call_stats := Fixtures.sample_stats;
       call_execution_time := Finite 5 2; call_status := "success" |} in
  let result :=
    save_calls [call 7%Z true; call 8%Z false; call 9%Z true] Fixtures.fresh_loader in
  fst result = [false; true; false]
  /\ exists added,
       etl_statistics (session (snd result)) = [] ++ added
       /\ length added = 1.
Proof.
  cbn zeta. split; [reflexivity|].
  destruct (save_calls_one_row_per_success
              [ {| call_now := 7%Z; call_commit_raises := true;
                   call_stats := Fixtures.sample_stats;
                   call_execution_time := Finite 5 2; call_status := "success" |};
                {| call_now := 8%Z; call_commit_raises := false;
                   call_stats := Fixtures.sample_stats;
                   call_execution_time := Finite 5 2; call_status := "success" |};
                {| call_now := 9%Z; call_commit_raises := true;
                   call_stats := Fixtures.sample_stats;
                   call_execution_time := Finite 5 2; call_status := "success" |} ]
              Fixtures.fresh_loader eq_refl) as (added & E & L & _).
  exists added. split; [exact E|exact L].
Defined.

End SessionFacts.

(** ** Per-line parsing *)

Module ParseFileFacts.

Import Re ReFacts LogParser LogParserFacts.

Section Parsing.

Variable to_datetime : string -> option Timestamp.

(** What [_create_record] copies into a record. *)
Lemma parse_line_provenance (line source_file : string) (r : AlarmRecord) :
  parse_line to_datetime line source_file = Some r ->
  arquivo_origem r = source_file
  /\ linha_original r = PyStr.strip line
  /\ datetime r = to_datetime (timestamp r).
Proof.
  unfold parse_line.
  destruct (negb _); [discriminate|].
  destruct (re_match PATTERN_ACK _) as [gs|] eqn:HA.
  - destruct (re_match_three _ _ _ ngroups_PATTERN_ACK HA) as (t & p & a & ->).
    intros [= <-]. auto.
  - destruct (re_match PATTERN_FULL _) as [gs|] eqn:HF; [|discriminate].
    destruct (re_match_three _ _ _ ngroups_PATTERN_FULL HF) as (t & p & a & ->).
    intros [= <-]. auto.
Qed.

Lemma parse_file_app (lines1 lines2 : list string) (source_file : string) :
  parse_file to_datetime (lines1 ++ lines2) source_file
  = parse_file to_datetime lines1 source_file ++ parse_file to_datetime lines2 source_file.
Proof.
  induction lines1 as [|l ls IH]; cbn; [reflexivity|].
  destruct (parse_line to_datetime l source_file); cbn; rewrite IH; reflexivity.
Qed.

Lemma parse_file_sublist (lines : list string) (source_file : string) :
  sublist (map linha_original (parse_file to_datetime lines source_file))
          (map PyStr.strip lines).
Proof.
  induction lines as [|l ls IH]; cbn; [constructor|].
  destruct (parse_line to_datetime l source_file) as [r|] eqn:H; cbn.
  - apply parse_line_provenance in H as (_ & -> & _). constructor. exact IH.
  - constructor. exact IH.
Qed.

Lemma parse_file_source (lines : list string) (source_file : string) :
  Forall (fun r => arquivo_origem r = source_file)
         (parse_file to_datetime lines source_file).
Proof.
  induction lines as [|l ls IH]; cbn; [constructor|].
  destruct (parse_line to_datetime l source_file) as [r|] eqn:H; [|exact IH].
  constructor; [|exact IH]. apply parse_line_provenance in H as (H & _). exact H.
Qed.

End Parsing.

(** X7.  [parse_file] treats each line on its own and keeps the order
    of the file: parsing a concatenation is concatenating the parses,
    there is at most one record per line, every record carries the
    name of the file, and the trimmed lines kept in the records are a
    subsequence of the trimmed lines of the file. *)
Theorem parse_file_line_by_line (to_datetime : string -> option Timestamp)
  (lines1 lines2 : list string) (source_file : string) :
  parse_file to_datetime (lines1 ++ lines2) source_file
  = parse_file to_datetime lines1 source_file ++ parse_file to_datetime lines2 source_file
  /\ length (parse_file to_datetime lines1 source_file) <= length lines1
  /\ Forall (fun r => arquivo_origem r = source_file)
            (parse_file to_datetime lines1 source_file)
  /\ sublist (map linha_original (parse_file to_datetime lines1 source_file))
             (map PyStr.strip lines1).
Proof.
  split; [apply parse_file_app|]. split; [|split].
  - pose proof (sublist_length _ _ (parse_file_sublist to_datetime lines1 source_file)) as H.
    rewrite !length_map in H. exact H.
  - apply parse_file_source.
  - apply parse_file_sublist.
Qed.

(** The general shape contains the acknowledgment shape. *)
Lemma lang_ACK_FULL (w : list ascii) :
  lang PATTERN_ACK w -> exists w' tail, w = w' ++ tail /\ lang PATTERN_FULL w'.
Proof.
  intros L. unfold PATTERN_ACK in L. apply lang_seq_of in L as (ws & F & ->).
  apply Forall2_cons_inv_l in F as (w1 & ws1 & L1 & F & ->).
  apply Forall2_cons_inv_l in F as (w2 & ws2 & L2 & F & ->).
  apply Forall2_cons_inv_l in F as (w3 & ws3 & L3 & F & ->).
  apply Forall2_cons_inv_l in F as (w4 & ws4 & L4 & F & ->).
  apply Forall2_cons_inv_l in F as (w5 & ws5 & L5 & F & ->).
  apply Forall2_cons_inv_l in F as (w6 & ws6 & L6 & F & ->).
  apply Forall2_cons_inv_l in F as (w7 & ws7 & L7 & F & ->).
  apply Forall2_cons_inv_l in F as (w8 & ws8 & L8 & F & ->).
  exists (concat [w1; w2; w3; w4; w5; w6; w7; w8; []]), (concat ws8).
  split.
  - cbn [concat]. rewrite !app_nil_r. rewrite <- !app_assoc. reflexivity.
  - unfold PATTERN_FULL. apply lang_seq_of_intro.
    repeat (constructor; [assumption|]).
    constructor; [constructor|constructor].
Qed.

(** X8.  Every text that matches the acknowledgment pattern also
    matches the general pattern: only the order in which [parse_line]
    tries them gives the acknowledgment pattern its effect. *)
Theorem ack_pattern_within_full (s : string) :
  is_Some (re_match PATTERN_ACK s) -> is_Some (re_match PATTERN_FULL s).
Proof.
  intros [gs H]. apply re_match_prefix in H as (w & rest & Hs & L).
  apply lang_ACK_FULL in L as (w' & tail & -> & L).
  apply (re_match_complete _ _ w' (tail ++ rest)); [|exact L].
  rewrite Hs, <- app_assoc. reflexivity.
Qed.

(** X8, witness. *)
Lemma ack_pattern_within_full_witness :
  is_Some (re_match PATTERN_FULL Fixtures.ack_line_with_cfn).
Proof.
  apply ack_pattern_within_full. eexists. reflexivity.
Defined.

End ParseFileFacts.

(** ** Trimming *)

Module StripFacts.

Import PyStr PyStrFacts.

Lemma lstrip_chars_solid_head (c : ascii) (t : list ascii) :
  isspace c = false -> lstrip_chars (c :: t) = c :: t.
Proof. intros H. cbn. rewrite H. reflexivity. Qed.

Lemma lstrip_chars_head (l : list ascii) :
  lstrip_chars l = [] \/ exists c t, lstrip_chars l = c :: t /\ isspace c = false.
Proof.
  induction l as [|c l IH]; cbn; [left; reflexivity|].
  destruct (isspace c) eqn:Hc; [exact IH|]. right. eauto.
Qed.

Lemma lstrip_chars_idempotent (l : list ascii) :
  lstrip_chars (lstrip_chars l) = lstrip_chars l.
Proof.
  destruct (lstrip_chars_head l) as [->|(c & t & -> & Hc)]; [reflexivity|].
  apply lstrip_chars_solid_head. exact Hc.
Qed.

Lemma rstrip_chars_idempotent (l : list ascii) :
  rstrip_chars (rstrip_chars l) = rstrip_chars l.
Proof.
  unfold rstrip_chars. rewrite rev_involutive, lstrip_chars_idempotent. reflexivity.
Qed.

Lemma strip_chars_idempotent (l : list ascii) :
  strip_chars (strip_chars l) = strip_chars l.
Proof.
  unfold strip_chars.
  assert (E : lstrip_chars (rstrip_chars (lstrip_chars l)) = rstrip_chars (lstrip_chars l)).
  { destruct (rstrip_chars_prefix (lstrip_chars l)) as [b Hb].
    destruct (rstrip_chars (lstrip_chars l)) as [|c t] eqn:Hr; [reflexivity|].
    destruct (lstrip_chars_head l) as [Hn|(c' & t' & Hl & Hc)].
    - rewrite Hn in Hb. discriminate.
    - rewrite Hl in Hb. injection Hb as -> _.
      apply lstrip_chars_solid_head. exact Hc. }
  rewrite E. apply rstrip_chars_idempotent.
Qed.

Lemma strip_idempotent (s : string) : strip (strip s) = strip s.
Proof.
  unfold strip. rewrite chars_text, strip_chars_idempotent. reflexivity.
Qed.

(** An occurrence of a text that starts and ends with characters other
    than spaces is not touched by trimming. *)
Lemma lstrip_chars_keeps (c : ascii) (f a b : list ascii) :
  isspace c = false ->
  exists a', lstrip_chars (a ++ (c :: f) ++ b) = a' ++ (c :: f) ++ b.
Proof.
  intros Hc. induction a as [|x a IH]; cbn.
  - rewrite Hc. exists []. reflexivity.
  - destruct (isspace x); [exact IH|]. exists (x :: a). reflexivity.
Qed.

Lemma rstrip_chars_keeps (d : ascii) (f a b : list ascii) :
  isspace d = false ->
  exists b', rstrip_chars (a ++ (f ++ [d]) ++ b) = a ++ (f ++ [d]) ++ b'.
Proof.
  intros Hd. unfold rstrip_chars.
  rewrite !rev_app_distr. cbn [rev app]. rewrite <- !app_assoc. cbn [app].
  destruct (lstrip_chars_keeps d (rev f ++ rev a) (rev b) [] Hd) as [b' Hb].
  rewrite app_nil_r in Hb. cbn [app] in Hb. rewrite Hb.
  exists (rev b'). rewrite rev_app_distr. cbn [rev]. rewrite rev_app_distr.
  rewrite !rev_involutive. rewrite <- !app_assoc. reflexivity.
Qed.

Lemma find_in_strip_chars (c d : ascii) (f l : list ascii) :
  isspace c = false -> isspace d = false ->
  find_in (c :: f ++ [d]) l = true -> find_in (c :: f ++ [d]) (strip_chars l) = true.
Proof.
  intros Hc Hd H. apply find_in_inv in H as (a & b & ->).
  unfold strip_chars.
  destruct (lstrip_chars_keeps c (f ++ [d]) a b Hc) as [a' ->].
  change ((c :: f ++ [d])) with ((c :: f) ++ [d]).
  destruct (rstrip_chars_keeps d (c :: f) a' b Hd) as [b' ->].
  apply find_in_infix.
Qed.

(** [sub in s.strip()] is [sub in s] for such a text. *)
Lemma contains_strip_solid (sub s : string) (c d : ascii) (f : list ascii) :
  chars sub = c :: f ++ [d] -> isspace c = false -> isspace d = false ->
  contains sub (strip s) = contains sub s.
Proof.
  intros E Hc Hd.
  destruct (contains sub s) eqn:H.
  - unfold contains, strip in *. rewrite chars_text, E in *.
    apply find_in_strip_chars; assumption.
  - destruct (contains sub (strip s)) eqn:H'; [|reflexivity].
    apply contains_strip in H'. congruence.
Qed.

End StripFacts.

Module TrimmedLineFacts.

Import LogParser.

Lemma filters_strip (line : string) :
  existsb (fun filter_term => PyStr.contains filter_term (PyStr.strip line)) Config.filters
  = existsb (fun filter_term => PyStr.contains filter_term line) Config.filters.
Proof.
  unfold Config.filters. cbn [existsb].
  rewrite (StripFacts.contains_strip_solid "CFN" line "C" "N" ["F"%char])
    by reflexivity.
  rewrite (StripFacts.contains_strip_solid "OK" line "O" "K" []) by reflexivity.
  rewrite (StripFacts.contains_strip_solid "acknowledged" line "a" "d"
             (PyStr.chars "cknowledge")) by reflexivity.
  reflexivity.
Qed.

(** X9.  White space around a line, such as the newline left by
    [readlines], never changes what [parse_line] returns: the line and
    its trimmed form give the same result. *)
Theorem parse_line_ignores_margins (to_datetime : string -> option Timestamp)
  (line source_file : string) :
  parse_line to_datetime (PyStr.strip line) source_file
  = parse_line to_datetime line source_file.
Proof.
  unfold parse_line.
  rewrite filters_strip, StripFacts.strip_idempotent. reflexivity.
Qed.

End TrimmedLineFacts.

(** ** More on sequence grouping *)

Module LexsortFacts.

Import LogParser LogParserSpec Cmp CmpFacts GrouperFacts.

Lemma group_alarm_sequences_sort (df : DataFrame) :
  group_alarm_sequences df = PySort.sort le_sequence df.
Proof. destruct df; reflexivity. Qed.

Lemma cmp_datetime_eq (a b : option Timestamp) : cmp_datetime a b = Eq -> a = b.
Proof.
  destruct a as [x|], b as [y|]; cbn; try discriminate; [|reflexivity].
  intros H. apply Z.compare_eq in H. congruence.
Qed.

Lemma cmp_sequence_eq (k r : AlarmRecord) :
  cmp_sequence k r = Eq <-> same_key k r = true.
Proof.
  unfold cmp_sequence, same_key. split.
  - destruct (PyStr.compare (pc_id k) (pc_id r)) eqn:H1; try discriminate.
    destruct (PyStr.compare (alarm k) (alarm r)) eqn:H2; try discriminate.
    intros H3. apply PySortFacts.compare_eq in H1, H2. apply cmp_datetime_eq in H3.
    rewrite H1, H2, H3, !String.eqb_refl. cbn. apply bool_decide_eq_true. reflexivity.
  - intros H. apply andb_true_iff in H as [H H3]. apply andb_true_iff in H as [H1 H2].
    apply String.eqb_eq in H1, H2. apply bool_decide_eq_true in H3.
    rewrite H1, H2, H3, !PySortFacts.compare_refl.
    destruct (datetime r); cbn; [apply Z.compare_refl|reflexivity].
Qed.

Lemma tied_same_key (k r : AlarmRecord) :
  le_sequence k r && le_sequence r k = same_key k r.
Proof.
  destruct (same_key k r) eqn:H.
  - apply cmp_sequence_eq in H. unfold le_sequence.
    pose proof (cmp_antisym (cmp := cmp_sequence) k r) as A.
    rewrite cmp_sequence_lex in *. rewrite A, H. reflexivity.
  - unfold le_sequence.
    pose proof (cmp_antisym (cmp := lex (on pc_id PyStr.compare)
                                       (lex (on alarm PyStr.compare)
                                            (on datetime cmp_datetime))) k r) as A.
    rewrite <- cmp_sequence_lex in A. rewrite A.
    destruct (cmp_sequence k r) eqn:E; cbn; try reflexivity.
    apply cmp_sequence_eq in E. congruence.
Qed.

(** X10.  [group_alarm_sequences] is stable and idempotent: rows with
    the same device, alarm code and time keep their input order, and
    grouping an already grouped collection returns it unchanged. *)
Theorem group_alarm_sequences_stable (df : DataFrame) :
  (forall k, List.filter (same_key k) (group_alarm_sequences df)
             = List.filter (same_key k) df)
  /\ group_alarm_sequences (group_alarm_sequences df) = group_alarm_sequences df.
Proof.
  rewrite !group_alarm_sequences_sort. split.
  - intros k.
    pose proof (StableSortFacts.sort_stable le_sequence le_sequence_trans k df) as S.
    unfold PySort.tied in S.
    rewrite (List.filter_ext _ _ (tied_same_key k) (PySort.sort le_sequence df)) in S.
    rewrite (List.filter_ext _ _ (tied_same_key k) df) in S.
    exact S.
  - apply StableSortFacts.sort_idempotent.
    + apply le_sequence_total.
    + apply le_sequence_trans.
Qed.

End LexsortFacts.

(** ** Statistics of the parser *)

Module StatisticsFacts.

Import LogParser LogParserSpec.

Lemma value_counts_lookup (col : list string) (v : string) :
  value_counts col !! v = counted (occurrences v col).
Proof.
  unfold counted, occurrences. induction col as [|x col IH]; [reflexivity|].
  cbn [value_counts List.filter].
  destruct (String.eqb_spec v x) as [->|Hne].
  - rewrite lookup_insert_eq, IH. cbn [length].
    generalize (length (List.filter (String.eqb x) col)) as n. intros n.
    destruct (Z.eqb_spec (Z.of_nat n) 0) as [E|E]; unfold default; cbn [from_option id];
      destruct (Z.eqb_spec (Z.of_nat (S n)) 0); try lia; f_equal; lia.
  - rewrite lookup_insert_ne by congruence. exact IH.
Qed.

Lemma counts_total_insert (d : gmap string Z) (v : string) (n : Z) :
  d !! v = None -> counts_total (<[v := n]> d) = (n + counts_total d)%Z.
Proof.
  intros H. unfold counts_total. apply map_fold_insert_L; [|exact H].
  intros. lia.
Qed.

Lemma counts_total_bump (d : gmap string Z) (v : string) :
  counts_total (<[v := (1 + default 0 (d !! v))%Z]> d) = (1 + counts_total d)%Z.
Proof.
  destruct (d !! v) as [n|] eqn:H; unfold default; cbn [from_option id].
  - rewrite <- (insert_delete_eq d).
    rewrite counts_total_insert by apply lookup_delete_eq.
    rewrite <- (insert_delete_id d v n H) at 2.
    rewrite counts_total_insert by apply lookup_delete_eq. lia.
  - rewrite counts_total_insert by exact H. lia.
Qed.

Lemma counts_total_value_counts (col : list string) :
  counts_total (value_counts col) = Z.of_nat (length col).
Proof.
  induction col as [|x col IH]; [reflexivity|].
  cbn [value_counts length]. rewrite counts_total_bump, IH. lia.
Qed.

Lemma nunique_remove_dups (col : list string) :
  nunique col = Z.of_nat (length (remove_dups col)).
Proof.
  unfold nunique. f_equal.
  rewrite <- (size_list_to_set (C := gset string) (remove_dups col))
    by apply NoDup_remove_dups.
  f_equal. apply set_eq. intros x.
  rewrite !elem_of_list_to_set, elem_of_remove_dups. reflexivity.
Qed.

(** [get_statistics] returns exactly when the span of the known times
    fits a [Timedelta]. *)
Lemma get_statistics_returns (df : DataFrame) :
  (period_span df <= timedelta_max)%Z -> is_Some (get_statistics df).
Proof.
  unfold period_span, known_times, get_statistics, timedelta_between.
  intros H. destruct df as [|r rest]; [eexists; reflexivity|].
  destruct (omap datetime (r :: rest)) as [|t ts]; [eexists; reflexivity|].
  apply Z.leb_le in H. cbn zeta. rewrite H. eexists; reflexivity.
Qed.

Lemma get_statistics_base (r : AlarmRecord) (rest : DataFrame)
  (stats : gmap string StatValue) (key : string) :
  get_statistics (r :: rest) = Some stats ->
  period_key key = false ->
  stats !! key = base_statistics (r :: rest) !! key.
Proof.
  intros E H. unfold period_key in H.
  apply orb_false_iff in H as [H H3]. apply orb_false_iff in H as [H1 H2].
  apply String.eqb_neq in H1, H2, H3.
  unfold get_statistics in E. fold (base_statistics (r :: rest)) in E.
  destruct (omap datetime (r :: rest)); [injection E as <-; reflexivity|].
  cbn zeta in E. destruct (timedelta_between _ _); [|discriminate].
  injection E as <-.
  rewrite !lookup_insert_ne by congruence. reflexivity.
Qed.

(** X11.  For a non-empty collection whose known times span no more
    than [Timedelta.max], [get_statistics] returns a dictionary that
    reports the number of rows, the numbers of distinct alarm codes and
    devices, and per stage and per file the exact number of rows, a
    value without rows having no entry; each of the two dictionaries of
    counts adds up to the number of rows. *)
Theorem get_statistics_counts (r : AlarmRecord) (rest : DataFrame) :
  let df := r :: rest in
  (period_span df <= timedelta_max)%Z ->
  exists stats,
    get_statistics df = Some stats
    /\ stats !! "total_records" = Some (VInt (Z.of_nat (length df)))
    /\ stats !! "unique_alarms"
       = Some (VInt (Z.of_nat (length (remove_dups (map alarm df)))))
    /\ stats !! "unique_pc_ids"
       = Some (VInt (Z.of_nat (length (remove_dups (map pc_id df)))))
    /\ exists by_type by_file,
         stats !! "records_by_type" = Some (VCounts by_type)
         /\ stats !! "records_by_file" = Some (VCounts by_file)
         /\ (forall stage, by_type !! stage = counted (occurrences stage (map type df)))
         /\ (forall file, by_file !! file = counted (occurrences file (map arquivo_origem df)))
         /\ counts_total by_type = Z.of_nat (length df)
         /\ counts_total by_file = Z.of_nat (length df).
Proof.
  cbn zeta. intros Hfit.
  destruct (get_statistics_returns _ Hfit) as [stats E].
  exists stats. split; [exact E|].
  rewrite !(get_statistics_base r rest stats _ E) by reflexivity.
  unfold base_statistics.
  split; [do 4 (rewrite lookup_insert_ne by discriminate); apply lookup_insert_eq|].
  split; [do 3 (rewrite lookup_insert_ne by discriminate);
          rewrite lookup_insert_eq, nunique_remove_dups; reflexivity|].
  split; [do 2 (rewrite lookup_insert_ne by discriminate);
          rewrite lookup_insert_eq, nunique_remove_dups; reflexivity|].
  exists (value_counts (map type (r :: rest))),
         (value_counts (map arquivo_origem (r :: rest))).
  split; [rewrite lookup_insert_ne by discriminate; apply lookup_insert_eq|].
  split; [apply lookup_insert_eq|].
  split; [intros; apply value_counts_lookup|].
  split; [intros; apply value_counts_lookup|].
  rewrite !counts_total_value_counts, !length_map. auto.
Qed.

(** X11, witness: three rows of two files, one of them without a time. *)
Lemma get_statistics_counts_witness :
  let row (file : string) (t : option Timestamp) :=
    {| arquivo_origem := file; timestamp := ""; datetime := t; pc_id := "PC510A00";
       alarm := "FMDOS01"; type := "CFN"; linha_original := "" |} in
  let df := [row "a.log" (Some 5%Z); row "b.log" None; row "a.log" (Some 9%Z)] in
  exists stats by_file,
    get_statistics df = Some stats
    /\ stats !! "total_records" = Some (VInt 3)
    /\ stats !! "records_by_file" = Some (VCounts by_file)
    /\ by_file !! "a.log" = Some 2%Z /\ by_file !! "c.log" = None.
Proof.
  cbn zeta.
  match goal with
  | |- context [get_statistics (?r :: ?rest)] =>
      destruct (get_statistics_counts r rest) as
        (stats & E & H1 & _ & _ & by_type & by_file & _ & H2 & _ & H3 & _);
      [cbv; discriminate|]
  end.
  exists stats, by_file. split; [exact E|]. split; [exact H1|]. split; [exact H2|].
  split; apply H3.
Defined.

Lemma series_min_spec (t : Timestamp) (ts : list Timestamp) :
  In (series_min t ts) (t :: ts) /\ Forall (fun x => (series_min t ts <= x)%Z) (t :: ts).
Proof.
  unfold series_min. induction ts as [|y ts [IHin IHle]]; cbn [foldr].
  - split; [left; reflexivity|]. repeat constructor. lia.
  - apply Forall_cons in IHle as [Ht Hts]. split.
    + destruct (Z.min_spec y (foldr Z.min t ts)) as [[_ ->]|[_ ->]].
      * right. left. reflexivity.
      * destruct IHin as [<-|Hin]; [left; reflexivity|right; right; exact Hin].
    + constructor; [lia|]. constructor; [lia|].
      eapply Forall_impl; [exact Hts|]. cbn. intros; lia.
Qed.

Lemma series_max_spec (t : Timestamp) (ts : list Timestamp) :
  In (series_max t ts) (t :: ts) /\ Forall (fun x => (x <= series_max t ts)%Z) (t :: ts).
Proof.
  unfold series_max. induction ts as [|y ts [IHin IHle]]; cbn [foldr].
  - split; [left; reflexivity|]. repeat constructor. lia.
  - apply Forall_cons in IHle as [Ht Hts]. split.
    + destruct (Z.max_spec y (foldr Z.max t ts)) as [[_ ->]|[_ ->]].
      * destruct IHin as [<-|Hin]; [left; reflexivity|right; right; exact Hin].
      * right. left. reflexivity.
    + constructor; [lia|]. constructor; [lia|].
      eapply Forall_impl; [exact Hts|]. cbn. intros; lia.
Qed.

(** X12.  The period of the statistics is computed over the rows with
    a known time only.  When no row has a known time the three period
    entries are absent.  When there is one, the earliest and the latest
    known time decide: if they are no more than [Timedelta.max] apart,
    [period_start] and [period_end] are those two times and
    [period_days] the whole days between them; if they are further
    apart, the subtraction raises and [get_statistics] returns no
    statistics at all. *)
Theorem get_statistics_period (df : DataFrame) :
  (known_times df = [] ->
     exists stats,
       get_statistics df = Some stats
       /\ stats !! "period_start" = None /\ stats !! "period_end" = None
       /\ stats !! "period_days" = None)
  /\ (forall t ts, known_times df = t :: ts ->
        exists first last,
          In first (known_times df) /\ In last (known_times df)
          /\ Forall (fun x => (first <= x <= last)%Z) (known_times df)
          /\ ((last - first <= timedelta_max)%Z ->
              exists stats days,
                get_statistics df = Some stats
                /\ stats !! "period_start" = Some (VTime first)
                /\ stats !! "period_end" = Some (VTime last)
                /\ stats !! "period_days" = Some (VInt days)
                /\ (0 <= days)%Z
                /\ (days * day_ns <= last - first < (days + 1) * day_ns)%Z)
          /\ ((timedelta_max < last - first)%Z -> get_statistics df = None)).
Proof.
  unfold known_times. split.
  - intros H. destruct df as [|r rest]; [exists ∅; repeat split|].
    unfold get_statistics. rewrite H. eexists. split; [reflexivity|]. repeat split.
  - intros t ts H. destruct df as [|r rest]; [discriminate|].
    unfold get_statistics, timedelta_between. rewrite H. cbn zeta.
    destruct (series_min_spec t ts) as [Hmin Hlow].
    destruct (series_max_spec t ts) as [Hmax Hhigh].
    exists (series_min t ts), (series_max t ts).
    split; [exact Hmin|]. split; [exact Hmax|].
    assert (Hle : (series_min t ts <= series_max t ts)%Z).
    { apply Forall_cons in Hlow as [H1 _]. apply Forall_cons in Hhigh as [H2 _]. lia. }
    split; [|split].
    + apply Forall_forall. intros x Hx.
      rewrite Forall_forall in Hlow, Hhigh. split; [apply Hlow|apply Hhigh]; exact Hx.
    + intros Hfit. apply Z.leb_le in Hfit. rewrite Hfit.
      eexists _, ((series_max t ts - series_min t ts) / day_ns)%Z.
      split; [reflexivity|].
      split; [rewrite !lookup_insert_ne by discriminate; apply lookup_insert_eq|].
      split; [rewrite lookup_insert_ne by discriminate; apply lookup_insert_eq|].
      split; [apply lookup_insert_eq|].
      assert (Hd : (0 < day_ns)%Z) by reflexivity.
      split; [apply Z.div_pos; lia|].
      pose proof (Z.mul_div_le (series_max t ts - series_min t ts) day_ns Hd).
      pose proof (Z.mul_succ_div_gt (series_max t ts - series_min t ts) day_ns Hd).
      lia.
    + intros Hover. apply Z.leb_gt in Hover. rewrite Hover. reflexivity.
Qed.

(** X12, witness: two rows one day and a half apart and one without a
    time give a period of one day; rows dated 1700-01-01 and 2100-01-01
    are 146097 days apart and give no statistics. *)
Lemma get_statistics_period_witness :
  let row (t : option Timestamp) :=
    {| arquivo_origem := "a.log"; timestamp := ""; datetime := t; pc_id := "PC510A00";
       alarm := "FMDOS01"; type := "CFN"; linha_original := "" |} in
  let df := [row (Some (3 * day_ns)%Z); row None; row (Some (3 * day_ns / 2)%Z)] in
  let far := [row (Some (-98615 * day_ns)%Z); row (Some (47482 * day_ns)%Z)] in
  (exists stats first last,
     get_statistics df = Some stats
     /\ stats !! "period_start" = Some (VTime first)
     /\ stats !! "period_end" = Some (VTime last)
     /\ stats !! "period_days" = Some (VInt 1)
     /\ (first <= last)%Z)
  /\ get_statistics far = None.
Proof.
  cbn zeta. split.
  - match goal with
    | |- context [get_statistics ?df] =>
        destruct (get_statistics_period df) as [_ H];
        destruct (H _ _ eq_refl) as (first & last & I1 & I2 & H3 & H4 & _)
    end.
    apply Forall_cons in H3 as [H3 H3']. apply Forall_cons in H3' as [H3' _].
    unfold day_ns in *.
    change ((3 * (86400 * 1000000000)) / 2)%Z with 129600000000000%Z in *.
    assert (E1 : first = 129600000000000%Z)
      by (destruct I1 as [<-|[<-|[]]]; [exfalso; lia|reflexivity]).
    assert (E2 : last = 259200000000000%Z)
      by (destruct I2 as [<-|[<-|[]]]; [reflexivity|exfalso; lia]).
    destruct H4 as (stats & days & E & P1 & P2 & P3 & D0 & D1);
      [rewrite E1, E2; discriminate|].
    exists stats, first, last. split; [exact E|].
    split; [exact P1|]. split; [exact P2|].
    split; [rewrite P3; do 2 f_equal; lia|lia].
  - reflexivity.
Defined.

End StatisticsFacts.

(** ** The statistics row of a run *)

Module RunRecordFacts.

Import LogParser LogParserSpec DatabaseLoader StatisticsFacts.

Lemma counted_default (n : Z) : default 0%Z (counted n) = n.
Proof. unfold counted. destruct (Z.eqb_spec n 0); cbn; congruence. Qed.

Lemma count_of_get_statistics (r : AlarmRecord) (rest : DataFrame)
  (stats : gmap string StatValue) (stage : string) :
  get_statistics (r :: rest) = Some stats ->
  count_of stats stage = Some (occurrences stage (map type (r :: rest))).
Proof.
  intros E. unfold count_of. rewrite (get_statistics_base r rest stats _ E) by reflexivity.
  unfold base_statistics. rewrite lookup_insert_ne by discriminate.
  rewrite lookup_insert_eq, value_counts_lookup, counted_default. reflexivity.
Qed.

Lemma three_stages_bound (col : list string) :
  (occurrences "CFN" col + occurrences "OK" col + occurrences "ACK" col
   <= Z.of_nat (length col))%Z.
Proof.
  unfold occurrences. induction col as [|x col IH]; cbn [List.filter length]; [lia|].
  destruct (String.eqb_spec "CFN" x), (String.eqb_spec "OK" x), (String.eqb_spec "ACK" x);
    subst; try discriminate; cbn [length]; lia.
Qed.

(** X13.  For a non-empty collection whose known times span no more
    than [Timedelta.max], the object that [save_etl_statistics] builds
    from the statistics [get_statistics] returns holds the number of
    rows, the numbers of rows of stage CFN, OK and ACK (rows of another
    stage are in none of them), the period entries of the statistics
    and the duration truncated to whole seconds; [total_files], which
    [LogParser.get_statistics] does not provide, takes its default 0. *)
Theorem statistics_object_of_collection (r : AlarmRecord) (rest : DataFrame)
  (num : Z) (den : positive) (status_text : string) :
  let df := r :: rest in
  (period_span df <= timedelta_max)%Z ->
  exists stats obj,
    get_statistics df = Some stats
    /\ new_statistics stats (Finite num den) status_text = Some obj
    /\ total_records obj = VInt (Z.of_nat (length df))
    /\ total_files obj = VInt 0
    /\ cfn_count obj = occurrences "CFN" (map type df)
    /\ ok_count obj = occurrences "OK" (map type df)
    /\ ack_count obj = occurrences "ACK" (map type df)
    /\ (cfn_count obj + ok_count obj + ack_count obj <= Z.of_nat (length df))%Z
    /\ period_start obj = stats !! "period_start"
    /\ period_end obj = stats !! "period_end"
    /\ execution_time_seconds obj = Z.quot num (Z.pos den)
    /\ status obj = status_text.
Proof.
  cbn zeta. intros Hfit.
  destruct (get_statistics_returns _ Hfit) as [stats E].
  exists stats. unfold new_statistics.
  rewrite !(count_of_get_statistics r rest stats _ E). cbn [py_int].
  eexists. split; [exact E|]. split; [reflexivity|].
  cbn [total_records total_files cfn_count ok_count ack_count period_start period_end
       execution_time_seconds status].
  rewrite !(get_statistics_base r rest stats "total_records" E) by reflexivity.
  rewrite !(get_statistics_base r rest stats "total_files" E) by reflexivity.
  unfold base_statistics.
  split; [do 4 (rewrite lookup_insert_ne by discriminate);
          rewrite lookup_insert_eq; reflexivity|].
  split; [do 5 (rewrite lookup_insert_ne by discriminate); reflexivity|].
  split; [reflexivity|]. split; [reflexivity|]. split; [reflexivity|].
  split; [|repeat split].
  pose proof (three_stages_bound (map type (r :: rest))) as H.
  rewrite length_map in H. exact H.
Qed.

(** X13, witness: a run of 2.5 seconds over two confirmations and one
    row of no stage. *)
Lemma statistics_object_of_collection_witness :
  let row (stage : string) (t : option Timestamp) :=
    {| arquivo_origem := "a.log"; timestamp := ""; datetime := t; pc_id := "PC510A00";
       alarm := "FMDOS01"; type := stage; linha_original := "" |} in
  let df := [row "CFN" (Some 5%Z); row "N/A" None; row "CFN" (Some 9%Z)] in
  exists stats obj,
    get_statistics df = Some stats
    /\ new_statistics stats (Finite 5 2) "success" = Some obj
    /\ total_records obj = VInt 3
    /\ cfn_count obj = 2%Z /\ ok_count obj = 0%Z /\ ack_count obj = 0%Z
    /\ execution_time_seconds obj = 2%Z.
Proof.
  cbn zeta.
  match goal with
  | |- context [get_statistics (?r :: ?rest)] =>
      destruct (statistics_object_of_collection r rest 5 2 "success") as
        (stats & obj & E & H1 & H2 & _ & H3 & H4 & H5 & _ & _ & _ & H6 & _);
      [cbv; discriminate|]
  end.
  exists stats, obj. split; [exact E|]. split; [exact H1|]. split; [exact H2|].
  split; [exact H3|]. split; [exact H4|]. split; [exact H5|exact H6].
Defined.

End RunRecordFacts.

(** ** The fields of a record *)

Module RecordShapeFacts.

Import Re ReFacts LogParser LogParserSpec LogParserFacts.

Lemma lang_groups_lang (r : regex) : forall w gs, lang_groups r w gs -> lang r w.
Proof.
  induction r as [c|p n|p|p|r1 IH1 r2 IH2|r IH]; cbn; intros w gs H;
    try (destruct H as [H _]; exact H).
  - destruct H as (w1 & w2 & g1 & g2 & -> & _ & H1 & H2).
    exists w1, w2. split; [reflexivity|].
    split; [eapply IH1|eapply IH2]; eassumption.
  - destruct H as (g & H & _). eapply IH. exact H.
Qed.

Lemma lang_groups_length (r : regex) : forall w gs,
  lang_groups r w gs -> length gs = ngroups r.
Proof.
  induction r as [c|p n|p|p|r1 IH1 r2 IH2|r IH]; cbn; intros w gs H;
    try (destruct H as [_ ->]; reflexivity).
  - destruct H as (w1 & w2 & g1 & g2 & _ & -> & H1 & H2).
    rewrite length_app, (IH1 _ _ H1), (IH2 _ _ H2). reflexivity.
  - destruct H as (g & H & ->). rewrite length_app, (IH _ _ H). cbn. lia.
Qed.

(** Soundness of the search with the captures it hands on. *)
Lemma match_k_groups (r : regex) : forall s caps k x,
  match_k r s caps k = Some x ->
  exists w rest gs,
    s = w ++ rest /\ lang_groups r w gs /\ k rest (caps ++ gs) = Some x.
Proof.
  induction r as [c|p n|p|p|r1 IH1 r2 IH2|r IH]; intros s caps k x H.
  - cbn in H. destruct s as [|c' s]; [discriminate|].
    destruct (Ascii.eqb c c') eqn:Hc; [|discriminate].
    apply Ascii.eqb_eq in Hc. subst c'.
    exists [c], s, []. rewrite app_nil_r. cbn. auto.
  - cbn in H. apply times_k_sound in H as (w & rest & -> & Hl & Hw & Hk).
    exists w, rest, []. rewrite app_nil_r. cbn. auto.
  - cbn in H. destruct s as [|c s]; [discriminate|].
    destruct (cls_test p c) eqn:Hc; [|discriminate].
    apply star_k_sound in H as (w & rest & -> & Hw & Hk).
    exists (c :: w), rest, []. rewrite app_nil_r. cbn.
    repeat split; auto; discriminate.
  - cbn in H. apply star_k_sound in H as (w & rest & -> & Hw & Hk).
    exists w, rest, []. rewrite app_nil_r. cbn. auto.
  - cbn in H. apply IH1 in H as (w1 & rest1 & g1 & -> & L1 & H).
    apply IH2 in H as (w2 & rest2 & g2 & -> & L2 & H).
    exists (w1 ++ w2), rest2, (g1 ++ g2). rewrite <- !app_assoc in *.
    split; [reflexivity|]. split; [|exact H].
    cbn. exists w1, w2, g1, g2. auto.
  - cbn in H. apply IH in H as (w & rest & g & -> & L & H).
    exists w, rest, (g ++ [w]). split; [reflexivity|].
    split; [cbn; eauto|].
    rewrite length_app, Nat.add_sub, take_app_length in H.
    rewrite <- app_assoc in H. exact H.
Qed.

Lemma re_match_groups_shape (r : regex) (s : string) (gs' : list string) :
  re_match r s = Some gs' ->
  exists w rest gs,
    PyStr.chars s = w ++ rest /\ lang_groups r w gs /\ gs' = map PyStr.text gs.
Proof.
  unfold re_match.
  destruct (match_k r (PyStr.chars s) [] _) as [caps|] eqn:H; [|discriminate].
  intros [= <-].
  apply match_k_groups in H as (w & rest & gs & Hs & L & [= <-]).
  exists w, rest, gs. auto.
Qed.

Lemma lang_groups_seq_of (rs : list regex) : forall w gs,
  lang_groups (seq_of rs) w gs ->
  exists wgs,
    Forall2 (fun r wg => lang_groups r (fst wg) (snd wg)) rs wgs
    /\ w = concat (map fst wgs) /\ gs = concat (map snd wgs).
Proof.
  induction rs as [|r rs IH]; intros w gs H.
  - cbn in H. destruct H as [[Hl _] ->].
    destruct w; [|discriminate]. exists []. split; [constructor|auto].
  - destruct rs as [|r' rs].
    + exists [(w, gs)]. split; [repeat constructor; exact H|].
      cbn. rewrite !app_nil_r. auto.
    + change (lang_groups (Seq r (seq_of (r' :: rs))) w gs) in H.
      destruct H as (w1 & w2 & g1 & g2 & -> & -> & H1 & H2).
      destruct (IH _ _ H2) as (wgs & Hwgs & -> & ->).
      exists ((w1, g1) :: wgs). split; [constructor; assumption|auto].
Qed.

(** The shape of a text whose pattern starts with [HEAD], with the
    three groups of [HEAD]. *)
Lemma head_shape (tail : list regex) (w : list ascii) (gs : captures) :
  lang_groups (seq_of (HEAD ++ tail)) w gs ->
  exists t ws1 p ws2 a ws3 wt gt,
    w = t ++ ws1 ++ "["%char :: p ++ "]"%char :: ws2 ++ a ++ ws3 ++ wt
    /\ gs = [t; p; a] ++ gt
    /\ lang timestamp_body t
    /\ lang (Plus Space) ws1 /\ lang (Plus NotRBracket) p
    /\ lang (Plus Space) ws2 /\ lang (Plus NonSpace) a
    /\ lang (Plus Space) ws3.
Proof.
  intros L. apply lang_groups_seq_of in L as (wgs & F & -> & ->).
  unfold HEAD in F. cbn [app] in F.
  apply Forall2_cons_inv_l in F as ([w1 g1] & wgs1 & L1 & F & ->).
  apply Forall2_cons_inv_l in F as ([w2 g2] & wgs2 & L2 & F & ->).
  apply Forall2_cons_inv_l in F as ([w3 g3] & wgs3 & L3 & F & ->).
  apply Forall2_cons_inv_l in F as ([w4 g4] & wgs4 & L4 & F & ->).
  apply Forall2_cons_inv_l in F as ([w5 g5] & wgs5 & L5 & F & ->).
  apply Forall2_cons_inv_l in F as ([w6 g6] & wgs6 & L6 & F & ->).
  apply Forall2_cons_inv_l in F as ([w7 g7] & wgs7 & L7 & F & ->).
  apply Forall2_cons_inv_l in F as ([w8 g8] & wgs8 & L8 & F & ->).
  cbn [fst snd] in *.
  destruct L1 as (g & L1 & ->).
  pose proof (lang_groups_length _ _ _ L1) as Hg.
  destruct g; [|discriminate]. apply lang_groups_lang in L1.
  destruct L2 as [L2 ->]. destruct L3 as [L3 ->].
  destruct L4 as (g & [L4 ->] & ->).
  destruct L5 as [L5 ->]. destruct L6 as [L6 ->].
  destruct L7 as (g & [L7 ->] & ->).
  destruct L8 as [L8 ->].
  cbn [lang] in L3, L5. subst w3 w5.
  exists w1, w2, w4, w6, w7, w8, (concat (map fst wgs8)), (concat (map snd wgs8)).
  split; [cbn; rewrite <- ?app_assoc; reflexivity|].
  split; [reflexivity|]. auto 10.
Qed.

Lemma strip_chars_solid_text (a : list ascii) :
  lang (Plus NonSpace) a -> PyStr.strip_chars a = a.
Proof.
  intros [Hne Ha].
  assert (Hs : forall c, In c a -> PyStr.isspace c = false).
  { rewrite List.Forall_forall in Ha. intros c Hc. specialize (Ha c Hc).
    cbn in Ha. apply negb_true_iff in Ha. exact Ha. }
  unfold PyStr.strip_chars, PyStr.rstrip_chars.
  destruct a as [|c a]; [congruence|].
  rewrite StripFacts.lstrip_chars_solid_head by (apply Hs; left; reflexivity).
  destruct (rev (c :: a)) as [|d u] eqn:Hr.
  - apply (f_equal (@length ascii)) in Hr. rewrite length_rev in Hr. discriminate.
  - rewrite StripFacts.lstrip_chars_solid_head.
    + rewrite <- Hr. apply rev_involutive.
    + apply Hs. apply in_rev. rewrite Hr. left. reflexivity.
Qed.

(** The groups of either pattern on a text. *)
Lemma pattern_groups_shape (tail : list regex) (s t p a : string) :
  ngroups (seq_of (HEAD ++ tail)) = 3 ->
  re_match (seq_of (HEAD ++ tail)) s = Some [t; p; a] ->
  exists ws1 ws2 ws3 rest,
    PyStr.chars s
    = PyStr.chars t ++ ws1 ++ "["%char :: PyStr.chars p ++ "]"%char :: ws2
      ++ PyStr.chars (PyStr.strip a) ++ ws3 ++ rest
    /\ lang timestamp_body (PyStr.chars t)
    /\ lang (Plus Space) ws1 /\ lang (Plus NotRBracket) (PyStr.chars p)
    /\ lang (Plus Space) ws2 /\ lang (Plus NonSpace) (PyStr.chars (PyStr.strip a))
    /\ lang (Plus Space) ws3.
Proof.
  intros Hn H. apply re_match_groups_shape in H as (w & rest & gs & Hs & L & E).
  pose proof (lang_groups_length _ _ _ L) as Hlen. rewrite Hn in Hlen.
  apply head_shape in L
    as (t0 & ws1 & p0 & ws2 & a0 & ws3 & wt & gt & -> & -> & Lt & L1 & Lp & L2 & La & L3).
  destruct gt; [|discriminate]. cbn in E. injection E as -> -> ->.
  unfold PyStr.strip. rewrite !PyStrFacts.chars_text.
  rewrite (strip_chars_solid_text _ La).
  exists ws1, ws2, ws3, (wt ++ rest).
  split; [rewrite Hs; repeat (rewrite <- ?app_assoc; cbn [app]); reflexivity|].
  auto 10.
Qed.

(** X14.  The fields of a record are read off the trimmed line in
    order: it starts with the timestamp text of the fixed format,
    then white space, the device identifier between brackets, white
    space, the alarm code, white space.  So the timestamp has the
    shape of the pattern, the device identifier is not empty and has no
    closing bracket, and the alarm code is not empty and has no white
    space (it is already trimmed). *)
Theorem parse_line_fields (to_datetime : string -> option Timestamp)
  (line source_file : string) (r : AlarmRecord) :
  parse_line to_datetime line source_file = Some r ->
  exists ws1 ws2 ws3 rest,
    PyStr.chars (linha_original r)
    = PyStr.chars (timestamp r) ++ ws1 ++ "["%char :: PyStr.chars (pc_id r)
      ++ "]"%char :: ws2 ++ PyStr.chars (alarm r) ++ ws3 ++ rest
    /\ lang timestamp_body (PyStr.chars (timestamp r))
    /\ lang (Plus Space) ws1 /\ lang (Plus NotRBracket) (PyStr.chars (pc_id r))
    /\ lang (Plus Space) ws2 /\ lang (Plus NonSpace) (PyStr.chars (alarm r))
    /\ lang (Plus Space) ws3.
Proof.
  unfold parse_line.
  destruct (negb _); [discriminate|].
  destruct (re_match PATTERN_ACK _) as [gs|] eqn:HA.
  - destruct (re_match_three _ _ _ ngroups_PATTERN_ACK HA) as (t & p & a & ->).
    intros [= <-]. cbn [linha_original timestamp pc_id alarm _create_record].
    apply (pattern_groups_shape
             [word "ALARM"; Plus Space; word "is"; Plus Space; word "acknowledged";
              Star Dot]); [reflexivity|exact HA].
  - destruct (re_match PATTERN_FULL _) as [gs|] eqn:HF; [|discriminate].
    destruct (re_match_three _ _ _ ngroups_PATTERN_FULL HF) as (t & p & a & ->).
    intros [= <-]. cbn [linha_original timestamp pc_id alarm _create_record].
    apply (pattern_groups_shape [Star Dot]); [reflexivity|exact HF].
Qed.

(** X14, witness: the fields of the acknowledgment line. *)
Lemma parse_line_fields_witness :
  exists r ws1 ws2 ws3 rest,
    parse_line Fixtures.digits_clock Fixtures.ack_line_as_read "a.log" = Some r
    /\ PyStr.chars (linha_original r)
       = PyStr.chars (timestamp r) ++ ws1 ++ "["%char :: PyStr.chars (pc_id r)
         ++ "]"%char :: ws2 ++ PyStr.chars (alarm r) ++ ws3 ++ rest
    /\ lang (Plus NonSpace) (PyStr.chars (alarm r)).
Proof.
  destruct (parse_line Fixtures.digits_clock Fixtures.ack_line_as_read "a.log")
    as [r|] eqn:H; [|vm_compute in H; discriminate].
  destruct (parse_line_fields _ _ _ _ H)
    as (ws1 & ws2 & ws3 & rest & E & _ & _ & _ & _ & La & _).
  exists r, ws1, ws2, ws3, rest. auto.
Defined.

End RecordShapeFacts.

(** ** Suffixes and the listing *)

Module SuffixFacts.

Import FileReader.

Lemma rfind_dot_none (l : list ascii) :
  Forall (fun c => c <> "."%char) l -> rfind_dot l = None.
Proof.
  induction 1 as [|c l Hc _ IH]; cbn; [reflexivity|].
  rewrite IH. destruct (Ascii.eqb_spec c "."); [congruence|reflexivity].
Qed.

Lemma rfind_dot_last (stem ext : list ascii) :
  Forall (fun c => c <> "."%char) ext ->
  rfind_dot (stem ++ "."%char :: ext) = Some (length stem).
Proof.
  intros He. induction stem as [|c stem IH]; cbn.
  - rewrite (rfind_dot_none _ He). reflexivity.
  - rewrite IH. reflexivity.
Qed.

(** [suffix] of a name whose last dot is followed by [ext]. *)
Lemma suffix_of_name (stem ext : list ascii) :
  Forall (fun c => c <> "."%char) ext ->
  suffix (PyStr.text (stem ++ "."%char :: ext))
  = match stem, ext with
    | _ :: _, _ :: _ => PyStr.text ("."%char :: ext)
    | _, _ => ""
    end.
Proof.
  intros He. unfold suffix. rewrite PyStrFacts.chars_text, (rfind_dot_last _ _ He).
  destruct stem as [|c stem]; [reflexivity|].
  destruct ext as [|e ext].
  - replace ((length (c :: stem) <? length ((c :: stem) ++ ["."%char]) - 1)%nat)
      with false; [rewrite andb_false_r; reflexivity|].
    symmetry. apply Nat.ltb_ge. rewrite length_app. cbn. lia.
  - replace ((0 <? length (c :: stem))%nat
             && (length (c :: stem)
                 <? length ((c :: stem) ++ "."%char :: e :: ext) - 1)%nat)
      with true.
    + rewrite drop_app_length. reflexivity.
    + symmetry. apply andb_true_iff. split; apply Nat.ltb_lt;
        rewrite ?length_app; cbn; lia.
Qed.

(** X15.  Only the text after the last dot of the name decides the
    selection: in an existing directory that can be listed and all of
    whose entries can be examined ([is_file] raises on none), an entry
    that is a file and is named [stem.ext], with no dot in [ext], is
    listed exactly when [stem] is not empty and [.ext] is [.log] up to
    letter case; a name that starts with its only dot, such as [.log],
    is never listed. *)
Theorem list_files_by_last_suffix (fs : FileSystem) (entries : list Path)
  (stem ext : list ascii) :
  dir_exists fs = Some true -> iterdir fs = Some entries ->
  Forall (fun f => is_file fs f <> None) entries ->
  Forall (fun c => c <> "."%char) ext ->
  In (PyStr.text (stem ++ "."%char :: ext)) entries ->
  is_file fs (PyStr.text (stem ++ "."%char :: ext)) = Some true ->
  In (PyStr.text (stem ++ "."%char :: ext)) (list_files fs)
  <-> stem <> [] /\ upper (PyStr.text ("."%char :: ext)) = upper Config.file_extension.
Proof.
  intros Hd Hi Hok He Hin Hf.
  rewrite (FileReaderFacts.In_list_files fs entries _ Hd Hi Hok), (suffix_of_name _ _ He).
  destruct stem as [|c stem].
  - split; [intros (_ & _ & H); discriminate|intros [H _]; congruence].
  - destruct ext as [|e ext].
    + split; [intros (_ & _ & H); discriminate|intros [_ H]; discriminate].
    + split; [intros (_ & _ & H); split; [discriminate|exact H]|].
      intros [_ H]. auto.
Qed.

(** X15, witness: [c.LOG] is listed. *)
Lemma list_files_by_last_suffix_witness :
  In "c.LOG" (list_files Fixtures.fs_with_unreadable)
  <-> ["c"%char] <> [] /\ upper ".LOG" = upper Config.file_extension.
Proof.
  apply (list_files_by_last_suffix Fixtures.fs_with_unreadable
           ["c.LOG"; "bad.log"; "a.log"; "notes.txt"] ["c"%char] (PyStr.chars "LOG"));
    try reflexivity.
  - repeat constructor; discriminate.
  - repeat constructor; discriminate.
  - left. reflexivity.
Defined.

End SuffixFacts.

(** ** Statistics and the order of the rows *)

Module OrderFreeFacts.

Import LogParser LogParserSpec StatisticsFacts.

Lemma occurrences_Permutation (v : string) (l k : list string) :
  Permutation l k -> occurrences v l = occurrences v k.
Proof.
  intros H. unfold occurrences. f_equal. apply Permutation_length.
  induction H as [|x l k _ IH|x y l|l k m _ IH1 _ IH2]; cbn.
  - reflexivity.
  - destruct (String.eqb v x); [constructor|]; exact IH.
  - destruct (String.eqb v x), (String.eqb v y); try reflexivity. apply perm_swap.
  - etransitivity; eassumption.
Qed.

Lemma value_counts_Permutation (l k : list string) :
  Permutation l k -> value_counts l = value_counts k.
Proof.
  intros H. apply map_eq. intros v.
  rewrite !value_counts_lookup, (occurrences_Permutation v l k H). reflexivity.
Qed.

Lemma nunique_Permutation (l k : list string) :
  Permutation l k -> nunique l = nunique k.
Proof.
  intros H. unfold nunique. do 2 f_equal. apply set_eq. intros x.
  rewrite !elem_of_list_to_set. rewrite H. reflexivity.
Qed.

Lemma omap_datetime_Permutation (df df' : DataFrame) :
  Permutation df df' -> Permutation (omap datetime df) (omap datetime df').
Proof. intros H. rewrite H. reflexivity. Qed.

Lemma series_min_Permutation (t t' : Timestamp) (ts ts' : list Timestamp) :
  Permutation (t :: ts) (t' :: ts') -> series_min t ts = series_min t' ts'.
Proof.
  intros H.
  destruct (series_min_spec t ts) as [I1 L1], (series_min_spec t' ts') as [I2 L2].
  rewrite Forall_forall in L1, L2.
  assert (series_min t ts <= series_min t' ts')%Z.
  { apply L1. apply list_elem_of_In. apply (Permutation_in _ (Permutation_sym H)).
    exact I2. }
  assert (series_min t' ts' <= series_min t ts)%Z.
  { apply L2. apply list_elem_of_In. apply (Permutation_in _ H). exact I1. }
  lia.
Qed.

Lemma series_max_Permutation (t t' : Timestamp) (ts ts' : list Timestamp) :
  Permutation (t :: ts) (t' :: ts') -> series_max t ts = series_max t' ts'.
Proof.
  intros H.
  destruct (series_max_spec t ts) as [I1 L1], (series_max_spec t' ts') as [I2 L2].
  rewrite Forall_forall in L1, L2.
  assert (series_max t' ts' <= series_max t ts)%Z.
  { apply L1. apply list_elem_of_In. apply (Permutation_in _ (Permutation_sym H)).
    exact I2. }
  assert (series_max t ts <= series_max t' ts')%Z.
  { apply L2. apply list_elem_of_In. apply (Permutation_in _ H). exact I1. }
  lia.
Qed.

(** X16.  [get_statistics] does not depend on the order of the rows:
    two collections with the same rows in any order have the same
    statistics, so grouping the collection does not change them. *)
Theorem get_statistics_order_free (df df' : DataFrame) :
  Permutation df df' -> get_statistics df = get_statistics df'.
Proof.
  intros H.
  pose proof (omap_datetime_Permutation _ _ H) as Ht.
  destruct df as [|r rest], df' as [|r' rest'].
  - reflexivity.
  - apply Permutation_nil in H. discriminate.
  - symmetry in H. apply Permutation_nil in H. discriminate.
  - unfold get_statistics.
    rewrite (value_counts_Permutation _ _ (Permutation_map arquivo_origem H)).
    rewrite (value_counts_Permutation _ _ (Permutation_map type H)).
    rewrite (nunique_Permutation _ _ (Permutation_map pc_id H)).
    rewrite (nunique_Permutation _ _ (Permutation_map alarm H)).
    rewrite (Permutation_length H).
    destruct (omap datetime (r :: rest)) as [|t ts],
             (omap datetime (r' :: rest')) as [|t' ts'].
    + reflexivity.
    + apply Permutation_nil in Ht. discriminate.
    + symmetry in Ht. apply Permutation_nil in Ht. discriminate.
    + rewrite (series_min_Permutation _ _ _ _ Ht), (series_max_Permutation _ _ _ _ Ht).
      reflexivity.
Qed.

(** X16, witness: the statistics of a collection and of its grouping. *)
Lemma get_statistics_order_free_witness :
  get_statistics (group_alarm_sequences Fixtures.mixed_frame)
  = get_statistics Fixtures.mixed_frame.
Proof.
  apply get_statistics_order_free.
  rewrite LexsortFacts.group_alarm_sequences_sort.
  apply PySortFacts.sort_Permutation.
Defined.

End OrderFreeFacts.

(** ** Where the consolidated rows come from *)

Module OriginFacts.

Import LogParser.

Lemma sort_values_datetime_rows (argsort : list Timestamp -> list nat) (df : DataFrame)
  (r : AlarmRecord) :
  In r (sort_values_datetime argsort df) -> In r df.
Proof.
  unfold sort_values_datetime. intros H.
  apply list_elem_of_In, list_elem_of_omap in H as (i & _ & Hi).
  apply list_elem_of_In, list_elem_of_lookup. eauto.
Qed.

(** X17.  Consolidation never invents a row: whatever order the sort
    of the library returns, every row of the result was parsed from a
    line of one of the given files and carries the name of that file. *)
Theorem consolidated_rows_origin (to_datetime : string -> option Timestamp)
  (argsort : list Timestamp -> list nat) (file_infos : list FileReader.FileInfo) :
  Forall (fun r =>
            exists file_info,
              In file_info file_infos
              /\ In r (parse_file to_datetime (FileReader.lines file_info)
                         (FileReader.filename file_info))
              /\ arquivo_origem r = FileReader.filename file_info)
         (parse_multiple_files to_datetime argsort file_infos).
Proof.
  apply Forall_forall. intros r Hr. apply list_elem_of_In in Hr.
  assert (Hin : In r (concat (collect_dataframes to_datetime file_infos))).
  { unfold parse_multiple_files in Hr.
    destruct (collect_dataframes to_datetime file_infos) as [|df dfs]; [destruct Hr|].
    apply sort_values_datetime_rows in Hr. exact Hr. }
  rewrite ConsolidatorFacts.collect_dataframes_concat in Hin.
  apply in_flat_map in Hin as (fi & Hfi & Hr').
  exists fi. split; [exact Hfi|]. split; [exact Hr'|].
  pose proof (ParseFileFacts.parse_file_source to_datetime (FileReader.lines fi)
                (FileReader.filename fi)) as Hs.
  rewrite Forall_forall in Hs. apply Hs. apply list_elem_of_In. exact Hr'.
Qed.

End OriginFacts.

(** ** The clock of the log generator *)

Module GeneratorFacts.

Import GenerateTestLogs.

(** X18.  On a valid clock reading and a non-negative increment,
    [incrementar_tempo] returns valid hours and minutes and advances
    the clock by the increment, wrapping at midnight; but it carries
    only one minute, so the seconds it returns are below 60 exactly
    when the seconds and the increment add up to less than 120.  With
    the default increment (a draw from 1 to 30) they always are. *)
Theorem incrementar_tempo_clock (hora minuto segundo : Z) (incremento_seg : option Z)
  (randint_1_30 : Z) :
  (0 <= hora < 24)%Z -> (0 <= minuto < 60)%Z -> (0 <= segundo < 60)%Z ->
  (1 <= randint_1_30 <= 30)%Z ->
  (forall i, incremento_seg = Some i -> 0 <= i)%Z ->
  let increment := default randint_1_30 incremento_seg in
  let '(h, m, s) := incrementar_tempo hora minuto segundo incremento_seg randint_1_30 in
  (0 <= h < 24)%Z /\ (0 <= m < 60)%Z /\ (0 <= s)%Z
  /\ (seconds_of_day h m s = seconds_of_day hora minuto segundo + increment
      \/ seconds_of_day h m s + 86400
         = seconds_of_day hora minuto segundo + increment)%Z
  /\ ((s < 60)%Z <-> (segundo + increment < 120)%Z)
  /\ (incremento_seg = None -> (s < 60)%Z).
Proof.
  intros Hh Hm Hs Hr Hi. unfold incrementar_tempo, seconds_of_day.
  assert (Hinc : (0 <= default randint_1_30 incremento_seg)%Z).
  { destruct incremento_seg as [i|]; cbn; [apply Hi; reflexivity|lia]. }
  assert (Hnone : incremento_seg = None -> default randint_1_30 incremento_seg = randint_1_30)
    by (intros ->; reflexivity).
  change (match incremento_seg with None => randint_1_30 | Some i => i end)
    with (default randint_1_30 incremento_seg).
  generalize dependent (default randint_1_30 incremento_seg). intros inc Hinc Hnone.
  cbn zeta.
  destruct (Z.leb_spec 60 (segundo + inc)) as [H1|H1].
  - destruct (Z.leb_spec 60 (minuto + 1)) as [H2|H2];
      [destruct (Z.leb_spec 24 (hora + 1)) as [H3|H3]
      |destruct (Z.leb_spec 24 hora) as [H3|H3]];
      repeat split; try lia; intros E; specialize (Hnone E); lia.
  - destruct (Z.leb_spec 60 minuto) as [H2|H2]; [lia|].
    destruct (Z.leb_spec 24 hora) as [H3|H3]; [lia|].
    repeat split; try lia.
Qed.

(** X18, witness: 07:12:50 advanced by 120 seconds reads 07:13:110. *)
Lemma incrementar_tempo_clock_witness :
  incrementar_tempo 7 12 50 (Some 120%Z) 1 = (7, 13, 110)%Z
  /\ ((110 < 60)%Z <-> (50 + 120 < 120)%Z).
Proof.
  split; [reflexivity|].
  pose proof (incrementar_tempo_clock 7 12 50 (Some 120%Z) 1) as H.
  cbn in H. apply H; try lia. intros i [= <-]. lia.
Defined.

End GeneratorFacts.
